(** * transcribe.py: timestamp formatting, transcript layout, progress
      indicator and batch driver

    A shallow embedding of [src/transcribe.py].  The script is a linear
    driver around two external collaborators (the speech engine and the
    progress bar); both are modelled by their observable contract, the
    script's own code is transcribed statement by statement.

    Conventions of the model:
    - a Python [float] is an IEEE 754 binary64 number: a finite number,
      held as the exact rational it denotes, an infinity or NaN.  The
      operations [+], [-] and [/] round the exact result to the nearest
      number of 53 significant bits in the exponent range of binary64,
      ties to even, with overflow to an infinity; [fmod] and [floor]
      are exact; [//], [%] and [int] are the code of CPython's
      [floatobject.c] over these.  The two zeros are one number: no
      operation of the script tells them apart;
    - the times and the probability that the engine reports are finite
      floats;
    - a Python [str] is a [string] whose characters are the code points
      below 256;
    - the file system is a finite map from path strings to file contents;
    - [print] appends to a list of written lines. *)

From Stdlib Require Import ZArith QArith Qround Qcanon Qabs Qpower Lia Lqa.
From Stdlib Require Import Ascii String Decimal DecimalString DecimalPos DecimalN.
From stdpp Require Import base numbers list strings gmap.

Local Open Scope Z_scope.

(** ** Python built-ins used by the script *)

Module Py.

(** How an expression ends: with a value, or with an exception. *)
Inductive Result (A : Type) : Type :=
| Ok (a : A)
| Raise (exc : string).
Arguments Ok {A} a.
Arguments Raise {A} exc.

#[global] Instance result_ret : MRet Result := fun A a => Ok a.

#[global] Instance result_bind : MBind Result := fun A B k r =>
  match r with
  | Ok a => k a
  | Raise exc => Raise exc
  end.

(** *** Floats *)

(** The rational of an integer. *)
Definition of_Z (z : Z) : Qc := Q2Qc (inject_Z z).

(** [2 ** z] as a rational. *)
Definition pow2 (z : Z) : Q := (2 ^ z)%Q.

(** [floor(log2(q))] for [0 < q]. *)
Definition ilog2 (q : Q) : Z :=
  let l := Z.log2 (Qnum q) - Z.log2 (Zpos (Qden q)) in
  if Qle_bool (pow2 l) q then l else l - 1.

(** The nearest integer, ties to the even one. *)
Definition round_half_even (q : Q) : Z :=
  let r := Qfloor q in
  match (q - inject_Z r ?= 1 # 2)%Q with
  | Lt => r
  | Gt => r + 1
  | Eq => if Z.even r then r else r + 1
  end.

(** The exponent of the spacing of the binary64 numbers around [q], for
    [0 < q]: 53 significant bits, and no spacing finer than
    [2 ** -1074]. *)
Definition ulp_exp (q : Q) : Z := Z.max (ilog2 q - 52) (-1074).

(** The multiple of that spacing nearest to [q], for [0 < q]. *)
Definition nearest_pos (q : Q) : Q :=
  let e := ulp_exp q in
  (inject_Z (round_half_even (q / pow2 e)) * pow2 e)%Q.

(** A float: a finite number, an infinity or NaN. *)
Inductive float : Type :=
| Finite (q : Qc)
| Inf (negative : bool)
| NaN.

(** The float that the exact result [q] of an operation is rounded to:
    the nearest binary64 number, or an infinity when that is
    [2 ** 1024] or more in magnitude. *)
Definition rnd (q : Q) : float :=
  match Qnum q with
  | Z0 => Finite (Q2Qc 0)
  | Zpos _ =>
      let y := nearest_pos q in
      if Qle_bool (pow2 1024) y then Inf false else Finite (Q2Qc y)
  | Zneg _ =>
      let y := nearest_pos (- q) in
      if Qle_bool (pow2 1024) y then Inf true else Finite (Q2Qc (- y))
  end.

(** [float(z)] for an integer [z]; also the float of a decimal
    literal, when [z] is replaced by a fraction. *)
Definition float_of_Z (z : Z) : float := rnd (inject_Z z).

(** [q] is a binary64 number: rounding leaves it as it is. *)
Definition is_binary64 (q : Qc) : bool :=
  match rnd q with
  | Finite y => Qeq_bool y q
  | _ => false
  end.

(** A float that is finite. *)
Record finite_float : Type := {
  value : Qc;
  value_ok : is_binary64 value = true
}.

Definition to_float (x : finite_float) : float := Finite (value x).

(** [x + y]. *)
Definition add (x y : float) : float :=
  match x, y with
  | NaN, _ | _, NaN => NaN
  | Inf a, Inf b => if Bool.eqb a b then Inf a else NaN
  | Inf a, Finite _ => Inf a
  | Finite _, Inf b => Inf b
  | Finite a, Finite b => rnd (a + b)
  end.

(** [x - y]. *)
Definition sub (x y : float) : float :=
  match x, y with
  | NaN, _ | _, NaN => NaN
  | Inf a, Inf b => if Bool.eqb a b then NaN else Inf a
  | Inf a, Finite _ => Inf a
  | Finite _, Inf b => Inf (negb b)
  | Finite a, Finite b => rnd (a - b)
  end.

(** [q < 0] and [q != 0] for a finite number. *)
Definition negative (q : Qc) : bool := bool_decide (q < Q2Qc 0)%Qc.

Definition nonzero (q : Qc) : bool := negb (Qeq_bool q 0).

(** [x / y] for a divisor that is not zero (both callers test the
    divisor before they divide). *)
Definition div (x y : float) : float :=
  match x, y with
  | NaN, _ | _, NaN => NaN
  | Inf _, Inf _ => NaN
  | Inf a, Finite b => Inf (xorb a (negative b))
  | Finite _, Inf _ => Finite (Q2Qc 0)
  | Finite a, Finite b => if nonzero b then rnd (a / b) else NaN
  end.

(** Truncation towards zero. *)
Definition trunc (q : Q) : Z := Z.quot (Qnum q) (Zpos (Qden q)).

(** C's [fmod(x, y)]: the remainder of the division truncated towards
    zero.  It is exact and has the sign of [x]. *)
Definition fmod (x y : float) : float :=
  match x, y with
  | NaN, _ | _, NaN => NaN
  | Inf _, _ => NaN
  | Finite a, Inf _ => Finite a
  | Finite a, Finite b =>
      if nonzero b then Finite (Q2Qc (a - b * inject_Z (trunc (a / b))))
      else NaN
  end.

(** C's [floor(x)]. *)
Definition floor (x : float) : float :=
  match x with
  | Finite a => Finite (of_Z (Qfloor a))
  | _ => x
  end.

(** [x < y]. *)
Definition lt (x y : float) : bool :=
  match x, y with
  | NaN, _ | _, NaN => false
  | Inf a, Inf b => a && negb b
  | Inf a, Finite _ => a
  | Finite _, Inf b => negb b
  | Finite a, Finite b => bool_decide (a < b)%Qc
  end.

(** [x <= y]. *)
Definition le (x y : float) : bool :=
  match x, y with
  | NaN, _ | _, NaN => false
  | Inf a, Inf b => a || negb b
  | Inf a, Finite _ => a
  | Finite _, Inf b => negb b
  | Finite a, Finite b => bool_decide (a <= b)%Qc
  end.

(** The truth value of a float in C: it is not zero. *)
Definition truth (x : float) : bool :=
  match x with
  | Finite a => nonzero a
  | _ => true
  end.

(** [v % w] on floats: [float_rem] of [floatobject.c].  The remainder
    of [fmod] gets the sign of the divisor by one rounded addition. *)
Definition mod_ (v w : float) : Result float :=
  if negb (truth w) then Raise "ZeroDivisionError"
  else
    let rem := fmod v w in
    Ok (if truth rem then
          if xorb (lt w (Finite (Q2Qc 0))) (lt rem (Finite (Q2Qc 0)))
          then add rem w
          else rem
        else Finite (Q2Qc 0)).

(** [v // w] on floats: [float_floor_div] of [floatobject.c], through
    [_float_div_mod]: the quotient of [v - fmod(v, w)] by [w], one less
    when the remainder had to change sign, snapped to the nearest
    whole number. *)
Definition floordiv (v w : float) : Result float :=
  if negb (truth w) then Raise "ZeroDivisionError"
  else
    let rem := fmod v w in
    let div := div (sub v rem) w in
    let div :=
      if truth rem && xorb (lt w (Finite (Q2Qc 0))) (lt rem (Finite (Q2Qc 0)))
      then sub div (Finite (Q2Qc 1))
      else div in
    Ok (if truth div then
          let floordiv := floor div in
          if lt (Finite (Q2Qc (1 # 2))) (sub div floordiv)
          then add floordiv (Finite (Q2Qc 1))
          else floordiv
        else Finite (Q2Qc 0)).

(** [int(x)]: truncation towards zero; an infinity and NaN have no
    integer. *)
Definition int (x : float) : Result Z :=
  match x with
  | Finite a => Ok (trunc a)
  | Inf _ => Raise "OverflowError"
  | NaN => Raise "ValueError"
  end.

(** *** Strings *)

(** Decimal digits of a natural number, as [str(n)] prints them. *)
Definition digits (n : N) : string := NilZero.string_of_uint (N.to_uint n).

(** ['0' * k]. *)
Fixpoint zeros (k : nat) : string :=
  match k with
  | O => ""
  | S k' => String "0" (zeros k')
  end.

(** Left padding with ['0'] up to [width] characters. *)
Definition zfill (width : nat) (s : string) : string :=
  zeros (width - String.length s) +:+ s.

(** [f"{n:02d}"]: sign-aware zero padding to a minimum width of two;
    the sign, when there is one, counts in the width. *)
Definition format_02d (n : Z) : string :=
  if n <? 0 then "-" +:+ zfill 1 (digits (Z.abs_N n))
  else zfill 2 (digits (Z.abs_N n)).

(** ['\n']. *)
Definition nl : string := String "010"%char "".

(** [s * k] for a string [s]. *)
Fixpoint repeat (s : string) (k : nat) : string :=
  match k with
  | O => ""
  | S k' => s +:+ repeat s k'
  end.

(** [sep.join(ls)]. *)
Definition join (sep : string) (ls : list string) : string :=
  String.concat sep ls.

(** [c.isspace()] on the code points below 256: the characters Python
    treats as whitespace are U+0009..U+000D, U+001C..U+001F, U+0020,
    U+0085 and U+00A0. *)
Definition isspace (c : ascii) : bool :=
  let k := N_of_ascii c in
  ((9 <=? k) && (k <=? 13) || (28 <=? k) && (k <=? 32)
   || (k =? 133) || (k =? 160))%N.

(** [s.lstrip()]. *)
Fixpoint lstrip (s : string) : string :=
  match s with
  | "" => ""
  | String c s' => if isspace c then lstrip s' else s
  end.

(** [s.rstrip()]. *)
Fixpoint rstrip (s : string) : string :=
  match s with
  | "" => ""
  | String c s' =>
      match rstrip s' with
      | "" => if isspace c then "" else String c ""
      | r => String c r
      end
  end.

(** [s.strip()]. *)
Definition strip (s : string) : string := rstrip (lstrip s).

(** [s[i:]] for [0 <= i]. *)
Fixpoint drop (i : nat) (s : string) : string :=
  match i, s with
  | O, _ => s
  | S i', String _ s' => drop i' s'
  | S _, "" => ""
  end.

(** [s[:i]] for [0 <= i]. *)
Fixpoint take (i : nat) (s : string) : string :=
  match i, s with
  | S i', String c s' => String c (take i' s')
  | _, _ => ""
  end.

(** [s.rfind(c)]: the index of the last occurrence of [c], [-1] when
    there is none. *)
Fixpoint rfind (c : ascii) (s : string) : Z :=
  match s with
  | "" => -1
  | String a s' =>
      let r := rfind c s' in
      if 0 <=? r then r + 1
      else if Ascii.eqb a c then 0 else -1
  end.

(** [c in s]. *)
Fixpoint contains (c : ascii) (s : string) : bool :=
  match s with
  | "" => false
  | String a s' => Ascii.eqb a c || contains c s'
  end.

(** [s.split(sep)] for a one-character separator. *)
Fixpoint split (sep : ascii) (s : string) : list string :=
  match s with
  | "" => [""]
  | String a s' =>
      if Ascii.eqb a sep then "" :: split sep s'
      else match split sep s' with
           | x :: r => String a x :: r
           | [] => [String a ""]
           end
  end.

(** [round(q)] to two places, as the [f] presentation type does it:
    the exact value is rounded, ties to even. *)
Definition format_2f (x : Qc) : string :=
  let neg := negative x in
  let a := if neg then (- x)%Qc else x in
  let r := round_half_even (a * 100)%Q in
  (if neg then "-" else "") +:+ digits (Z.to_N (r / 100)) +:+ "."
    +:+ zfill 2 (digits (Z.to_N (r mod 100))).

End Py.

(** ** [format_timestamp] *)

Definition format_timestamp (seconds : Py.float) : Py.Result string :=
  hours ← Py.floordiv seconds (Py.float_of_Z 3600);
  h ← Py.int hours;
  rest ← Py.mod_ seconds (Py.float_of_Z 3600);
  minutes ← Py.floordiv rest (Py.float_of_Z 60);
  m ← Py.int minutes;
  secs ← Py.mod_ seconds (Py.float_of_Z 60);
  s ← Py.int secs;
  mret (Py.format_02d h +:+ ":" +:+ Py.format_02d m +:+ ":" +:+ Py.format_02d s).

(** ** [pathlib]: pure POSIX paths

    A parsed path is its root (the empty string, one slash or two) and
    the list of its components; this is the representation [pathlib]
    itself keeps.  The drive is always empty on POSIX and is left out. *)

Module pathlib.

Record PurePath : Type := { root : string; tail : list string }.

(** [part.lstrip('/')]. *)
Fixpoint lstrip_sep (part : string) : string :=
  match part with
  | String "/" rest => lstrip_sep rest
  | _ => part
  end.

(** [splitroot]: exactly two leading slashes are kept as a root of
    their own, any other number of them is one slash. *)
Definition splitroot (part : string) : string * string :=
  match part with
  | String "/" _ =>
      let stripped_part := lstrip_sep part in
      if (String.length part - String.length stripped_part =? 2)%nat
      then ("//", stripped_part)
      else ("/", stripped_part)
  | _ => ("", part)
  end.

(** A component is kept when it is neither empty nor ['.']. *)
Definition keep (x : string) : bool :=
  negb (String.eqb x "") && negb (String.eqb x ".").

(** [Path(s)]: [parse_parts] on one argument. *)
Definition Path (s : string) : PurePath :=
  let '(root, rel) := splitroot s in
  {| root := root; tail := List.filter keep (Py.split "/" rel) |}.

(** [str(path)]. *)
Definition str (p : PurePath) : string :=
  match root p +:+ Py.join "/" (tail p) with
  | "" => "."
  | s => s
  end.

(** [path.name]: the final component, if any. *)
Definition name (p : PurePath) : string := List.last (tail p) "".

(** [path.suffix]: the final component's last suffix, with its leading
    period; a leading or a trailing period does not start a suffix. *)
Definition suffix (p : PurePath) : string :=
  let name := name p in
  let i := Py.rfind "." name in
  if (0 <? i) && (i <? Z.of_nat (String.length name) - 1)
  then Py.drop (Z.to_nat i) name
  else "".

(** [path.with_suffix(suffix)]; [None] stands for [ValueError]. *)
Definition with_suffix (p : PurePath) (suffix' : string) : option PurePath :=
  if Py.contains "/" suffix' then None
  else if negb (String.eqb suffix' "") && negb (String.prefix "." suffix')
          || String.eqb suffix' "."
  then None
  else
    let name := name p in
    if String.eqb name "" then None
    else
      let old_suffix := suffix p in
      let name' :=
        if String.eqb old_suffix "" then name +:+ suffix'
        else Py.take (String.length name - String.length old_suffix) name
               +:+ suffix' in
      Some {| root := root p; tail := List.removelast (tail p) ++ [name'] |}.

End pathlib.

(** [os.path.expanduser(path)] where the current user's home directory
    is [home]; the homes of other users ([~name]) are not modelled and
    such a path is returned as it is. *)
Fixpoint rstrip_sep (s : string) : string :=
  match s with
  | "" => ""
  | String c s' =>
      match rstrip_sep s' with
      | "" => if Ascii.eqb c "/" then "" else String c ""
      | r => String c r
      end
  end.

Definition expanduser (home path : string) : string :=
  match path with
  | String "~" rest =>
      match rest with
      | "" | String "/" _ =>
          match rstrip_sep home +:+ rest with
          | "" => "/"
          | r => r
          end
      | _ => path
      end
  | _ => path
  end.

(** ** The external collaborators *)

(** The speech engine, by its contract. *)
Module faster_whisper.

(** The summary the engine returns once per request. *)
Record TranscriptionInfo : Type := {
  language : string;
  language_probability : Py.finite_float;
  duration : Py.finite_float
}.

(** One timed text segment; [end_] is the field [end]. *)
Record Segment : Type := {
  start : Py.finite_float;
  end_ : Py.finite_float;
  text : string
}.

(** What [model.transcribe(...)] does: it raises, or it returns the
    summary and a lazy generator that yields the listed segments and
    then stops ([stop = None]) or raises ([stop = Some exc]). *)
Inductive Transcription : Type :=
| TranscribeError (exc : string)
| Segments (info : TranscriptionInfo) (segments : list Segment)
           (stop : option string).

(** The engine as the script sees it: whether the constructor raises
    for a model size, and what a request (model size, path, language)
    produces. *)
Record Engine : Type := {
  load_error : string -> option string;
  run : string -> string -> string -> Transcription
}.

End faster_whisper.

(** The progress bar: its position [n], its [total], and whether [close]
    was called.  Rendering is for the human reader and is left out. *)
Module tqdm.

Record t : Type := { n : Py.float; total : Py.float; closed : bool }.

(** [tqdm(total=total, ...)]: a fresh bar stands at position 0. *)
Definition new (total : Py.float) : t :=
  {| n := Py.Finite (Py.of_Z 0); total := total; closed := false |}.

(** [progress.update(k)]: [self.n += k]. *)
Definition update (progress : t) (k : Py.float) : t :=
  {| n := Py.add (n progress) k; total := total progress;
     closed := closed progress |}.

(** [progress.close()]. *)
Definition close (progress : t) : t :=
  {| n := n progress; total := total progress; closed := true |}.

End tqdm.

(** ** The process and its world *)

(** What the script can observe and change: the files, the lines given
    to [print], the models instantiated so far (by size) and the progress
    bars created so far, each in its last state. *)
Record World : Type := {
  fs : gmap string string;
  stdout : list string;
  models : list string;
  bars : list tqdm.t
}.

(** How a piece of the script ends: it returns a value, the process exits
    ([sys.exit]), or an exception propagates. *)
Inductive Outcome (A : Type) : Type :=
| Returned (a : A)
| Exited (code : Z)
| Raised (exc : string).
Arguments Returned {A} a.
Arguments Exited {A} code.
Arguments Raised {A} exc.

Definition IO (A : Type) : Type := World -> Outcome A * World.

#[global] Instance io_ret : MRet IO := fun A a w => (Returned a, w).

#[global] Instance io_bind : MBind IO := fun A B k m w =>
  match m w with
  | (Returned a, w') => k a w'
  | (Exited code, w') => (Exited code, w')
  | (Raised exc, w') => (Raised exc, w')
  end.

(** An expression evaluated inside the script: its exception, if it
    ends in one, propagates. *)
Definition eval {A} (r : Py.Result A) : IO A := fun w =>
  match r with
  | Py.Ok a => (Returned a, w)
  | Py.Raise exc => (Raised exc, w)
  end.

(** [print(line)]. *)
Definition print (line : string) : IO unit := fun w =>
  (Returned tt,
   {| fs := fs w; stdout := stdout w ++ [line]; models := models w;
      bars := bars w |}).

(** [sys.exit(code)]. *)
Definition sys_exit {A} (code : Z) : IO A := fun w => (Exited code, w).

(** [raise]. *)
Definition raise {A} (exc : string) : IO A := fun w => (Raised exc, w).

(** [path.exists()]. *)
Definition exists_ (path : pathlib.PurePath) : IO bool := fun w =>
  (Returned (bool_decide (is_Some (fs w !! pathlib.str path))), w).

(** [open(path, "w")]: the file is created, or truncated when it is
    there. *)
Definition open_w (path : string) : IO unit := fun w =>
  (Returned tt,
   {| fs := <[path := ""]> (fs w); stdout := stdout w; models := models w;
      bars := bars w |}).

(** [f.write(data)] on the file opened at [path]: the data goes to the
    end of the file. *)
Definition write (path data : string) : IO unit := fun w =>
  (Returned tt,
   {| fs := alter (fun content => content +:+ data) path (fs w);
      stdout := stdout w; models := models w; bars := bars w |}).

(** The progress bar is left in the state [progress]. *)
Definition show (progress : tqdm.t) : IO unit := fun w =>
  (Returned tt,
   {| fs := fs w; stdout := stdout w; models := models w;
      bars := bars w ++ [progress] |}).

(** ** [transcribe] and the batch entry point *)

Section Driver.

Variable engine : faster_whisper.Engine.

(** [WhisperModel(model_size, device="cpu", compute_type="int8")]. *)
Definition WhisperModel (model_size : string) : IO unit := fun w =>
  match faster_whisper.load_error engine model_size with
  | Some exc => (Raised exc, w)
  | None =>
      (Returned tt,
       {| fs := fs w; stdout := stdout w;
          models := models w ++ [model_size]; bars := bars w |})
  end.

(** [model.transcribe(path, language=language, beam_size=5)]. *)
Definition model_transcribe (model_size path language : string)
  : IO (faster_whisper.TranscriptionInfo * list faster_whisper.Segment
        * option string) :=
  match faster_whisper.run engine model_size path language with
  | faster_whisper.TranscribeError exc => raise exc
  | faster_whisper.Segments info segments stop =>
      mret (info, segments, stop)
  end.

(** The body of [for segment in segments], on the two objects it
    changes: the list of lines and the progress bar. *)
Definition loop_body (st : list string * tqdm.t)
    (segment : faster_whisper.Segment) : Py.Result (list string * tqdm.t) :=
  let '(output_lines, progress) := st in
  from ← format_timestamp (Py.to_float (faster_whisper.start segment));
  to ← format_timestamp (Py.to_float (faster_whisper.end_ segment));
  let timestamp := "[" +:+ from +:+ " -> " +:+ to +:+ "]" in
  let line := timestamp +:+ "  " +:+ Py.strip (faster_whisper.text segment) in
  mret (output_lines ++ [line],
        tqdm.update progress
          (Py.sub (Py.to_float (faster_whisper.end_ segment)) (tqdm.n progress))).

(** The loop: the state it reaches and, when the body raised, the
    exception that ended it. *)
Fixpoint consume (segments : list faster_whisper.Segment)
    (st : list string * tqdm.t) : list string * tqdm.t * option string :=
  match segments with
  | [] => (st, None)
  | segment :: rest =>
      match loop_body st segment with
      | Py.Ok st' => consume rest st'
      | Py.Raise exc => (st, Some exc)
      end
  end.

Definition transcribe (audio_path model_size language : string) : IO unit :=
  let path := pathlib.Path audio_path in
  found ← exists_ path;
  if negb found then
    print ("Bestand niet gevonden: " +:+ audio_path);;
    sys_exit 1
  else
    print ("Model laden (" +:+ model_size +:+ ")...");;
    WhisperModel model_size;;
    print ("Transcriberen: " +:+ pathlib.name path);;
    '(info, segments, stop) ←
      model_transcribe model_size (pathlib.str path) language;
    print ("Taal gedetecteerd: " +:+ faster_whisper.language info
           +:+ " (waarschijnlijkheid: "
           +:+ Py.format_2f (Py.value (faster_whisper.language_probability info))
           +:+ ")");;
    shown ← eval (format_timestamp (Py.to_float (faster_whisper.duration info)));
    print ("Duur: " +:+ shown);;
    print (Py.repeat "-" 60);;
    let duration := Py.to_float (faster_whisper.duration info) in
    let progress := tqdm.new duration in
    let '(output_lines, progress, failure) := consume segments ([], progress) in
    match failure, stop with
    | Some exc, _ | None, Some exc => show progress;; raise exc
    | None, None =>
        show (tqdm.close progress);;
        match pathlib.with_suffix path ".txt" with
        | None => raise "ValueError"
        | Some output_path =>
            let f := pathlib.str output_path in
            open_w f;;
            write f ("Transcriptie: " +:+ pathlib.name path +:+ Py.nl);;
            write f ("Taal: " +:+ faster_whisper.language info +:+ Py.nl);;
            written ←
              eval (format_timestamp (Py.to_float (faster_whisper.duration info)));
            write f ("Duur: " +:+ written +:+ Py.nl);;
            write f (Py.repeat "=" 60 +:+ Py.nl +:+ Py.nl);;
            write f (Py.join Py.nl output_lines);;
            print (Py.nl +:+ "Opgeslagen: " +:+ f)
        end
    end.

(** The home directory that [os.path.expanduser] finds. *)
Variable home : string.

Definition audio_files : list string :=
  [ expanduser home "~/Downloads/Helene en AnneMarie.m4a";
    expanduser home "~/Downloads/Joke Swiebel.m4a" ].

(** [for audio_file in audio_files: ...], with the defaults of
    [transcribe] for the model size and the language. *)
Fixpoint batch (files : list string) : IO unit :=
  match files with
  | [] => mret tt
  | audio_file :: rest =>
      transcribe audio_file "large-v3" "nl";;
      print (Py.nl +:+ Py.repeat "=" 60 +:+ Py.nl);;
      batch rest
  end.

Definition main : IO unit := batch audio_files.

End Driver.

(** ** Vocabulary of the properties *)

(** The character of the decimal digit [d]. *)
Definition digit (d : Z) : ascii := ascii_of_N (48 + Z.to_N d).

(** A number below 100 written with exactly two decimal digits. *)
Definition two_digits (k : Z) : string :=
  String (digit (k / 10)) (String (digit (k mod 10)) "").

(** The number a string of decimal digits denotes, leading zeros
    allowed; [None] when a character is not a digit. *)
Definition decimal_value (s : string) : option N :=
  N.of_uint <$> NilEmpty.uint_of_string s.

(** The text of [format_timestamp] at a finite float; it returns one
    at every finite float. *)
Definition timestamp (t : Py.finite_float) : string :=
  match format_timestamp (Py.to_float t) with
  | Py.Ok s => s
  | Py.Raise _ => ""
  end.

(** The line of one segment, as the transcript shows it. *)
Definition segment_line (segment : faster_whisper.Segment) : string :=
  "[" +:+ timestamp (faster_whisper.start segment) +:+ " -> "
      +:+ timestamp (faster_whisper.end_ segment) +:+ "]  "
      +:+ Py.strip (faster_whisper.text segment).

(** The header block: file name, language, duration, a line of sixty
    ['='] and a blank line. *)
Definition header (filename : string) (info : faster_whisper.TranscriptionInfo)
  : string :=
  "Transcriptie: " +:+ filename +:+ Py.nl
  +:+ "Taal: " +:+ faster_whisper.language info +:+ Py.nl
  +:+ "Duur: " +:+ timestamp (faster_whisper.duration info) +:+ Py.nl
  +:+ "============================================================" +:+ Py.nl
  +:+ Py.nl.

(** The lines of the segments, joined with newlines. *)
Definition body (segments : list faster_whisper.Segment) : string :=
  Py.join Py.nl (segment_line <$> segments).

(** The whole transcript. *)
Definition transcript (filename : string)
    (info : faster_whisper.TranscriptionInfo)
    (segments : list faster_whisper.Segment) : string :=
  header filename info +:+ body segments.

(** The end time of a segment, as a number. *)
Definition end_time (segment : faster_whisper.Segment) : Qc :=
  Py.value (faster_whisper.end_ segment).

(** The start time of a segment, as a number. *)
Definition start_time (segment : faster_whisper.Segment) : Qc :=
  Py.value (faster_whisper.start segment).

(** The exact value of a float that is finite. *)
Definition exact_value (x : Py.float) : option Q :=
  match x with
  | Py.Finite q => Some (this q)
  | _ => None
  end.

(** The exact value of the finite float that an operation returns. *)
Definition exact_result (r : Py.Result Py.float) : option Q :=
  match r with
  | Py.Ok x => exact_value x
  | Py.Raise _ => None
  end.

(** The bar after [progress.update(segment.end - progress.n)]. *)
Definition advance (progress : tqdm.t) (segment : faster_whisper.Segment)
  : tqdm.t :=
  tqdm.update progress
    (Py.sub (Py.to_float (faster_whisper.end_ segment)) (tqdm.n progress)).

(** The progress bar as the loop leaves it after the given segments,
    when it started as a fresh bar. *)
Definition bar_after (total : Py.float)
    (segments : list faster_whisper.Segment) : tqdm.t :=
  snd (fst (consume segments ([], tqdm.new total))).

(** The position of a fresh progress bar after the first [k] segments
    went through the loop. *)
Definition position_after (total : Py.float)
    (segments : list faster_whisper.Segment) (k : nat) : Py.float :=
  tqdm.n (bar_after total (take k segments)).

(** Times, read off the segments by [key], that never go down along the
    sequence. *)
Definition non_decreasing (key : faster_whisper.Segment -> Qc)
    (segments : list faster_whisper.Segment) : Prop :=
  forall (i j : nat) (si sj : faster_whisper.Segment),
    (i <= j)%nat -> segments !! i = Some si -> segments !! j = Some sj ->
    (key si <= key sj)%Qc.

(** End times that are offsets into the audio: none lies before 0, where
    the progress bar starts. *)
Definition offsets (segments : list faster_whisper.Segment) : Prop :=
  Forall (fun segment => (Py.of_Z 0 <= end_time segment)%Qc) segments.

(** Every character of [s] is whitespace. *)
Fixpoint all_space (s : string) : bool :=
  match s with
  | "" => true
  | String c s' => Py.isspace c && all_space s'
  end.

(** The first and the last character of a string, if any. *)
Definition first_char (s : string) : option ascii :=
  match s with
  | "" => None
  | String c _ => Some c
  end.

Fixpoint last_char (s : string) : option ascii :=
  match s with
  | "" => None
  | String c "" => Some c
  | String _ s' => last_char s'
  end.

(** The directories in front of the last component of a path, each
    followed by the separator. *)
Fixpoint dirs (components : list string) : string :=
  match components with
  | [] => ""
  | x :: rest => x +:+ "/" +:+ dirs rest
  end.

(** The lines printed up to the loop by a run that gets there. *)
Definition printed_before_loop (model_size : string) (path : pathlib.PurePath)
    (info : faster_whisper.TranscriptionInfo) : list string :=
  [ "Model laden (" +:+ model_size +:+ ")...";
    "Transcriberen: " +:+ pathlib.name path;
    "Taal gedetecteerd: " +:+ faster_whisper.language info
      +:+ " (waarschijnlijkheid: "
      +:+ Py.format_2f (Py.value (faster_whisper.language_probability info))
      +:+ ")";
    "Duur: " +:+ timestamp (faster_whisper.duration info);
    "------------------------------------------------------------" ].

(** The world a successful run of [transcribe] leaves behind. *)
Definition world_after (w : World) (model_size : string)
    (path output_path : pathlib.PurePath)
    (info : faster_whisper.TranscriptionInfo)
    (segments : list faster_whisper.Segment) : World :=
  {| fs := <[pathlib.str output_path :=
               transcript (pathlib.name path) info segments]> (fs w);
     stdout := stdout w ++
       [ "Model laden (" +:+ model_size +:+ ")...";
         "Transcriberen: " +:+ pathlib.name path;
         "Taal gedetecteerd: " +:+ faster_whisper.language info
           +:+ " (waarschijnlijkheid: "
           +:+ Py.format_2f (Py.value (faster_whisper.language_probability info))
           +:+ ")";
         "Duur: " +:+ timestamp (faster_whisper.duration info);
         "------------------------------------------------------------";
         Py.nl +:+ "Opgeslagen: " +:+ pathlib.str output_path ];
     models := models w ++ [model_size];
     bars := bars w ++
       [ tqdm.close
           (bar_after (Py.to_float (faster_whisper.duration info)) segments) ] |}.

(** ** The engine stub of the specification's example *)

(** The floats of the literals [0.0], [2.5], [4.0], [10.0], [0.97],
    [0.03] and [0.29]; the last three are the binary64 numbers nearest
    to the decimal fractions. *)
Definition f_0_0 : Py.finite_float :=
  {| Py.value := Q2Qc 0.0; Py.value_ok := eq_refl |}.

Definition f_2_5 : Py.finite_float :=
  {| Py.value := Q2Qc 2.5; Py.value_ok := eq_refl |}.

Definition f_4_0 : Py.finite_float :=
  {| Py.value := Q2Qc 4.0; Py.value_ok := eq_refl |}.

Definition f_10_0 : Py.finite_float :=
  {| Py.value := Q2Qc 10.0; Py.value_ok := eq_refl |}.

Definition f_0_97 : Py.finite_float :=
  {| Py.value := Q2Qc (4368515638549381 # 4503599627370496);
     Py.value_ok := eq_refl |}.

Definition f_0_03 : Py.finite_float :=
  {| Py.value := Q2Qc (1080863910568919 # 36028797018963968);
     Py.value_ok := eq_refl |}.

Definition f_0_29 : Py.finite_float :=
  {| Py.value := Q2Qc (5224175567749775 # 18014398509481984);
     Py.value_ok := eq_refl |}.

Definition stub_info : faster_whisper.TranscriptionInfo :=
  {| faster_whisper.language := "nl";
     faster_whisper.language_probability := f_0_97;
     faster_whisper.duration := f_10_0 |}.

Definition stub_segments : list faster_whisper.Segment :=
  [ {| faster_whisper.start := f_0_0; faster_whisper.end_ := f_2_5;
       faster_whisper.text := " hallo " |};
    {| faster_whisper.start := f_2_5; faster_whisper.end_ := f_10_0;
       faster_whisper.text := "wereld" |} ].

(** An engine that loads every model and answers every request with the
    given summary and segments. *)
Definition stub_engine (info : faster_whisper.TranscriptionInfo)
    (segments : list faster_whisper.Segment) : faster_whisper.Engine :=
  {| faster_whisper.load_error := fun _ => None;
     faster_whisper.run := fun _ _ _ => faster_whisper.Segments info segments None |}.

(** An engine whose generator raises [exc] after it has yielded the
    given segments. *)
Definition interrupted_engine (info : faster_whisper.TranscriptionInfo)
    (segments : list faster_whisper.Segment) (exc : string)
  : faster_whisper.Engine :=
  {| faster_whisper.load_error := fun _ => None;
     faster_whisper.run :=
       fun _ _ _ => faster_whisper.Segments info segments (Some exc) |}.

(** A world with the given files and nothing printed, loaded or shown. *)
Definition world_of (files : gmap string string) : World :=
  {| fs := files; stdout := []; models := []; bars := [] |}.

(** A world whose only file is the audio file [/d/audio.m4a]. *)
Definition audio_world : World := world_of {[ "/d/audio.m4a" := "RIFF" ]}.

(** A world whose only file is the first file of the batch, for the home
    directory [/home/u]. *)
Definition downloads_world : World :=
  world_of {[ "/home/u/Downloads/Helene en AnneMarie.m4a" := "RIFF" ]}.

(** A world with the audio file [/d/audio.m4a] and an older transcript
    of it. *)
Definition transcribed_world : World :=
  world_of (<[ "/d/audio.txt" := "old" ]> {[ "/d/audio.m4a" := "RIFF" ]}).

(** A world with two recordings that differ in their extension only. *)
Definition same_stem_world : World :=
  world_of (<[ "/d/a.wav" := "RIFF" ]> {[ "/d/a.m4a" := "ftyp" ]}).

(** A segment whose text is blank. *)
Definition blank_segment : faster_whisper.Segment :=
  {| faster_whisper.start := f_2_5; faster_whisper.end_ := f_4_0;
     faster_whisper.text := "   " |}.

(** The first segment of the stub alone: after 2.5 seconds the audio is
    silent. *)
Definition first_segment_only : list faster_whisper.Segment :=
  [ {| faster_whisper.start := f_0_0; faster_whisper.end_ := f_2_5;
       faster_whisper.text := " hallo " |} ].

(** Three short segments, the last of no length, in 0.29 seconds of
    audio. *)
Definition short_info : faster_whisper.TranscriptionInfo :=
  {| faster_whisper.language := "nl";
     faster_whisper.language_probability := f_0_97;
     faster_whisper.duration := f_0_29 |}.

Definition short_segments : list faster_whisper.Segment :=
  [ {| faster_whisper.start := f_0_0; faster_whisper.end_ := f_0_03;
       faster_whisper.text := "a" |};
    {| faster_whisper.start := f_0_03; faster_whisper.end_ := f_0_29;
       faster_whisper.text := "b" |};
    {| faster_whisper.start := f_0_29; faster_whisper.end_ := f_0_29;
       faster_whisper.text := "" |} ].


(** ** Values of the embedding

    The built-ins at some arguments, with the values CPython 3.11 gives. *)

Example float_values :
  exact_value (Py.rnd 0.1) = Some (3602879701896397 # 36028797018963968)
  /\ exact_value (Py.rnd 59.9) = Some (8430175552484147 # 140737488355328)
  /\ exact_value (Py.add (Py.rnd 0.1) (Py.rnd 0.2))
     = Some (1351079888211149 # 4503599627370496)
  /\ exact_value (Py.sub (Py.rnd 0.3) (Py.rnd 0.1))
     = Some (7205759403792793 # 36028797018963968)
  /\ exact_value (Py.float_of_Z (2 ^ 53 + 1)) = Some (inject_Z (2 ^ 53))
  /\ exact_value (Py.float_of_Z (2 ^ 53 + 3)) = Some (inject_Z (2 ^ 53 + 4))
  /\ Py.add (Py.rnd 1.7976931348623157e308) (Py.rnd 1.7976931348623157e308)
     = Py.Inf false
  /\ Py.sub (Py.Inf false) (Py.Inf false) = Py.NaN
  /\ exact_value (Py.rnd (Py.pow2 (-1075))) = Some 0%Q
  /\ exact_value (Py.rnd (3 * Py.pow2 (-1075))) = Some (Qred (Py.pow2 (-1073)))
  /\ Py.fmod (Py.Inf false) (Py.float_of_Z 3600) = Py.NaN
  /\ exact_value (Py.fmod (Py.rnd (-7.5)) (Py.float_of_Z 2)) = Some (-3 # 2)%Q
  /\ exact_result (Py.mod_ (Py.rnd (-7.5)) (Py.float_of_Z 2))
     = Some (1 # 2)%Q
  /\ exact_result (Py.floordiv (Py.rnd (-7.5)) (Py.float_of_Z 2))
     = Some (-4)%Q
  /\ exact_result (Py.mod_ (Py.rnd (-1e-20)) (Py.float_of_Z 60))
     = Some 60%Q
  /\ exact_result (Py.floordiv (Py.rnd 1e22) (Py.float_of_Z 3600))
     = Some (inject_Z 2777777777777777664)
  /\ Py.mod_ (Py.rnd 1.5) (Py.float_of_Z 0) = Py.Raise "ZeroDivisionError"
  /\ Py.int (Py.rnd (-1.5)) = Py.Ok (-1)
  /\ Py.int (Py.Inf false) = Py.Raise "OverflowError"
  /\ Py.int Py.NaN = Py.Raise "ValueError".
Proof. vm_compute. repeat split. Qed.

Example format_timestamp_values :
  format_timestamp (Py.float_of_Z 60) = Py.Ok "00:01:00"
  /\ format_timestamp (Py.rnd 3599.999) = Py.Ok "00:59:59"
  /\ format_timestamp (Py.float_of_Z 3600) = Py.Ok "01:00:00"
  /\ format_timestamp (Py.float_of_Z 86400) = Py.Ok "24:00:00"
  /\ format_timestamp (Py.float_of_Z 360000) = Py.Ok "100:00:00"
  /\ format_timestamp (Py.rnd 90061.5) = Py.Ok "25:01:01"
  /\ format_timestamp (Py.rnd 1e22) = Py.Ok "2777777777777777664:46:40"
  /\ format_timestamp (Py.rnd (-0.5)) = Py.Ok "-1:59:59"
  /\ format_timestamp (Py.rnd (-1e-20)) = Py.Ok "-1:60:60"
  /\ format_timestamp (Py.rnd 5e-324) = Py.Ok "00:00:00"
  /\ format_timestamp (Py.Inf false) = Py.Raise "ValueError"
  /\ format_timestamp (Py.Inf true) = Py.Raise "ValueError"
  /\ format_timestamp Py.NaN = Py.Raise "ValueError".
Proof. vm_compute. repeat split. Qed.

Example format_values :
  Py.format_02d 5 = "05" /\ Py.format_02d 123 = "123"
  /\ Py.format_02d (-1) = "-1" /\ Py.format_02d (-12) = "-12"
  /\ Py.format_2f (Py.value f_0_97) = "0.97" /\ Py.format_2f (Q2Qc 0.125) = "0.12"
  /\ Py.format_2f (Q2Qc 0.375) = "0.38"
  /\ Py.format_2f (Q2Qc (-0.375)) = "-0.38"
  /\ timestamp f_2_5 = "00:00:02" /\ timestamp f_10_0 = "00:00:10".
Proof. vm_compute. repeat split. Qed.

Example strip_values :
  Py.strip (String "009" " hallo wereld " +:+ Py.nl +:+ String "133" (String "160" ""))
    = "hallo wereld"
  /\ Py.strip (String "028" " a " +:+ String "031" "") = "a"
  /\ Py.strip "   " = ""
  /\ Py.rfind "." "a.b.c" = 3 /\ Py.rfind "." "abc" = -1
  /\ Py.split "/" "/a//b/" = [""; "a"; ""; "b"; ""].
Proof. vm_compute. repeat split. Qed.

Example pathlib_values :
  pathlib.str (pathlib.Path "//x//y.m4a") = "//x/y.m4a"
  /\ pathlib.str (pathlib.Path "///x") = "/x"
  /\ pathlib.str (pathlib.Path "x/.") = "x"
  /\ pathlib.str (pathlib.Path "") = "."
  /\ pathlib.name (pathlib.Path "a/b.tar.gz") = "b.tar.gz"
  /\ pathlib.name (pathlib.Path "/") = ""
  /\ pathlib.suffix (pathlib.Path "a/b.tar.gz") = ".gz"
  /\ pathlib.suffix (pathlib.Path ".bashrc") = ""
  /\ pathlib.suffix (pathlib.Path "a.") = ""
  /\ pathlib.suffix (pathlib.Path "a..b") = ".b"
  /\ pathlib.str <$> pathlib.with_suffix (pathlib.Path "a/b.tar.gz") ".txt"
     = Some "a/b.tar.txt"
  /\ pathlib.str <$> pathlib.with_suffix (pathlib.Path ".bashrc") ".txt"
     = Some ".bashrc.txt"
  /\ pathlib.str <$> pathlib.with_suffix (pathlib.Path "a.") ".txt"
     = Some "a..txt"
  /\ pathlib.str <$> pathlib.with_suffix (pathlib.Path "..") ".txt"
     = Some "...txt"
  /\ pathlib.with_suffix (pathlib.Path "/") ".txt" = None
  /\ expanduser "/home/u/" "~/Downloads/Joke Swiebel.m4a"
     = "/home/u/Downloads/Joke Swiebel.m4a".
Proof. vm_compute. repeat split. Qed.

(** * Properties *)

(** ** Rounding to binary64 *)

Section Pow2.

Local Open Scope Q_scope.

Lemma pow2_pos (z : Z) : 0 < Py.pow2 z.
Proof. apply Qpower_0_lt. reflexivity. Qed.

Lemma pow2_add (a b : Z) : Py.pow2 (a + b) == Py.pow2 a * Py.pow2 b.
Proof. apply Qpower_plus. discriminate. Qed.

Lemma pow2_succ (a : Z) : Py.pow2 (a + 1) == 2 * Py.pow2 a.
Proof. rewrite pow2_add. change (Py.pow2 1) with 2. ring. Qed.

Lemma pow2_le (a b : Z) : (a <= b)%Z -> Py.pow2 a <= Py.pow2 b.
Proof. intros H. apply Qpower_le_compat_l; [exact H|discriminate]. Qed.

Lemma pow2_lt (a b : Z) : (a < b)%Z -> Py.pow2 a < Py.pow2 b.
Proof. intros H. apply Qpower_lt_compat_l; [exact H|reflexivity]. Qed.

Lemma pow2_lt_inv (a b : Z) : Py.pow2 a < Py.pow2 b -> (a < b)%Z.
Proof.
  intros H. destruct (Z.lt_ge_cases a b) as [|Hge]; [assumption|].
  apply pow2_le in Hge. lra.
Qed.

Lemma pow2_inject (z : Z) : (0 <= z)%Z -> Py.pow2 z == inject_Z (2 ^ z).
Proof. intros H. unfold Py.pow2. now rewrite Zpower_Qpower. Qed.

End Pow2.

Section Ilog2.

Local Open Scope Q_scope.

Lemma Qmake_lt_r (a : Z) (b : positive) (x : Q) :
  inject_Z a < x * inject_Z (Zpos b) -> a # b < x.
Proof.
  intros H. rewrite (Qmake_Qdiv a b). apply Qlt_shift_div_r; [reflexivity|exact H].
Qed.

Lemma Qmake_le_l (a : Z) (b : positive) (x : Q) :
  x * inject_Z (Zpos b) <= inject_Z a -> x <= a # b.
Proof.
  intros H. rewrite (Qmake_Qdiv a b). apply Qle_shift_div_l; [reflexivity|exact H].
Qed.

Lemma Qmake_lt_l (a : Z) (b : positive) (x : Q) :
  x * inject_Z (Zpos b) < inject_Z a -> x < a # b.
Proof.
  intros H. rewrite (Qmake_Qdiv a b). apply Qlt_shift_div_l; [reflexivity|exact H].
Qed.

Lemma log2_bounds (a : Z) :
  (0 < a)%Z ->
  Py.pow2 (Z.log2 a) <= inject_Z a /\ inject_Z a < Py.pow2 (Z.log2 a + 1).
Proof.
  intros Ha. destruct (Z.log2_spec a Ha) as [H1 H2].
  pose proof (Z.log2_nonneg a) as Hnn.
  rewrite !pow2_inject by lia. rewrite <- Zle_Qle, <- Zlt_Qlt.
  split; [exact H1|]. now rewrite Z.add_1_r.
Qed.

Lemma ilog2_spec (q : Q) :
  0 < q -> Py.pow2 (Py.ilog2 q) <= q /\ q < Py.pow2 (Py.ilog2 q + 1).
Proof.
  intros Hq. destruct q as [a b].
  assert (Ha : (0 < a)%Z) by (unfold Qlt in Hq; simpl in Hq; lia).
  unfold Py.ilog2. cbn [Qnum Qden].
  set (la := Z.log2 a). set (lb := Z.log2 (Zpos b)).
  destruct (log2_bounds a Ha) as [Ha1 Ha2].
  destruct (log2_bounds (Zpos b) eq_refl) as [Hb1 Hb2]. fold la lb in Ha1, Ha2, Hb1, Hb2.
  pose proof (pow2_pos (la - lb)) as Hp.
  pose proof (pow2_pos lb) as Hplb.
  assert (Hup : a # b < Py.pow2 (la - lb + 1)).
  { apply Qmake_lt_r.
    assert (E : Py.pow2 (la + 1) == Py.pow2 (la - lb + 1) * Py.pow2 lb).
    { rewrite <- pow2_add. now replace (la - lb + 1 + lb)%Z with (la + 1)%Z by lia. }
    pose proof (pow2_pos (la - lb + 1)).
    nra. }
  assert (Hlow : Py.pow2 (la - lb - 1) < a # b).
  { apply Qmake_lt_l.
    assert (E : Py.pow2 la == Py.pow2 (la - lb - 1) * Py.pow2 (lb + 1)).
    { rewrite <- pow2_add. now replace (la - lb - 1 + (lb + 1))%Z with la by lia. }
    pose proof (pow2_pos (la - lb - 1)).
    nra. }
  destruct (Qle_bool (Py.pow2 (la - lb)) (a # b)) eqn:E.
  - apply Qle_bool_iff in E. split; [exact E|exact Hup].
  - split; [apply Qlt_le_weak, Hlow|].
    replace (la - lb - 1 + 1)%Z with (la - lb)%Z by lia.
    apply Qnot_le_lt. intros H. apply Qle_bool_iff in H. congruence.
Qed.

Lemma ilog2_unique (q : Q) (l : Z) :
  Py.pow2 l <= q -> q < Py.pow2 (l + 1) -> Py.ilog2 q = l.
Proof.
  intros H1 H2.
  assert (Hq : 0 < q) by (pose proof (pow2_pos l); lra).
  destruct (ilog2_spec q Hq) as [H3 H4].
  assert (l < Py.ilog2 q + 1)%Z by (apply pow2_lt_inv; lra).
  assert (Py.ilog2 q < l + 1)%Z by (apply pow2_lt_inv; lra).
  lia.
Qed.

Lemma ilog2_mono (x y : Q) : 0 < x -> x <= y -> (Py.ilog2 x <= Py.ilog2 y)%Z.
Proof.
  intros Hx Hxy.
  destruct (ilog2_spec x Hx) as [H1 _].
  destruct (ilog2_spec y ltac:(lra)) as [_ H2].
  assert (Py.ilog2 x < Py.ilog2 y + 1)%Z by (apply pow2_lt_inv; lra).
  lia.
Qed.

Lemma ilog2_comp (x y : Q) : 0 < x -> x == y -> Py.ilog2 x = Py.ilog2 y.
Proof.
  intros Hx E. destruct (ilog2_spec x Hx) as [H1 H2].
  symmetry. apply ilog2_unique; lra.
Qed.

End Ilog2.

Section RoundHalfEven.

Local Open Scope Q_scope.

Lemma round_half_even_comp (x y : Q) :
  x == y -> Py.round_half_even x = Py.round_half_even y.
Proof.
  intros E. unfold Py.round_half_even.
  rewrite (Qfloor_comp _ _ E).
  assert (E' : x - inject_Z (Qfloor y) == y - inject_Z (Qfloor y)) by (rewrite E; reflexivity).
  now rewrite E'.
Qed.

Lemma round_half_even_floor (x : Q) :
  (Qfloor x <= Py.round_half_even x <= Qfloor x + 1)%Z.
Proof.
  unfold Py.round_half_even.
  destruct (x - inject_Z (Qfloor x) ?= 1 # 2); [destruct (Z.even _)| |]; lia.
Qed.

Lemma round_half_even_Z (k : Z) : Py.round_half_even (inject_Z k) = k.
Proof.
  unfold Py.round_half_even. rewrite Qfloor_Z.
  assert (E : inject_Z k - inject_Z k == 0) by ring.
  rewrite E. reflexivity.
Qed.

Lemma round_half_even_ge (x : Q) (k : Z) :
  inject_Z k <= x -> (k <= Py.round_half_even x)%Z.
Proof.
  intros H. pose proof (round_half_even_floor x).
  apply Qfloor_resp_le in H. rewrite Qfloor_Z in H. lia.
Qed.

Lemma round_half_even_le (x : Q) (k : Z) :
  x <= inject_Z k -> (Py.round_half_even x <= k)%Z.
Proof.
  intros H. destruct (Qlt_le_dec x (inject_Z k)) as [Hlt|Hge].
  - pose proof (round_half_even_floor x).
    assert (Qfloor x < k)%Z; [|lia].
    rewrite Zlt_Qlt. pose proof (Qfloor_le x). lra.
  - assert (E : x == inject_Z k) by lra.
    rewrite (round_half_even_comp _ _ E), round_half_even_Z. lia.
Qed.

Lemma round_half_even_mono (x y : Q) :
  x <= y -> (Py.round_half_even x <= Py.round_half_even y)%Z.
Proof.
  intros H. pose proof (Qfloor_resp_le _ _ H) as Hfl.
  pose proof (round_half_even_floor x). pose proof (round_half_even_floor y).
  destruct (Z.eq_dec (Qfloor x) (Qfloor y)) as [E|?]; [|lia].
  unfold Py.round_half_even. rewrite E.
  destruct (Qcompare_spec (x - inject_Z (Qfloor y)) (1 # 2));
    destruct (Qcompare_spec (y - inject_Z (Qfloor y)) (1 # 2));
    try destruct (Z.even _); try lia; lra.
Qed.

End RoundHalfEven.

Section RndPos.

Local Open Scope Q_scope.

Lemma ulp_exp_comp (x y : Q) : 0 < x -> x == y -> Py.ulp_exp x = Py.ulp_exp y.
Proof. intros Hx E. unfold Py.ulp_exp. now rewrite (ilog2_comp x y Hx E). Qed.

Lemma nearest_pos_comp (x y : Q) : 0 < x -> x == y -> Py.nearest_pos x == Py.nearest_pos y.
Proof.
  intros Hx E. unfold Py.nearest_pos. rewrite (ulp_exp_comp x y Hx E).
  assert (E' : x / Py.pow2 (Py.ulp_exp y) == y / Py.pow2 (Py.ulp_exp y)) by (rewrite E; reflexivity).
  now rewrite (round_half_even_comp _ _ E').
Qed.

Lemma ulp_exp_mono (x y : Q) : 0 < x -> x <= y -> (Py.ulp_exp x <= Py.ulp_exp y)%Z.
Proof. intros Hx H. unfold Py.ulp_exp. pose proof (ilog2_mono x y Hx H). lia. Qed.

(** The scaled value lies below [2 ** 53], and at or above [2 ** 52]
    when the exponent is not the least one. *)
Lemma scaled_bounds (q : Q) :
  0 < q ->
  let e := Py.ulp_exp q in
  0 < q / Py.pow2 e /\ q / Py.pow2 e < inject_Z (2 ^ 53)
  /\ ((-1074 < e)%Z -> inject_Z (2 ^ 52) <= q / Py.pow2 e).
Proof.
  intros Hq e. destruct (ilog2_spec q Hq) as [H1 H2].
  pose proof (pow2_pos e) as He.
  assert (Hle : (Py.ilog2 q - 52 <= e)%Z) by (unfold e, Py.ulp_exp; lia).
  assert (Hmin : (-1074 < e)%Z -> e = (Py.ilog2 q - 52)%Z)
    by (unfold e, Py.ulp_exp; lia).
  clearbody e.
  split; [apply Qlt_shift_div_l; lra|]. split.
  - apply Qlt_shift_div_r; [exact He|].
    rewrite <- (pow2_inject 53) by lia. rewrite <- pow2_add.
    pose proof (pow2_le (Py.ilog2 q + 1) (53 + e) ltac:(lia)). lra.
  - intros H. specialize (Hmin H).
    apply Qle_shift_div_l; [exact He|].
    rewrite <- (pow2_inject 52) by lia. rewrite <- pow2_add.
    replace (52 + e)%Z with (Py.ilog2 q) by lia. exact H1.
Qed.

Lemma nearest_pos_bounds (q : Q) :
  0 < q ->
  let e := Py.ulp_exp q in
  0 <= Py.nearest_pos q /\ Py.nearest_pos q <= Py.pow2 (e + 53)
  /\ ((-1074 < e)%Z -> Py.pow2 (e + 52) <= Py.nearest_pos q).
Proof.
  intros Hq e. destruct (scaled_bounds q Hq) as (H0 & H1 & H2). fold e in H0, H1, H2.
  pose proof (pow2_pos e) as He. unfold Py.nearest_pos. fold e.
  set (m := Py.round_half_even (q / Py.pow2 e)).
  assert (Hm0 : (0 <= m)%Z) by (apply round_half_even_ge, Qlt_le_weak, H0).
  assert (Hm1 : (m <= 2 ^ 53)%Z) by (apply round_half_even_le; lra).
  assert (Hm2 : (-1074 < e)%Z -> (2 ^ 52 <= m)%Z)
    by (intros Hmin; apply round_half_even_ge, H2, Hmin).
  rewrite Zle_Qle in Hm0, Hm1. clearbody e m.
  split; [apply Qmult_le_0_compat; [exact Hm0|lra]|]. split.
  - rewrite Z.add_comm, pow2_add, (pow2_inject 53) by lia.
    apply Qmult_le_compat_r; [exact Hm1|lra].
  - intros Hmin. specialize (Hm2 Hmin). rewrite Zle_Qle in Hm2.
    rewrite Z.add_comm, pow2_add, (pow2_inject 52) by lia.
    apply Qmult_le_compat_r; [exact Hm2|lra].
Qed.

(** Rounding is monotone. *)
Lemma nearest_pos_mono (x y : Q) :
  0 < x -> x <= y -> Py.nearest_pos x <= Py.nearest_pos y.
Proof.
  intros Hx Hxy. assert (Hy : 0 < y) by lra.
  pose proof (ulp_exp_mono x y Hx Hxy) as He.
  destruct (Z.eq_dec (Py.ulp_exp x) (Py.ulp_exp y)) as [E|Hne].
  - unfold Py.nearest_pos. rewrite E. pose proof (pow2_pos (Py.ulp_exp y)) as Hp.
    assert (H : x / Py.pow2 (Py.ulp_exp y) <= y / Py.pow2 (Py.ulp_exp y)).
    { apply Qmult_le_compat_r; [exact Hxy|]. apply Qinv_le_0_compat; lra. }
    apply round_half_even_mono in H. rewrite Zle_Qle in H. nra.
  - destruct (nearest_pos_bounds x Hx) as (_ & Hup & _).
    destruct (nearest_pos_bounds y Hy) as (_ & _ & Hlow).
    assert (Hmin : (-1074 < Py.ulp_exp y)%Z) by (unfold Py.ulp_exp in *; lia).
    specialize (Hlow Hmin).
    pose proof (pow2_le (Py.ulp_exp x + 53) (Py.ulp_exp y + 52) ltac:(lia)). lra.
Qed.

(** A number with at most 53 significant bits above [2 ** -1074] is
    left as it is. *)
Lemma nearest_pos_exact (m e : Z) :
  (0 < m < 2 ^ 53)%Z -> (-1074 <= e)%Z ->
  Py.nearest_pos (inject_Z m * Py.pow2 e) == inject_Z m * Py.pow2 e.
Proof.
  intros Hm He. set (q := inject_Z m * Py.pow2 e).
  pose proof (pow2_pos e) as Hpe.
  assert (Hm' : 0 < inject_Z m) by (rewrite (Zlt_Qlt 0 m) in Hm; apply Hm).
  assert (Hq : 0 < q) by (unfold q; nra).
  assert (Hlog : Py.ilog2 q = (Z.log2 m + e)%Z).
  { destruct (log2_bounds m ltac:(lia)) as [H1 H2].
    apply ilog2_unique; unfold q.
    - rewrite pow2_add. nra.
    - replace (Z.log2 m + e + 1)%Z with (Z.log2 m + 1 + e)%Z by lia.
      rewrite pow2_add. nra. }
  assert (Hl : (Z.log2 m < 53)%Z) by (apply Z.log2_lt_pow2; lia).
  set (e' := Py.ulp_exp q).
  assert (He' : (e' <= e)%Z) by (unfold e', Py.ulp_exp; lia).
  assert (Hmin : (-1074 <= e')%Z) by (unfold e', Py.ulp_exp; lia).
  pose proof (pow2_pos e') as Hpe'.
  assert (Hscaled : q / Py.pow2 e' == inject_Z (m * 2 ^ (e - e'))).
  { unfold q. rewrite inject_Z_mult, <- (pow2_inject (e - e')) by lia.
    replace e with ((e - e') + e')%Z at 1 by lia. rewrite pow2_add.
    field. lra. }
  unfold Py.nearest_pos. fold e'.
  rewrite (round_half_even_comp _ _ Hscaled), round_half_even_Z.
  rewrite <- Hscaled. field. lra.
Qed.

End RndPos.

Section Rnd.

Local Open Scope Q_scope.

Lemma this_Q2Qc (q : Q) : this (Q2Qc q) == q.
Proof. apply Qred_correct. Qed.

Lemma le_Finite (a b : Q) :
  a <= b -> Py.le (Py.Finite (Q2Qc a)) (Py.Finite (Q2Qc b)) = true.
Proof.
  intros H. cbn [Py.le]. apply bool_decide_eq_true_2.
  unfold Qcle. now rewrite !this_Q2Qc.
Qed.

Lemma Qnum_zero (q : Q) : Qnum q = 0%Z -> q == 0.
Proof. destruct q as [a b]. simpl. intros ->. reflexivity. Qed.

Lemma Qnum_pos (q : Q) (p : positive) : Qnum q = Zpos p -> 0 < q.
Proof. destruct q as [a b]. simpl. intros ->. reflexivity. Qed.

Lemma Qnum_neg (q : Q) (p : positive) : Qnum q = Zneg p -> q < 0.
Proof. destruct q as [a b]. simpl. intros ->. reflexivity. Qed.

Lemma rnd_zero (q : Q) : q == 0 -> Py.rnd q = Py.Finite (Q2Qc 0).
Proof.
  intros E. unfold Py.rnd. destruct (Qnum q) eqn:Hn; [reflexivity| |].
  - apply Qnum_pos in Hn. lra.
  - apply Qnum_neg in Hn. lra.
Qed.

Lemma rnd_pos_cases (q : Q) :
  0 < q ->
  (Py.rnd q = Py.Inf false /\ Py.pow2 1024 <= Py.nearest_pos q)
  \/ (Py.rnd q = Py.Finite (Q2Qc (Py.nearest_pos q)) /\ Py.nearest_pos q < Py.pow2 1024).
Proof.
  intros Hq. unfold Py.rnd. destruct (Qnum q) eqn:Hn.
  - apply Qnum_zero in Hn. lra.
  - cbv zeta.
    destruct (Qle_bool (Py.pow2 1024) (Py.nearest_pos q)) eqn:E.
    + left. split; [reflexivity|]. now apply Qle_bool_iff.
    + right. split; [reflexivity|]. apply Qnot_le_lt. intros H.
      apply Qle_bool_iff in H. congruence.
  - apply Qnum_neg in Hn. lra.
Qed.

Lemma rnd_neg_cases (q : Q) :
  q < 0 ->
  (Py.rnd q = Py.Inf true /\ Py.pow2 1024 <= Py.nearest_pos (- q))
  \/ (Py.rnd q = Py.Finite (Q2Qc (- Py.nearest_pos (- q)))
      /\ Py.nearest_pos (- q) < Py.pow2 1024).
Proof.
  intros Hq. unfold Py.rnd. destruct (Qnum q) eqn:Hn.
  - apply Qnum_zero in Hn. lra.
  - apply Qnum_pos in Hn. lra.
  - cbv zeta.
    destruct (Qle_bool (Py.pow2 1024) (Py.nearest_pos (- q))) eqn:E.
    + left. split; [reflexivity|]. now apply Qle_bool_iff.
    + right. split; [reflexivity|]. apply Qnot_le_lt. intros H.
      apply Qle_bool_iff in H. congruence.
Qed.

(** The rounded value depends on the number only, not on the fraction
    that stands for it. *)
Lemma rnd_comp (x y : Q) : x == y -> Py.rnd x = Py.rnd y.
Proof.
  intros E. destruct (Q_dec x 0) as [[Hx|Hx]|Hx].
  - assert (Hy : y < 0) by lra.
    assert (En : Py.nearest_pos (- x) == Py.nearest_pos (- y))
      by (apply nearest_pos_comp; lra).
    destruct (rnd_neg_cases x Hx) as [[-> H1]|[-> H1]];
      destruct (rnd_neg_cases y Hy) as [[-> H2]|[-> H2]]; try reflexivity; try lra.
    f_equal. apply Q2Qc_eq_iff. now rewrite En.
  - assert (Hy : 0 < y) by lra.
    assert (En : Py.nearest_pos x == Py.nearest_pos y)
      by (apply nearest_pos_comp; lra).
    destruct (rnd_pos_cases x Hx) as [[-> H1]|[-> H1]];
      destruct (rnd_pos_cases y Hy) as [[-> H2]|[-> H2]]; try reflexivity; try lra.
    f_equal. now apply Q2Qc_eq_iff.
  - rewrite (rnd_zero x Hx), (rnd_zero y); [reflexivity|lra].
Qed.

(** Rounding is monotone. *)
Lemma rnd_mono (x y : Q) : x <= y -> Py.le (Py.rnd x) (Py.rnd y) = true.
Proof.
  intros H.
  destruct (Q_dec x 0) as [[Hx|Hx]|Hx]; destruct (Q_dec y 0) as [[Hy|Hy]|Hy];
    try lra.
  - pose proof (nearest_pos_mono (- y) (- x) ltac:(lra) ltac:(lra)) as Hm.
    destruct (rnd_neg_cases x Hx) as [[-> H1]|[-> H1]];
      destruct (rnd_neg_cases y Hy) as [[-> H2]|[-> H2]]; try reflexivity; try lra.
    apply le_Finite. lra.
  - destruct (nearest_pos_bounds (- x) ltac:(lra)) as [Hx0 _].
    destruct (nearest_pos_bounds y Hy) as [Hy0 _].
    destruct (rnd_neg_cases x Hx) as [[-> H1]|[-> H1]];
      destruct (rnd_pos_cases y Hy) as [[-> H2]|[-> H2]]; try reflexivity.
    apply le_Finite. lra.
  - destruct (nearest_pos_bounds (- x) ltac:(lra)) as [Hx0 _].
    rewrite (rnd_zero y Hy).
    destruct (rnd_neg_cases x Hx) as [[-> H1]|[-> H1]]; try reflexivity.
    apply le_Finite. lra.
  - pose proof (nearest_pos_mono x y Hx H) as Hm.
    destruct (rnd_pos_cases x Hx) as [[-> H1]|[-> H1]];
      destruct (rnd_pos_cases y Hy) as [[-> H2]|[-> H2]]; try reflexivity; try lra.
    apply le_Finite. lra.
  - destruct (nearest_pos_bounds y Hy) as [Hy0 _].
    rewrite (rnd_zero x Hx).
    destruct (rnd_pos_cases y Hy) as [[-> H2]|[-> H2]]; try reflexivity.
    apply le_Finite. lra.
  - rewrite (rnd_zero x Hx), (rnd_zero y Hy). apply le_Finite. lra.
Qed.

(** A number of at most 53 significant bits whose last bit is worth
    [2 ** -1074] or more, below [2 ** 1024], is a float. *)
Lemma rnd_exact (m e : Z) :
  (Z.abs m <= 2 ^ 53)%Z -> (-1074 <= e)%Z ->
  Qabs (inject_Z m * Py.pow2 e) < Py.pow2 1024 ->
  Py.rnd (inject_Z m * Py.pow2 e) = Py.Finite (Q2Qc (inject_Z m * Py.pow2 e)).
Proof.
  assert (Hpos : forall m e : Z,
            (0 < m <= 2 ^ 53)%Z -> (-1074 <= e)%Z ->
            Py.nearest_pos (inject_Z m * Py.pow2 e) == inject_Z m * Py.pow2 e).
  { clear. intros m e Hm He.
    destruct (Z.eq_dec m (2 ^ 53)%Z) as [->|Hne].
    - assert (E : inject_Z (2 ^ 53) * Py.pow2 e
                  == inject_Z (2 ^ 52) * Py.pow2 (e + 1)).
      { rewrite pow2_succ. change (2 ^ 53)%Z with (2 * 2 ^ 52)%Z.
        rewrite inject_Z_mult. change (inject_Z 2) with 2. ring. }
      assert (H0 : 0 < inject_Z (2 ^ 53) * Py.pow2 e)
        by (apply Qmult_lt_0_compat; [reflexivity|apply pow2_pos]).
      rewrite (nearest_pos_comp _ _ H0 E).
      rewrite nearest_pos_exact by lia. now rewrite E.
    - apply nearest_pos_exact; lia. }
  intros Hm He Hlt. pose proof (pow2_pos e) as Hpe.
  destruct (Z.lt_trichotomy m 0) as [Hneg|[->|Hp]].
  - assert (Hm' : inject_Z m < 0) by (rewrite (Zlt_Qlt m 0) in Hneg; exact Hneg).
    assert (Hq : inject_Z m * Py.pow2 e < 0).
    { assert (H0 : 0 < (- inject_Z m) * Py.pow2 e)
        by (apply Qmult_lt_0_compat; lra).
      lra. }
    assert (E : - (inject_Z m * Py.pow2 e) == inject_Z (- m) * Py.pow2 e)
      by (rewrite inject_Z_opp; ring).
    assert (En : Py.nearest_pos (- (inject_Z m * Py.pow2 e)) == inject_Z (- m) * Py.pow2 e).
    { assert (H0 : 0 < - (inject_Z m * Py.pow2 e)) by lra.
      rewrite (nearest_pos_comp _ _ H0 E). apply Hpos; lia. }
    rewrite Qabs_neg in Hlt by lra.
    destruct (rnd_neg_cases _ Hq) as [[_ H1]|[-> H1]]; [lra|].
    f_equal. apply Q2Qc_eq_iff. rewrite En, <- E. ring.
  - assert (E : inject_Z 0 * Py.pow2 e == 0) by ring.
    rewrite (rnd_zero _ E). f_equal. apply Q2Qc_eq_iff. now rewrite E.
  - assert (Hm' : 0 < inject_Z m) by (rewrite (Zlt_Qlt 0 m) in Hp; exact Hp).
    assert (Hq : 0 < inject_Z m * Py.pow2 e)
      by (apply Qmult_lt_0_compat; assumption).
    rewrite Qabs_pos in Hlt by lra.
    pose proof (Hpos m e ltac:(lia) He) as En.
    destruct (rnd_pos_cases _ Hq) as [[_ H1]|[-> H1]]; [lra|].
    f_equal. now apply Q2Qc_eq_iff.
Qed.

End Rnd.

Section Rnd2.

Local Open Scope Q_scope.

Lemma rnd_not_NaN (q : Q) : Py.rnd q <> Py.NaN.
Proof.
  unfold Py.rnd. destruct (Qnum q); [discriminate| |]; cbv zeta;
    destruct (Qle_bool _ _); discriminate.
Qed.

(** What rounding gives is a float: rounding it again changes nothing. *)
Lemma rnd_idem (x : Q) (y : Qc) : Py.rnd x = Py.Finite y -> Py.rnd y = Py.Finite y.
Proof.
  intros H.
  assert (Hexact : forall q : Q, 0 < q -> Py.nearest_pos q < Py.pow2 1024 ->
            Py.rnd (Py.nearest_pos q) = Py.Finite (Q2Qc (Py.nearest_pos q))
            /\ Py.rnd (- Py.nearest_pos q) = Py.Finite (Q2Qc (- Py.nearest_pos q))).
  { clear. intros q Hq Hlt.
    destruct (scaled_bounds q Hq) as (H0 & H1 & _).
    destruct (nearest_pos_bounds q Hq) as (Hn0 & _ & _).
    assert (Hm0 : (0 <= Py.round_half_even (q / Py.pow2 (Py.ulp_exp q)))%Z)
      by (apply round_half_even_ge, Qlt_le_weak, H0).
    assert (Hm1 : (Py.round_half_even (q / Py.pow2 (Py.ulp_exp q)) <= 2 ^ 53)%Z)
      by (apply round_half_even_le; lra).
    assert (He : (-1074 <= Py.ulp_exp q)%Z) by (unfold Py.ulp_exp; lia).
    split.
    - apply rnd_exact; [lia|exact He|].
      fold (Py.nearest_pos q). rewrite Qabs_pos by exact Hn0. exact Hlt.
    - assert (E : - Py.nearest_pos q
                  == inject_Z (- Py.round_half_even (q / Py.pow2 (Py.ulp_exp q)))
                     * Py.pow2 (Py.ulp_exp q))
        by (unfold Py.nearest_pos; rewrite inject_Z_opp; ring).
      rewrite (rnd_comp _ _ E).
      rewrite rnd_exact; [f_equal; apply Q2Qc_eq_iff; now rewrite E|lia|exact He|].
      rewrite <- E, Qabs_opp, Qabs_pos by exact Hn0. exact Hlt. }
  destruct (Q_dec x 0) as [[Hx|Hx]|Hx].
  - destruct (rnd_neg_cases x Hx) as [[E _]|[E Hlt]]; rewrite E in H;
      [discriminate H|]. injection H as <-.
    rewrite (rnd_comp _ _ (this_Q2Qc _)).
    apply Hexact; [lra|exact Hlt].
  - destruct (rnd_pos_cases x Hx) as [[E _]|[E Hlt]]; rewrite E in H;
      [discriminate H|]. injection H as <-.
    rewrite (rnd_comp _ _ (this_Q2Qc _)).
    apply Hexact; [lra|exact Hlt].
  - rewrite (rnd_zero x Hx) in H. injection H as <-.
    apply rnd_zero. apply this_Q2Qc.
Qed.

(** An integer of at most 53 bits is a float. *)
Lemma rnd_inject_Z (z : Z) :
  (Z.abs z <= 2 ^ 53)%Z -> Py.rnd (inject_Z z) = Py.Finite (Py.of_Z z).
Proof.
  intros Hz.
  assert (E : inject_Z z == inject_Z z * Py.pow2 0)
    by (change (Py.pow2 0) with 1; ring).
  rewrite (rnd_comp _ _ E), rnd_exact; [|exact Hz|lia|].
  - f_equal. apply Q2Qc_eq_iff. now rewrite <- E.
  - rewrite <- E. apply Qle_lt_trans with (inject_Z (2 ^ 53)).
    + apply Qabs_Qle_condition. rewrite <- inject_Z_opp, <- !Zle_Qle. lia.
    + rewrite <- (pow2_inject 53) by lia. apply pow2_lt. lia.
Qed.

End Rnd2.

(** ** Arithmetic of [//], [%] and [int] *)

Section Arithmetic.

Local Open Scope Q_scope.

Lemma this_of_Z (z : Z) : this (Py.of_Z z) == inject_Z z.
Proof. apply this_Q2Qc. Qed.

Lemma Qfloor_of_Z (z : Z) : Qfloor (Py.of_Z z) = z.
Proof. rewrite (Qfloor_comp _ _ (this_of_Z z)). apply Qfloor_Z. Qed.

Lemma Qfloor_div_pos (q : Q) (p : positive) :
  Qfloor (q / inject_Z (Z.pos p)) = (Qfloor q / Z.pos p)%Z.
Proof.
  destruct q as [a b]. unfold Qdiv, Qmult, Qinv, Qfloor. simpl.
  rewrite Z.mul_1_r, Pos2Z.inj_mul. symmetry. apply Z.div_div; lia.
Qed.

Lemma Qfloor_sub_Z (q : Q) (z : Z) :
  Qfloor (q - inject_Z z) = (Qfloor q - z)%Z.
Proof.
  destruct q as [a b]. unfold Qminus, Qplus, Qopp, Qfloor. simpl.
  rewrite Z.mul_1_r, Pos.mul_1_r.
  replace (a + - z * Z.pos b)%Z with (a + (- z) * Z.pos b)%Z by lia.
  rewrite Z.div_add by lia. lia.
Qed.

Lemma Qfloor_nonneg (q : Q) : 0 <= q -> (0 <= Qfloor q)%Z.
Proof. intros H. apply Qfloor_resp_le in H. exact H. Qed.

Lemma Qfloor_lt (q : Q) (z : Z) : q < inject_Z z -> (Qfloor q < z)%Z.
Proof. intros H. rewrite Zlt_Qlt. pose proof (Qfloor_le q). lra. Qed.

(** On a number that is not negative, truncation is the floor. *)
Lemma trunc_nonneg (q : Q) : 0 <= q -> Py.trunc q = Qfloor q.
Proof.
  unfold Py.trunc. destruct q as [a b]. unfold Qle. simpl. intros H.
  apply Z.quot_div_nonneg; lia.
Qed.

Lemma trunc_inject_Z (z : Z) : Py.trunc (inject_Z z) = z.
Proof. unfold Py.trunc. simpl. apply Z.quot_1_r. Qed.

Lemma trunc_nonpos (q : Q) : q <= 0 -> Py.trunc q = (- Qfloor (- q))%Z.
Proof.
  intros H. rewrite <- (trunc_nonneg (- q)) by lra.
  unfold Py.trunc. destruct q as [a b]. simpl.
  rewrite Z.quot_opp_l by lia. lia.
Qed.

(** Truncation depends on the number only. *)
Lemma trunc_comp (x y : Q) : x == y -> Py.trunc x = Py.trunc y.
Proof.
  intros E. destruct (Qlt_le_dec x 0) as [Hx|Hx].
  - rewrite !trunc_nonpos by lra. f_equal. apply Qfloor_comp. now rewrite E.
  - rewrite !trunc_nonneg by lra. now apply Qfloor_comp.
Qed.

Lemma nonzero_of_Z (z : Z) : z <> 0%Z -> Py.nonzero (Py.of_Z z) = true.
Proof.
  intros Hz. unfold Py.nonzero. apply negb_true_iff.
  destruct (Qeq_bool (Py.of_Z z) 0) eqn:E; [|reflexivity].
  apply Qeq_bool_iff in E. rewrite this_of_Z in E.
  unfold Qeq in E. simpl in E. lia.
Qed.

Lemma nonzero_true (q : Qc) : ~ q == 0 -> Py.nonzero q = true.
Proof.
  intros H. unfold Py.nonzero. apply negb_true_iff.
  destruct (Qeq_bool q 0) eqn:E; [|reflexivity].
  apply Qeq_bool_iff in E. contradiction.
Qed.

Lemma nonzero_false (q : Qc) : q == 0 -> Py.nonzero q = false.
Proof.
  intros H. unfold Py.nonzero. apply negb_false_iff. now apply Qeq_bool_iff.
Qed.

Lemma lt_Finite_true (a b : Qc) : a < b -> Py.lt (Py.Finite a) (Py.Finite b) = true.
Proof. intros H. cbn [Py.lt]. now apply bool_decide_eq_true_2. Qed.

Lemma lt_Finite_false (a b : Qc) : b <= a -> Py.lt (Py.Finite a) (Py.Finite b) = false.
Proof.
  intros H. cbn [Py.lt]. apply bool_decide_eq_false_2.
  unfold Qclt. lra.
Qed.

Lemma Finite_eq (a b : Qc) : a == b -> Py.Finite a = Py.Finite b.
Proof. intros E. f_equal. now apply Qc_is_canon. Qed.

Lemma this_Q2Qc_0 : this (Q2Qc 0) == 0.
Proof. apply this_Q2Qc. Qed.

(** [fmod] by a positive whole number. *)
Lemma fmod_of_Z (q : Qc) (P : Z) :
  (0 < P)%Z ->
  Py.fmod (Py.Finite q) (Py.Finite (Py.of_Z P))
    = Py.Finite (Q2Qc (q - inject_Z (P * Py.trunc (q / inject_Z P)))).
Proof.
  intros HP. cbn [Py.fmod]. rewrite nonzero_of_Z by lia.
  apply Finite_eq. rewrite !this_Q2Qc.
  assert (E : q / Py.of_Z P == q / inject_Z P) by now rewrite this_of_Z.
  rewrite (trunc_comp _ _ E), this_of_Z, inject_Z_mult. ring.
Qed.

(** The whole quotient and the remainder that go with it. *)
Lemma floor_div_mod (q : Q) (P : Z) :
  (0 < P)%Z ->
  let k := (Qfloor q / P)%Z in
  Qfloor (q / inject_Z P) = k
  /\ Qfloor (q - inject_Z (P * k)) = (Qfloor q mod P)%Z
  /\ 0 <= q - inject_Z (P * k) /\ q - inject_Z (P * k) < inject_Z P.
Proof.
  intros HP k. destruct P as [|p|p]; try lia.
  split; [apply Qfloor_div_pos|]. split.
  - rewrite Qfloor_sub_Z. unfold k. rewrite Z.mod_eq by lia. reflexivity.
  - pose proof (Qfloor_le q) as H1. pose proof (Qlt_floor q) as H2.
    pose proof (Z.mod_pos_bound (Qfloor q) (Z.pos p) ltac:(lia)) as Hm.
    assert (E : (Z.pos p * k = Qfloor q - Qfloor q mod Z.pos p)%Z)
      by (unfold k; rewrite Z.mod_eq by lia; lia).
    rewrite E. unfold Z.sub. rewrite inject_Z_plus, inject_Z_opp.
    destruct Hm as [Hm1 Hm2].
    assert (Hm2' : (Qfloor q mod Z.pos p + 1 <= Z.pos p)%Z) by lia.
    rewrite Zle_Qle in Hm1, Hm2'. rewrite inject_Z_plus in Hm2', H2.
    change (inject_Z 1) with 1 in *. change (inject_Z 0) with 0 in *.
    split; lra.
Qed.

End Arithmetic.

Section FloorDivision.

Local Open Scope Q_scope.

Lemma inject_Z_pos (P : Z) : (0 < P)%Z -> 0 < inject_Z P.
Proof. intros H. change 0 with (inject_Z 0). now rewrite <- Zlt_Qlt. Qed.

Lemma Qc0_le_of_Z (P : Z) : (0 <= P)%Z -> (Q2Qc 0 <= Py.of_Z P)%Qc.
Proof.
  intros H. unfold Qcle. rewrite this_of_Z, this_Q2Qc_0.
  change 0 with (inject_Z 0). now rewrite <- Zle_Qle.
Qed.

(** The last step of [//] on a quotient that is a whole number. *)
Lemma snap_of_Z (k : Z) :
  (if Py.truth (Py.Finite (Py.of_Z k)) then
     let floordiv := Py.floor (Py.Finite (Py.of_Z k)) in
     if Py.lt (Py.Finite (Q2Qc (1 # 2))) (Py.sub (Py.Finite (Py.of_Z k)) floordiv)
     then Py.add floordiv (Py.Finite (Q2Qc 1))
     else floordiv
   else Py.Finite (Q2Qc 0))
  = Py.Finite (Py.of_Z k).
Proof.
  cbn [Py.truth]. destruct (Z.eq_dec k 0%Z) as [->|Hk].
  - rewrite nonzero_false by (rewrite this_of_Z; reflexivity). reflexivity.
  - rewrite nonzero_of_Z by exact Hk. cbv zeta.
    cbn [Py.floor]. rewrite Qfloor_of_Z. cbn [Py.sub].
    rewrite (rnd_zero (Py.of_Z k - Py.of_Z k)) by ring.
    rewrite lt_Finite_false; [reflexivity|].
    unfold Qcle. rewrite !this_Q2Qc. discriminate.
Qed.

(** [x // P] where the quotient of [fmod] is [t]: below [2 ** 53] all
    the operations are exact. *)
Lemma floordiv_steps (q : Qc) (P t : Z) :
  (0 < P <= 2 ^ 53)%Z -> (Z.abs (P * t) <= 2 ^ 53)%Z -> (Z.abs t < 2 ^ 53)%Z ->
  Py.trunc (q / inject_Z P) = t ->
  Py.floordiv (Py.Finite q) (Py.float_of_Z P)
    = Py.Ok (Py.Finite (Py.of_Z
               (if Py.negative (Q2Qc (q - inject_Z (P * t))) then t - 1 else t)%Z)).
Proof.
  intros HP HPt Ht Htr. unfold Py.floordiv, Py.float_of_Z.
  rewrite rnd_inject_Z by lia. cbn [Py.truth].
  rewrite nonzero_of_Z by lia. cbn [negb]. cbv zeta.
  rewrite (fmod_of_Z q P) by lia. rewrite Htr.
  set (r := Q2Qc (q - inject_Z (P * t))).
  assert (Hsub : Py.sub (Py.Finite q) (Py.Finite r) = Py.Finite (Py.of_Z (P * t))).
  { cbn [Py.sub]. rewrite (rnd_comp _ (inject_Z (P * t))).
    - apply rnd_inject_Z. exact HPt.
    - unfold r. rewrite this_Q2Qc. ring. }
  rewrite Hsub.
  assert (Hdiv : Py.div (Py.Finite (Py.of_Z (P * t))) (Py.Finite (Py.of_Z P))
                 = Py.Finite (Py.of_Z t)).
  { cbn [Py.div]. rewrite nonzero_of_Z by lia.
    rewrite (rnd_comp _ (inject_Z t)).
    - apply rnd_inject_Z. lia.
    - rewrite !this_of_Z, inject_Z_mult. field.
      intros E. unfold Qeq in E. simpl in E. lia. }
  rewrite Hdiv.
  rewrite (lt_Finite_false (Py.of_Z P) (Q2Qc 0))
    by (apply Qc0_le_of_Z; lia).
  cbn [xorb].
  assert (Hlt : Py.lt (Py.Finite r) (Py.Finite (Q2Qc 0)) = Py.negative r)
    by reflexivity.
  rewrite Hlt. destruct (Py.negative r) eqn:Hneg.
  - assert (Hnz : Py.truth (Py.Finite r) = true).
    { cbn [Py.truth]. apply nonzero_true. intros E.
      unfold Py.negative in Hneg. apply bool_decide_eq_true_1 in Hneg.
      unfold Qclt in Hneg. rewrite this_Q2Qc_0 in Hneg. lra. }
    rewrite Hnz. cbn [andb].
    assert (Hone : Py.sub (Py.Finite (Py.of_Z t)) (Py.Finite (Q2Qc 1))
                   = Py.Finite (Py.of_Z (t - 1))).
    { cbn [Py.sub]. rewrite (rnd_comp _ (inject_Z (t - 1))).
      - apply rnd_inject_Z. lia.
      - rewrite this_of_Z, this_Q2Qc. unfold Z.sub.
        rewrite inject_Z_plus, inject_Z_opp. reflexivity. }
    rewrite Hone. now rewrite snap_of_Z.
  - rewrite andb_false_r. now rewrite snap_of_Z.
Qed.

(** [x % P]: the remainder of [fmod], moved up by [P] when it is
    negative. *)
Lemma mod_steps (q : Qc) (P : Z) :
  (0 < P <= 2 ^ 53)%Z ->
  let r := Q2Qc (q - inject_Z (P * Py.trunc (q / inject_Z P))) in
  Py.mod_ (Py.Finite q) (Py.float_of_Z P)
    = Py.Ok (if Py.negative r then Py.rnd (r + inject_Z P) else Py.Finite r).
Proof.
  intros HP r. unfold Py.mod_, Py.float_of_Z.
  rewrite rnd_inject_Z by lia. cbn [Py.truth].
  rewrite nonzero_of_Z by lia. cbn [negb]. cbv zeta.
  rewrite (fmod_of_Z q P) by lia. fold r.
  rewrite (lt_Finite_false (Py.of_Z P) (Q2Qc 0))
    by (apply Qc0_le_of_Z; lia).
  cbn [xorb].
  assert (Hlt : Py.lt (Py.Finite r) (Py.Finite (Q2Qc 0)) = Py.negative r)
    by reflexivity.
  rewrite Hlt. f_equal. destruct (Py.negative r) eqn:Hneg.
  - assert (Hnz : Py.truth (Py.Finite r) = true).
    { cbn [Py.truth]. apply nonzero_true. intros E.
      unfold Py.negative in Hneg. apply bool_decide_eq_true_1 in Hneg.
      unfold Qclt in Hneg. rewrite this_Q2Qc_0 in Hneg. lra. }
    rewrite Hnz. cbn [Py.add]. apply rnd_comp. now rewrite this_of_Z.
  - cbn [Py.truth]. destruct (Py.nonzero r) eqn:Hnz; [reflexivity|].
    apply Finite_eq. unfold Py.nonzero in Hnz. apply negb_false_iff in Hnz.
    apply Qeq_bool_iff in Hnz. now rewrite this_Q2Qc_0.
Qed.

Lemma negative_false (q : Qc) : 0 <= q -> Py.negative q = false.
Proof.
  intros H. unfold Py.negative. apply bool_decide_eq_false_2.
  unfold Qclt. rewrite this_Q2Qc_0. lra.
Qed.

Lemma negative_true (q : Qc) : q < 0 -> Py.negative q = true.
Proof.
  intros H. unfold Py.negative. apply bool_decide_eq_true_2.
  unfold Qclt. now rewrite this_Q2Qc_0.
Qed.

(** [//] and [%] by a whole number, on a number that is not negative
    and lies below [2 ** 53]: the floor of the quotient and the
    remainder, with no rounding. *)
Lemma floordiv_nonneg (q : Qc) (P : Z) :
  0 <= q -> q < inject_Z (2 ^ 53) -> (0 < P <= 2 ^ 53)%Z ->
  Py.floordiv (Py.Finite q) (Py.float_of_Z P)
    = Py.Ok (Py.Finite (Py.of_Z (Qfloor q / P))).
Proof.
  intros H0 H1 HP.
  destruct (floor_div_mod q P ltac:(lia)) as (Hk & _ & Hr0 & _).
  pose proof (Qfloor_nonneg q H0) as Ht0. pose proof (Qfloor_lt q _ H1) as Ht1.
  assert (Hk0 : (0 <= Qfloor q / P)%Z) by (apply Z.div_pos; lia).
  assert (Hk1 : (P * (Qfloor q / P) <= Qfloor q)%Z) by (apply Z.mul_div_le; lia).
  assert (Hk2 : (Qfloor q / P <= Qfloor q)%Z) by nia.
  assert (Htr : Py.trunc (q / inject_Z P) = (Qfloor q / P)%Z).
  { rewrite trunc_nonneg, Hk; [reflexivity|].
    apply Qle_shift_div_l; [apply inject_Z_pos; lia|].
    rewrite Qmult_0_l. exact H0. }
  assert (Hb1 : (Z.abs (P * (Qfloor q / P)) <= 2 ^ 53)%Z) by lia.
  assert (Hb2 : (Z.abs (Qfloor q / P) < 2 ^ 53)%Z) by lia.
  rewrite (floordiv_steps q P _ HP Hb1 Hb2 Htr).
  rewrite negative_false; [reflexivity|]. now rewrite this_Q2Qc.
Qed.

Lemma mod_nonneg (q : Qc) (P : Z) :
  0 <= q -> (0 < P <= 2 ^ 53)%Z ->
  let r := Q2Qc (q - inject_Z (P * (Qfloor q / P))) in
  Py.mod_ (Py.Finite q) (Py.float_of_Z P) = Py.Ok (Py.Finite r)
  /\ 0 <= r /\ r < inject_Z P /\ Qfloor r = (Qfloor q mod P)%Z.
Proof.
  intros H0 HP r.
  destruct (floor_div_mod q P ltac:(lia)) as (Hk & Hfl & Hr0 & Hr1).
  assert (Htr : Py.trunc (q / inject_Z P) = (Qfloor q / P)%Z).
  { rewrite trunc_nonneg, Hk; [reflexivity|].
    apply Qle_shift_div_l; [apply inject_Z_pos; lia|].
    rewrite Qmult_0_l. exact H0. }
  pose proof (mod_steps q P HP) as Hm. cbv zeta in Hm. rewrite Htr in Hm.
  fold r in Hm. rewrite negative_false in Hm by (unfold r; now rewrite this_Q2Qc).
  split; [exact Hm|]. unfold r. rewrite !this_Q2Qc.
  split; [exact Hr0|]. split; [exact Hr1|]. exact Hfl.
Qed.

(** [int] on a whole number and on a number that is not negative. *)
Lemma int_of_Z (z : Z) : Py.int (Py.Finite (Py.of_Z z)) = Py.Ok z.
Proof.
  cbn [Py.int]. f_equal. rewrite (trunc_comp _ _ (this_of_Z z)).
  apply trunc_inject_Z.
Qed.

Lemma int_nonneg (q : Qc) : 0 <= q -> Py.int (Py.Finite q) = Py.Ok (Qfloor q).
Proof. intros H. cbn [Py.int]. f_equal. now apply trunc_nonneg. Qed.

End FloorDivision.
(** ** The format [02d] *)

Section Format02d.

Lemma format_02d_two_digits (k : Z) :
  0 <= k < 100 -> Py.format_02d k = two_digits k.
Proof.
  intros Hk.
  assert (Hall : forallb (fun k => String.eqb (Py.format_02d k) (two_digits k))
                   (seqZ 0 100) = true) by (vm_compute; reflexivity).
  rewrite forallb_forall in Hall.
  apply String.eqb_eq, Hall, list_elem_of_In, elem_of_seqZ. lia.
Qed.

Lemma format_02d_nonneg (k : Z) :
  0 <= k -> Py.format_02d k = Py.zfill 2 (Py.digits (Z.to_N k)).
Proof.
  intros Hk. unfold Py.format_02d.
  destruct (Z.ltb_spec k 0) as [?|_]; [lia|].
  f_equal. f_equal. lia.
Qed.

Lemma string_of_to_uint (k : N) :
  NilEmpty.uint_of_string (Py.digits k) = Some (N.to_uint k).
Proof.
  unfold Py.digits, NilZero.string_of_uint.
  destruct (N.to_uint k) eqn:E; try apply NilEmpty.usu.
  destruct k as [|p]; [discriminate E|].
  exfalso. revert E. apply DecimalPos.Unsigned.to_uint_nonnil.
Qed.

Lemma decimal_value_zeros (k : nat) (s : string) (v : N) :
  decimal_value s = Some v -> decimal_value (Py.zeros k +:+ s) = Some v.
Proof.
  unfold decimal_value. intros Hs. induction k as [|k IH]; simpl; [exact Hs|].
  destruct (NilEmpty.uint_of_string (Py.zeros k +:+ s)) as [d|];
    [|discriminate IH].
  simpl in *. exact IH.
Qed.

Lemma decimal_value_zfill (w : nat) (k : N) :
  decimal_value (Py.zfill w (Py.digits k)) = Some k.
Proof.
  apply decimal_value_zeros. unfold decimal_value.
  rewrite string_of_to_uint. simpl. f_equal. apply DecimalN.Unsigned.of_to.
Qed.

Lemma length_append (s1 s2 : string) :
  String.length (s1 +:+ s2) = (String.length s1 + String.length s2)%nat.
Proof. induction s1 as [|c s1 IH]; simpl; [reflexivity|]. now rewrite IH. Qed.

Lemma length_zeros (k : nat) : String.length (Py.zeros k) = k.
Proof. induction k as [|k IH]; simpl; [reflexivity|]. now rewrite IH. Qed.

Lemma length_zfill (w : nat) (s : string) :
  (w <= String.length (Py.zfill w s))%nat.
Proof. unfold Py.zfill. rewrite length_append, length_zeros. lia. Qed.

End Format02d.


(** ** [format_timestamp] below [2 ** 53] seconds *)

Section Timestamp.

Local Open Scope Q_scope.

(** The three fields of [format_timestamp] are the integer quotients and
    remainders of the whole seconds. *)
Lemma format_timestamp_fields (seconds : Qc) :
  0 <= seconds -> seconds < inject_Z (2 ^ 53) ->
  let t := Qfloor seconds in
  format_timestamp (Py.Finite seconds) =
    Py.Ok (Py.format_02d (t / 3600) +:+ ":" +:+ Py.format_02d (t mod 3600 / 60)
           +:+ ":" +:+ Py.format_02d (t mod 60)).
Proof.
  intros H0 H1 t. unfold format_timestamp.
  rewrite (floordiv_nonneg seconds 3600 H0 H1) by lia.
  unfold mbind at 1. unfold Py.result_bind at 1.
  rewrite int_of_Z. unfold mbind at 1. unfold Py.result_bind at 1.
  destruct (mod_nonneg seconds 3600 H0 ltac:(lia)) as (Hm & Hr0 & Hr1 & Hfl).
  rewrite Hm. unfold mbind at 1. unfold Py.result_bind at 1.
  rewrite floordiv_nonneg; [|exact Hr0| |lia].
  2: { apply Qlt_trans with (inject_Z 3600); [exact Hr1|reflexivity]. }
  unfold mbind at 1. unfold Py.result_bind at 1.
  rewrite int_of_Z. unfold mbind at 1. unfold Py.result_bind at 1.
  destruct (mod_nonneg seconds 60 H0 ltac:(lia)) as (Hm' & Hr0' & _ & Hfl').
  rewrite Hm'. unfold mbind at 1. unfold Py.result_bind at 1.
  rewrite (int_nonneg _ Hr0'). unfold mbind at 1. unfold Py.result_bind at 1.
  rewrite Hfl, Hfl'. reflexivity.
Qed.

End Timestamp.

(** ** [format_timestamp] at every finite float *)

Section Finite.

Local Open Scope Q_scope.

Lemma is_binary64_rnd (q : Qc) :
  Py.is_binary64 q = true -> Py.rnd q = Py.Finite q.
Proof.
  unfold Py.is_binary64. destruct (Py.rnd q) as [y| |]; try discriminate.
  intros E. apply Qeq_bool_iff in E. now apply Finite_eq.
Qed.

Lemma rnd_is_binary64 (x : Q) (y : Qc) :
  Py.rnd x = Py.Finite y -> Py.is_binary64 y = true.
Proof.
  intros H. unfold Py.is_binary64. rewrite (rnd_idem x y H).
  apply Qeq_bool_iff. reflexivity.
Qed.

(** Between two numbers that round to finite floats, every number
    rounds to a finite float, and to one between those two. *)
Lemma rnd_between (lo x hi : Q) (a b : Qc) :
  Py.rnd lo = Py.Finite a -> Py.rnd hi = Py.Finite b ->
  lo <= x -> x <= hi ->
  exists y : Qc, Py.rnd x = Py.Finite y /\ a <= y /\ y <= b.
Proof.
  intros Hlo Hhi H1 H2.
  pose proof (rnd_mono lo x H1) as Hm1. pose proof (rnd_mono x hi H2) as Hm2.
  rewrite Hlo in Hm1. rewrite Hhi in Hm2.
  destruct (Py.rnd x) as [y|[|]|] eqn:E; try discriminate.
  exists y. cbn [Py.le] in Hm1, Hm2.
  apply bool_decide_eq_true_1 in Hm1, Hm2. auto.
Qed.

(** A finite float lies between [-2 ** 1024] and [2 ** 1024]. *)
Lemma rnd_Finite_bound (x : Q) (y : Qc) :
  Py.rnd x = Py.Finite y -> - Py.pow2 1024 < y /\ y < Py.pow2 1024.
Proof.
  intros H. pose proof (pow2_pos 1024) as Hp.
  destruct (Q_dec x 0) as [[Hx|Hx]|Hx].
  - destruct (rnd_neg_cases x Hx) as [[E _]|[E Hlt]]; rewrite E in H;
      [discriminate H|]. injection H as <-. rewrite this_Q2Qc.
    destruct (nearest_pos_bounds (- x) ltac:(lra)) as [H0 _]. lra.
  - destruct (rnd_pos_cases x Hx) as [[E _]|[E Hlt]]; rewrite E in H;
      [discriminate H|]. injection H as <-. rewrite this_Q2Qc.
    destruct (nearest_pos_bounds x Hx) as [H0 _]. lra.
  - rewrite (rnd_zero x Hx) in H. injection H as <-. rewrite this_Q2Qc_0. lra.
Qed.

(** Some floats. *)
Lemma rnd_pow2_multiple (m e : Z) :
  (Z.abs m <= 2 ^ 53)%Z -> (-1074 <= e)%Z ->
  Qabs (inject_Z m * Py.pow2 e) < Py.pow2 1024 ->
  Py.rnd (inject_Z m * Py.pow2 e) = Py.Finite (Q2Qc (inject_Z m * Py.pow2 e)).
Proof. apply rnd_exact. Qed.

(** The remainder of [fmod] by a positive whole number has the sign of
    the dividend, and what it is taken from lies between zero and the
    dividend. *)
Lemma fmod_bounds (q : Q) (P : Z) :
  (0 < P)%Z ->
  let r := q - inject_Z (P * Py.trunc (q / inject_Z P)) in
  (0 <= q -> 0 <= r /\ r < inject_Z P /\ 0 <= q - r /\ q - r <= q)
  /\ (q <= 0 -> - inject_Z P < r /\ r <= 0 /\ q <= q - r /\ q - r <= 0).
Proof.
  intros HP r. pose proof (inject_Z_pos P HP) as HP'. split.
  - intros H0.
    destruct (floor_div_mod q P HP) as (Hk & _ & Hr0 & Hr1).
    assert (Htr : Py.trunc (q / inject_Z P) = (Qfloor q / P)%Z).
    { rewrite trunc_nonneg, Hk; [reflexivity|].
      apply Qle_shift_div_l; [exact HP'|]. rewrite Qmult_0_l. exact H0. }
    assert (Hc : 0 <= inject_Z (P * (Qfloor q / P))).
    { change 0 with (inject_Z 0). rewrite <- Zle_Qle.
      apply Z.mul_nonneg_nonneg; [lia|]. apply Z.div_pos; [|lia].
      now apply Qfloor_nonneg. }
    unfold r. rewrite Htr.
    revert Hr0 Hr1 Hc. generalize (inject_Z (P * (Qfloor q / P))).
    intros c Hr0 Hr1 Hc. repeat split; lra.
  - intros H0.
    destruct (floor_div_mod (- q) P HP) as (Hk & _ & Hr0 & Hr1).
    assert (Htr : Py.trunc (q / inject_Z P) = (- (Qfloor (- q) / P))%Z).
    { rewrite trunc_nonpos.
      - rewrite <- Hk. f_equal. apply Qfloor_comp. field. lra.
      - apply Qle_shift_div_r; [exact HP'|]. rewrite Qmult_0_l. exact H0. }
    assert (Hc : 0 <= inject_Z (P * (Qfloor (- q) / P))).
    { change 0 with (inject_Z 0). rewrite <- Zle_Qle.
      apply Z.mul_nonneg_nonneg; [lia|]. apply Z.div_pos; [|lia].
      apply Qfloor_nonneg. lra. }
    unfold r. rewrite Htr.
    replace (P * - (Qfloor (- q) / P))%Z with (- (P * (Qfloor (- q) / P)))%Z by lia.
    rewrite inject_Z_opp.
    revert Hr0 Hr1 Hc. generalize (inject_Z (P * (Qfloor (- q) / P))).
    intros c Hr0 Hr1 Hc. repeat split; lra.
Qed.

(** [%] by a positive whole number at any finite number: the result
    is finite and lies between zero and the divisor, the divisor
    included. *)
Lemma mod_finite (q : Qc) (P : Z) :
  (0 < P <= 2 ^ 53)%Z ->
  exists r : Qc,
    Py.mod_ (Py.Finite q) (Py.float_of_Z P) = Py.Ok (Py.Finite r)
    /\ 0 <= r /\ r <= inject_Z P.
Proof.
  intros HP. rewrite (mod_steps q P HP).
  destruct (fmod_bounds q P ltac:(lia)) as [Hpos Hneg].
  set (r0 := Q2Qc (q - inject_Z (P * Py.trunc (q / inject_Z P)))).
  assert (E : r0 == q - inject_Z (P * Py.trunc (q / inject_Z P)))
    by apply this_Q2Qc.
  cbv zeta in Hpos, Hneg. rewrite <- E in Hpos, Hneg.
  pose proof (inject_Z_pos P ltac:(lia)) as HP'.
  destruct (Py.negative r0) eqn:Hn.
  - unfold Py.negative in Hn. apply bool_decide_eq_true_1 in Hn.
    unfold Qclt in Hn. rewrite this_Q2Qc_0 in Hn.
    assert (Hq : q <= 0).
    { destruct (Qlt_le_dec 0 q) as [Hq|Hq]; [|exact Hq].
      destruct (Hpos (Qlt_le_weak _ _ Hq)) as (H & _). lra. }
    destruct (Hneg Hq) as (H1 & _).
    destruct (rnd_between 0 (r0 + inject_Z P) (inject_Z P) (Q2Qc 0) (Py.of_Z P))
      as (y & Hy & Hy0 & Hy1).
    + apply rnd_zero. reflexivity.
    + apply rnd_inject_Z. lia.
    + lra.
    + lra.
    + exists y. rewrite this_Q2Qc_0 in Hy0. rewrite this_of_Z in Hy1.
      rewrite Hy. auto.
  - unfold Py.negative in Hn. apply bool_decide_eq_false_1 in Hn.
    unfold Qclt in Hn. rewrite this_Q2Qc_0 in Hn.
    exists r0. split; [reflexivity|]. split; [lra|].
    destruct (Qlt_le_dec q 0) as [Hq|Hq].
    + destruct (Hneg (Qlt_le_weak _ _ Hq)) as (_ & H & _). lra.
    + destruct (Hpos Hq) as (_ & H & _). lra.
Qed.

Lemma quotient_bound (y B : Q) (P : Z) :
  (2 <= P)%Z -> - (2 * B) <= y -> y <= 2 * B ->
  - B <= y / inject_Z P /\ y / inject_Z P <= B.
Proof.
  intros HP H1 H2.
  assert (Hc : 2 <= inject_Z P) by (change 2 with (inject_Z 2); rewrite <- Zle_Qle; lia).
  revert Hc. generalize (inject_Z P). intros c Hc.
  split.
  - apply Qle_shift_div_l; [lra|]. nra.
  - apply Qle_shift_div_r; [lra|]. nra.
Qed.

(** [//] by a whole number from 2 on, at a finite number that lies
    between two floats: the result is finite. *)
Lemma floordiv_finite (q : Qc) (P : Z) (lo hi : Q) (a b : Qc) :
  (2 <= P <= 2 ^ 53)%Z ->
  Py.rnd lo = Py.Finite a -> Py.rnd hi = Py.Finite b ->
  lo <= 0 -> 0 <= hi -> lo <= q -> q <= hi ->
  exists z : Qc, Py.floordiv (Py.Finite q) (Py.float_of_Z P) = Py.Ok (Py.Finite z).
Proof.
  intros HP Hlo Hhi Hlo0 Hhi0 Hq1 Hq2.
  set (p := Py.pow2 1021).
  assert (Hp : 0 < p) by apply pow2_pos.
  assert (E22 : Py.pow2 1022 == 2 * p) by (vm_compute; reflexivity).
  assert (E23 : Py.pow2 1023 == 4 * p) by (vm_compute; reflexivity).
  assert (E24 : Py.pow2 1024 == 8 * p) by (vm_compute; reflexivity).
  assert (Hc : forall m : Z, (Z.abs m <= 7)%Z ->
            Py.rnd (inject_Z m * p) = Py.Finite (Q2Qc (inject_Z m * p))).
  { intros m Hm. apply rnd_exact; [lia|lia|]. fold p. rewrite E24.
    apply Qabs_Qlt_condition.
    assert (H1 : - (7) <= inject_Z m)
      by (change (- (7)) with (inject_Z (- 7)); rewrite <- Zle_Qle; lia).
    assert (H2 : inject_Z m <= 7)
      by (change 7 with (inject_Z 7); rewrite <- Zle_Qle; lia).
    revert H1 H2. generalize (inject_Z m). intros c H1 H2. split; nra. }
  assert (Hbetween : forall (m : Z) (x : Q),
            (0 < m <= 7)%Z -> - (inject_Z m * p) <= x -> x <= inject_Z m * p ->
            exists y : Qc, Py.rnd x = Py.Finite y
                           /\ - (inject_Z m * p) <= y /\ y <= inject_Z m * p).
  { intros m x Hm H1 H2.
    destruct (rnd_between (inject_Z (- m) * p) x (inject_Z m * p) _ _
                (Hc (- m)%Z ltac:(lia)) (Hc m ltac:(lia)))
      as (y & Hy & Hy1 & Hy2).
    - rewrite inject_Z_opp. lra.
    - exact H2.
    - exists y. rewrite this_Q2Qc in Hy1, Hy2. rewrite inject_Z_opp in Hy1.
      split; [exact Hy|]. split; lra. }
  unfold Py.floordiv, Py.float_of_Z.
  rewrite rnd_inject_Z by lia. cbn [Py.truth].
  rewrite nonzero_of_Z by lia. cbn [negb]. cbv zeta.
  rewrite (fmod_of_Z q P) by lia.
  destruct (fmod_bounds q P ltac:(lia)) as [Hpos Hneg].
  set (r0 := Q2Qc (q - inject_Z (P * Py.trunc (q / inject_Z P)))).
  assert (E : r0 == q - inject_Z (P * Py.trunc (q / inject_Z P)))
    by apply this_Q2Qc.
  cbv zeta in Hpos, Hneg. rewrite <- E in Hpos, Hneg.
  destruct (rnd_Finite_bound _ _ Hlo) as [Ha _].
  destruct (rnd_Finite_bound _ _ Hhi) as [_ Hb].
  (* v - mod *)
  destruct (rnd_between lo (q - r0) hi a b Hlo Hhi) as (y0 & Hy0 & Hy0a & Hy0b).
  { destruct (Qlt_le_dec q 0) as [Hq|Hq].
    - destruct (Hneg (Qlt_le_weak _ _ Hq)) as (_ & _ & H & _). lra.
    - destruct (Hpos Hq) as (_ & _ & H & _). lra. }
  { destruct (Qlt_le_dec q 0) as [Hq|Hq].
    - destruct (Hneg (Qlt_le_weak _ _ Hq)) as (_ & _ & _ & H). lra.
    - destruct (Hpos Hq) as (_ & _ & _ & H). lra. }
  cbn [Py.sub] in *. rewrite Hy0.
  (* the quotient *)
  cbn [Py.div]. rewrite nonzero_of_Z by lia.
  destruct (quotient_bound y0 (4 * p) P ltac:(lia) ltac:(lra) ltac:(lra))
    as [Hd1 Hd2].
  destruct (Hbetween 4%Z (y0 / Py.of_Z P) ltac:(lia)) as (y1 & Hy1 & Hy1a & Hy1b).
  { rewrite this_of_Z. exact Hd1. }
  { rewrite this_of_Z. exact Hd2. }
  rewrite Hy1. cbn [Py.sub].
  (* one less *)
  assert (Hdiv : exists y2 : Qc,
            (if Py.truth (Py.Finite r0)
                && xorb (Py.lt (Py.Finite (Py.of_Z P)) (Py.Finite (Q2Qc 0)))
                        (Py.lt (Py.Finite r0) (Py.Finite (Q2Qc 0)))
             then Py.rnd (y1 - Q2Qc 1) else Py.Finite y1) = Py.Finite y2
            /\ - (inject_Z 5 * p) <= y2 /\ y2 <= inject_Z 5 * p).
  { destruct (_ && _).
    - apply (Hbetween 5%Z); [lia| |]; rewrite this_Q2Qc.
      + change (inject_Z 5) with 5. change (inject_Z 4) with 4 in Hy1a.
        assert (1 <= p) by (vm_compute; discriminate). lra.
      + change (inject_Z 5) with 5. change (inject_Z 4) with 4 in Hy1b. lra.
    - exists y1. split; [reflexivity|].
      change (inject_Z 5) with 5. change (inject_Z 4) with 4 in Hy1a, Hy1b.
      split; lra. }
  destruct Hdiv as (y2 & Hy2 & Hy2a & Hy2b). rewrite Hy2.
  (* the nearest whole number *)
  destruct (Py.truth (Py.Finite y2)); [|eexists; reflexivity].
  cbn [Py.floor]. clear Hy2.
  destruct (Py.lt (Py.Finite (Q2Qc (1 # 2))) _); [|eexists; reflexivity].
  cbn [Py.add].
  assert (1 <= p) by (vm_compute; discriminate).
  pose proof (Qfloor_le y2) as Hf1. pose proof (Qlt_floor y2) as Hf2.
  rewrite inject_Z_plus in Hf2. change (inject_Z 1) with 1 in Hf2.
  change (inject_Z 5) with 5 in Hy2a, Hy2b.
  destruct (Hbetween 7%Z (Py.of_Z (Qfloor y2) + Q2Qc 1) ltac:(lia))
    as (z & Hz & _).
  { rewrite this_of_Z, this_Q2Qc. change (inject_Z 7) with 7.
    revert Hf1 Hf2. generalize (inject_Z (Qfloor y2)). intros c Hf1 Hf2. lra. }
  { rewrite this_of_Z, this_Q2Qc. change (inject_Z 7) with 7.
    revert Hf1 Hf2. generalize (inject_Z (Qfloor y2)). intros c Hf1 Hf2. lra. }
  rewrite Hz. eexists. reflexivity.
Qed.

End Finite.

Section Total.

Local Open Scope Q_scope.

(** At every finite float [format_timestamp] returns a text: the
    operations of [//] and [%] stay finite, so [int] has a value. *)
Lemma format_timestamp_total (q : Qc) :
  Py.is_binary64 q = true ->
  exists s : string, format_timestamp (Py.Finite q) = Py.Ok s.
Proof.
  intros Hq. apply is_binary64_rnd in Hq.
  assert (H0 : Py.rnd 0 = Py.Finite (Q2Qc 0)) by (apply rnd_zero; reflexivity).
  assert (Hdiv : forall P : Z, (2 <= P <= 2 ^ 53)%Z ->
            exists z : Qc,
              Py.floordiv (Py.Finite q) (Py.float_of_Z P) = Py.Ok (Py.Finite z)).
  { intros P HP. destruct (Qlt_le_dec q 0) as [Hneg|Hpos].
    - apply (floordiv_finite q P q 0 q (Q2Qc 0)); try assumption; lra.
    - apply (floordiv_finite q P 0 q (Q2Qc 0) q); try assumption; lra. }
  unfold format_timestamp.
  destruct (Hdiv 3600%Z ltac:(lia)) as (z & ->).
  unfold mbind at 1. unfold Py.result_bind at 1. cbn [Py.int].
  unfold mbind at 1. unfold Py.result_bind at 1.
  destruct (mod_finite q 3600 ltac:(lia)) as (r & -> & Hr0 & Hr1).
  unfold mbind at 1. unfold Py.result_bind at 1.
  assert (H3600 : Py.rnd (inject_Z 3600) = Py.Finite (Py.of_Z 3600))
    by (apply rnd_inject_Z; lia).
  assert (Hle : 0 <= inject_Z 3600) by discriminate.
  destruct (floordiv_finite r 60 0 (inject_Z 3600) (Q2Qc 0) (Py.of_Z 3600)
              ltac:(lia) H0 H3600 ltac:(lra) Hle Hr0 Hr1) as (z' & ->).
  unfold mbind at 1. unfold Py.result_bind at 1. cbn [Py.int].
  unfold mbind at 1. unfold Py.result_bind at 1.
  destruct (mod_finite q 60 ltac:(lia)) as (r' & -> & _).
  unfold mbind at 1. unfold Py.result_bind at 1. cbn [Py.int].
  unfold mbind at 1. unfold Py.result_bind at 1.
  eexists. reflexivity.
Qed.

(** [timestamp] is what [format_timestamp] returns. *)
Lemma format_timestamp_finite (t : Py.finite_float) :
  format_timestamp (Py.to_float t) = Py.Ok (timestamp t).
Proof.
  unfold timestamp.
  destruct (format_timestamp_total (Py.value t) (Py.value_ok t)) as (s & Hs).
  unfold Py.to_float. now rewrite Hs.
Qed.

End Total.

(** ** The timestamp of a number of seconds *)

(** C1, as the code has it.  For a finite number of seconds that is
    not negative and lies below [2 ** 53] (every binary64 number in
    that range, so every length of audio), [format_timestamp] returns
    [HH:MM:SS] where, with [t] the seconds truncated to a whole number,
    [HH] is [t / 3600] in decimal, zero-padded to at least two digits and
    not reduced modulo 24, and [MM] and [SS] are the two digits of
    [t mod 3600 / 60] and [t mod 60], both between 0 and 59.  The results
    at the floats 0, 3661 and 59.9 are 00:00:00, 01:01:01 and 00:00:59. *)
Theorem format_timestamp_spec (seconds : Qc) :
  (0 <= seconds)%Q -> (seconds < Py.pow2 53)%Q ->
  let t := Qfloor seconds in
  let h := t / 3600 in
  let m := t mod 3600 / 60 in
  let s := t mod 60 in
  (exists HH : string,
     format_timestamp (Py.Finite seconds)
       = Py.Ok (HH +:+ ":" +:+ two_digits m +:+ ":" +:+ two_digits s)
     /\ decimal_value HH = Some (Z.to_N h)
     /\ (2 <= String.length HH)%nat)
  /\ (0 <= h /\ 0 <= m < 60 /\ 0 <= s < 60 /\ t = 3600 * h + 60 * m + s)
  /\ format_timestamp (Py.float_of_Z 0) = Py.Ok "00:00:00"
  /\ format_timestamp (Py.float_of_Z 3661) = Py.Ok "01:01:01"
  /\ format_timestamp (Py.rnd 59.9) = Py.Ok "00:00:59".
Proof.
  intros Hnn Hlt t h m s.
  rewrite (pow2_inject 53) in Hlt by lia.
  pose proof (Qfloor_nonneg _ Hnn) as Ht. fold t in Ht.
  assert (Hh : 0 <= h) by (apply Z.div_pos; lia).
  assert (Hm : 0 <= m < 60).
  { subst m. pose proof (Z.mod_pos_bound t 3600 ltac:(lia)).
    split; [apply Z.div_pos; lia|apply Z.div_lt_upper_bound; lia]. }
  assert (Hs : 0 <= s < 60) by (apply Z.mod_pos_bound; lia).
  split; [|split; [|repeat split; vm_compute; reflexivity]].
  - exists (Py.format_02d h). split; [|split].
    + rewrite (format_timestamp_fields seconds Hnn Hlt). fold t h m s.
      rewrite (format_02d_two_digits m), (format_02d_two_digits s) by lia.
      reflexivity.
    + rewrite format_02d_nonneg by exact Hh. apply decimal_value_zfill.
    + rewrite format_02d_nonneg by exact Hh. apply length_zfill.
  - repeat split; try lia. subst h m s. Z.div_mod_to_equations. lia.
Qed.

(** The property at 3661.5 seconds. *)
Lemma format_timestamp_spec_witness :
  (0 <= Q2Qc 3661.5)%Q /\ (Q2Qc 3661.5 < Py.pow2 53)%Q
  /\ (exists HH : string,
        format_timestamp (Py.Finite (Q2Qc 3661.5))
          = Py.Ok (HH +:+ ":" +:+ two_digits 1 +:+ ":" +:+ two_digits 1)
        /\ decimal_value HH = Some 1%N /\ (2 <= String.length HH)%nat).
Proof.
  assert (Hnn : (0 <= Q2Qc 3661.5)%Q) by (vm_compute; discriminate).
  assert (Hlt : (Q2Qc 3661.5 < Py.pow2 53)%Q) by (vm_compute; reflexivity).
  split; [exact Hnn|]. split; [exact Hlt|].
  exact (proj1 (format_timestamp_spec (Q2Qc 3661.5) Hnn Hlt)).
Defined.

(** C1 as stated fails.  Positive infinity is a float that is not
    negative, and there [format_timestamp] returns no text: it raises
    [ValueError], since [inf // 3600] is NaN.  And at the finite float
    [1e22] the hours that are printed are not the whole hours in the
    whole seconds: the quotient of [//] has been rounded. *)
Lemma format_timestamp_counterexample :
  Py.le (Py.float_of_Z 0) (Py.Inf false) = true
  /\ format_timestamp (Py.Inf false) = Py.Raise "ValueError"
  /\ Py.is_binary64 (Q2Qc 1e22) = true
  /\ Py.le (Py.float_of_Z 0) (Py.Finite (Q2Qc 1e22)) = true
  /\ format_timestamp (Py.Finite (Q2Qc 1e22))
     = Py.Ok "2777777777777777664:46:40"
  /\ Qfloor (Q2Qc 1e22) / 3600 = 2777777777777777777.
Proof. vm_compute. repeat split. Qed.
(** ** Strings *)

Section Strings.

Lemma append_cons (x : ascii) (a b : string) :
  String x a +:+ b = String x (a +:+ b).
Proof. reflexivity. Qed.

Lemma append_assoc (a b c : string) : (a +:+ b) +:+ c = a +:+ b +:+ c.
Proof.
  induction a as [|x a IH]; [reflexivity|].
  rewrite !append_cons. now rewrite IH.
Qed.

Lemma append_nil_r (s : string) : s +:+ "" = s.
Proof.
  induction s as [|x s IH]; [reflexivity|].
  rewrite append_cons. now rewrite IH.
Qed.

Lemma append_nil_inv (a b : string) : a +:+ b = "" -> a = "" /\ b = "".
Proof. destruct a; simpl; [auto|discriminate]. Qed.

End Strings.

(** ** The loop over the segments *)

Section Loop.

Implicit Types (segments : list faster_whisper.Segment) (progress : tqdm.t).

(** The body of the loop never raises: it adds the line of the segment
    and moves the bar. *)
Lemma loop_body_eq (output_lines : list string) progress
    (segment : faster_whisper.Segment) :
  loop_body (output_lines, progress) segment =
    Py.Ok (output_lines ++ [segment_line segment], advance progress segment).
Proof.
  unfold loop_body, segment_line, advance.
  rewrite !format_timestamp_finite.
  unfold mbind, Py.result_bind, mret, Py.result_ret. cbv zeta.
  rewrite !append_assoc. reflexivity.
Qed.

(** The loop adds one line per segment, in order, and moves the bar
    once per segment. *)
Lemma consume_eq segments (output_lines : list string) progress :
  consume segments (output_lines, progress) =
    (output_lines ++ (segment_line <$> segments),
     List.fold_left advance segments progress, None).
Proof.
  revert output_lines progress.
  induction segments as [|segment rest IH]; intros output_lines progress.
  - simpl. now rewrite app_nil_r.
  - cbn [consume]. rewrite loop_body_eq, IH.
    cbn [List.fold_left fmap list_fmap]. now rewrite <- app_assoc.
Qed.

Lemma bar_after_eq (total : Py.float) segments :
  bar_after total segments = List.fold_left advance segments (tqdm.new total).
Proof. unfold bar_after. now rewrite consume_eq. Qed.

Lemma advance_total_closed segments progress :
  tqdm.total (List.fold_left advance segments progress) = tqdm.total progress
  /\ tqdm.closed (List.fold_left advance segments progress) = tqdm.closed progress.
Proof.
  revert progress. induction segments as [|segment rest IH]; intros progress;
    [split; reflexivity|].
  cbn [List.fold_left]. destruct (IH (advance progress segment)) as [-> ->].
  split; reflexivity.
Qed.

Lemma position_after_0 (total : Py.float) segments :
  position_after total segments 0 = Py.Finite (Py.of_Z 0).
Proof. reflexivity. Qed.

(** One step of the loop, on the position of the bar. *)
Lemma position_after_S (total : Py.float) segments (k : nat)
    (segment : faster_whisper.Segment) :
  segments !! k = Some segment ->
  position_after total segments (S k)
    = Py.add (position_after total segments k)
        (Py.sub (Py.to_float (faster_whisper.end_ segment))
                (position_after total segments k)).
Proof.
  intros Hk. unfold position_after. rewrite !bar_after_eq.
  rewrite (take_S_r _ _ _ Hk), fold_left_app. reflexivity.
Qed.

Lemma position_after_all (total : Py.float) segments :
  position_after total segments (length segments)
    = tqdm.n (bar_after total segments).
Proof. unfold position_after. now rewrite firstn_all. Qed.

End Loop.

(** ** Runs of [transcribe] *)

Section Runs.

Variable engine : faster_whisper.Engine.

Implicit Types (w : World) (audio_path model_size language : string).

(** A file opened for writing holds exactly what is written to it
    afterwards. *)
Lemma alter_append_insert (files : gmap string string) (f old data : string) :
  alter (fun content => content +:+ data) f (<[f := old]> files)
  = <[f := old +:+ data]> files.
Proof. rewrite alter_insert_eq. reflexivity. Qed.

(** The run of [transcribe] on an existing file that the engine
    transcribes to the end. *)
Lemma transcribe_run w audio_path model_size language
    (info : faster_whisper.TranscriptionInfo)
    (segments : list faster_whisper.Segment)
    (output_path : pathlib.PurePath) :
  let path := pathlib.Path audio_path in
  is_Some (fs w !! pathlib.str path) ->
  faster_whisper.load_error engine model_size = None ->
  faster_whisper.run engine model_size (pathlib.str path) language
    = faster_whisper.Segments info segments None ->
  pathlib.with_suffix path ".txt" = Some output_path ->
  transcribe engine audio_path model_size language w
    = (Returned tt, world_after w model_size path output_path info segments).
Proof.
  intros path Hex Hload Hrun Hout.
  unfold transcribe. fold path.
  unfold mbind, io_bind, exists_.
  rewrite (bool_decide_eq_true_2 _ Hex). cbn [negb].
  unfold WhisperModel, model_transcribe. rewrite Hload, Hrun.
  cbn [print mret io_ret fs stdout models bars].
  rewrite format_timestamp_finite. cbn [eval].
  rewrite consume_eq, Hout.
  cbn [print open_w write show eval fs stdout models bars app
       tqdm.close tqdm.n tqdm.total tqdm.closed tqdm.new].
  unfold print, world_after. cbn [fs stdout models bars].
  rewrite !alter_append_insert, bar_after_eq. f_equal. f_equal.
  - f_equal. unfold transcript, header, body.
    rewrite !append_assoc. reflexivity.
  - rewrite <- !app_assoc. reflexivity.
Qed.

End Runs.

(** ** Paths *)

Section Paths.

Implicit Types (p : pathlib.PurePath) (s : string).

Lemma take_drop s (i : nat) : Py.take i s +:+ Py.drop i s = s.
Proof.
  revert s. induction i as [|i IH]; intros s; [now destruct s|].
  destruct s as [|c s]; [reflexivity|].
  cbn [Py.take Py.drop]. rewrite append_cons. now rewrite IH.
Qed.

Lemma length_drop s (i : nat) :
  String.length (Py.drop i s) = (String.length s - i)%nat.
Proof.
  revert s. induction i as [|i IH]; intros s; [simpl; lia|].
  destruct s as [|c s]; [reflexivity|]. simpl. apply IH.
Qed.

(** The name is its stem followed by its suffix. *)
Lemma name_stem_suffix p :
  pathlib.name p =
    Py.take (String.length (pathlib.name p) - String.length (pathlib.suffix p))
            (pathlib.name p)
    +:+ pathlib.suffix p.
Proof.
  unfold pathlib.suffix. set (name := pathlib.name p).
  set (i := Py.rfind "." name).
  destruct ((0 <? i) && (i <? Z.of_nat (String.length name) - 1)) eqn:E.
  - apply andb_true_iff in E as [Hi1 Hi2].
    apply Z.ltb_lt in Hi1, Hi2.
    rewrite length_drop.
    replace (String.length name - (String.length name - Z.to_nat i))%nat
      with (Z.to_nat i) by lia.
    symmetry. apply take_drop.
  - cbn [String.length]. rewrite Nat.sub_0_r.
    rewrite <- (take_drop name (String.length name)) at 1.
    f_equal. rewrite <- (append_nil_r (Py.drop _ _)).
    assert (H : String.length (Py.drop (String.length name) name) = 0%nat)
      by (rewrite length_drop; lia).
    destruct (Py.drop (String.length name) name); [reflexivity|discriminate H].
Qed.

Lemma join_snoc (init : list string) (nm : string) :
  Py.join "/" (init ++ [nm]) = dirs init +:+ nm.
Proof.
  unfold Py.join. induction init as [|x init IH]; [reflexivity|].
  cbn [dirs]. rewrite !append_assoc, <- IH.
  destruct init; reflexivity.
Qed.

Lemma str_snoc (r : string) (init : list string) (nm : string) :
  nm <> "" ->
  pathlib.str {| pathlib.root := r; pathlib.tail := init ++ [nm] |}
    = (r +:+ dirs init) +:+ nm.
Proof.
  intros Hnm. unfold pathlib.str. cbn [pathlib.root pathlib.tail].
  rewrite join_snoc, <- append_assoc.
  destruct ((r +:+ dirs init) +:+ nm) eqn:E; [|reflexivity].
  apply append_nil_inv in E as [_ E]. contradiction.
Qed.

Lemma tail_snoc p :
  pathlib.name p <> "" ->
  pathlib.tail p = List.removelast (pathlib.tail p) ++ [pathlib.name p].
Proof.
  intros Hname. unfold pathlib.name in *.
  destruct (pathlib.tail p) as [|x l] eqn:E; [contradiction|].
  apply app_removelast_last. discriminate.
Qed.

(** A path with a name is its directory part followed by the name. *)
Lemma str_name p :
  pathlib.name p <> "" ->
  pathlib.str p =
    (pathlib.root p +:+ dirs (List.removelast (pathlib.tail p)))
      +:+ pathlib.name p.
Proof.
  intros Hname. rewrite <- (str_snoc _ _ _ Hname), <- (tail_snoc p Hname).
  now destruct p.
Qed.

Lemma suffix_name p : pathlib.suffix p <> "" -> pathlib.name p <> "".
Proof.
  unfold pathlib.suffix. intros H Hn. rewrite Hn in H. apply H. reflexivity.
Qed.

(** [with_suffix(".txt")] on a path that has a name. *)
Lemma with_suffix_txt p :
  pathlib.name p <> "" ->
  pathlib.with_suffix p ".txt" =
    Some {| pathlib.root := pathlib.root p;
            pathlib.tail :=
              List.removelast (pathlib.tail p) ++
              [ Py.take (String.length (pathlib.name p)
                         - String.length (pathlib.suffix p)) (pathlib.name p)
                +:+ ".txt" ] |}.
Proof.
  intros Hname. unfold pathlib.with_suffix.
  cbn [Py.contains Ascii.eqb Bool.eqb orb String.eqb String.prefix negb andb].
  destruct (String.eqb_spec (pathlib.name p) "") as [E|_]; [contradiction|].
  destruct (String.eqb_spec (pathlib.suffix p) "") as [E|_]; [|reflexivity].
  rewrite E. cbn [String.length]. rewrite Nat.sub_0_r.
  do 4 f_equal.
  rewrite <- (take_drop (pathlib.name p) (String.length (pathlib.name p))) at 1.
  rewrite <- (append_nil_r (Py.take _ _)) at 2. f_equal.
  assert (H : String.length (Py.drop (String.length (pathlib.name p)) (pathlib.name p)) = 0%nat)
    by (rewrite length_drop; lia).
  destruct (Py.drop _ _); [reflexivity|discriminate H].
Qed.

End Paths.

(** ** The output path *)

Section OutputPath.

Variable engine : faster_whisper.Engine.

Implicit Types (w : World) (audio_path model_size language : string).

(** C6.  When the input path has an extension, the output path is the
    input path with that extension replaced by [.txt]: the two paths
    share everything in front of the extension, the output path is not
    the input path with [.txt] added at its end, and a successful run
    writes its transcript at the output path. *)
Theorem output_path_replaces_suffix w audio_path model_size language
    (info : faster_whisper.TranscriptionInfo)
    (segments : list faster_whisper.Segment) :
  let path := pathlib.Path audio_path in
  pathlib.suffix path <> "" ->
  is_Some (fs w !! pathlib.str path) ->
  faster_whisper.load_error engine model_size = None ->
  faster_whisper.run engine model_size (pathlib.str path) language
    = faster_whisper.Segments info segments None ->
  exists (base : string) (output_path : pathlib.PurePath),
    pathlib.str path = base +:+ pathlib.suffix path
    /\ pathlib.with_suffix path ".txt" = Some output_path
    /\ pathlib.str output_path = base +:+ ".txt"
    /\ pathlib.str output_path <> pathlib.str path +:+ ".txt"
    /\ transcribe engine audio_path model_size language w
       = (Returned tt, world_after w model_size path output_path info segments).
Proof.
  intros path Hsuf Hex Hload Hrun.
  pose proof (suffix_name path Hsuf) as Hname.
  pose proof (with_suffix_txt path Hname) as Hout.
  set (stem := Py.take (String.length (pathlib.name path)
                        - String.length (pathlib.suffix path))
                       (pathlib.name path)) in *.
  set (dir := pathlib.root path +:+ dirs (List.removelast (pathlib.tail path))).
  assert (Hstr : pathlib.str path = (dir +:+ stem) +:+ pathlib.suffix path).
  { rewrite (str_name path Hname). fold dir.
    rewrite (name_stem_suffix path) at 1. fold stem.
    now rewrite append_assoc. }
  assert (Hstr' : forall out, pathlib.with_suffix path ".txt" = Some out ->
                    pathlib.str out = (dir +:+ stem) +:+ ".txt").
  { intros out Ho. rewrite Hout in Ho. injection Ho as <-.
    rewrite str_snoc.
    - fold dir. now rewrite append_assoc.
    - intros E. apply append_nil_inv in E as [_ E]. discriminate E. }
  eexists (dir +:+ stem), _.
  split; [exact Hstr|]. split; [exact Hout|].
  split; [apply Hstr', Hout|]. split.
  - rewrite (Hstr' _ Hout), Hstr. intros E.
    apply (f_equal String.length) in E. rewrite !length_append in E.
    destruct (pathlib.suffix path); [contradiction|]. simpl in E. lia.
  - apply transcribe_run; assumption.
Qed.

(** C9.  When the input path has a name and no extension, the output
    path is the input path with [.txt] added at its end, and a
    successful run writes its transcript there. *)
Theorem output_path_appends_without_suffix w audio_path model_size language
    (info : faster_whisper.TranscriptionInfo)
    (segments : list faster_whisper.Segment) :
  let path := pathlib.Path audio_path in
  pathlib.name path <> "" ->
  pathlib.suffix path = "" ->
  is_Some (fs w !! pathlib.str path) ->
  faster_whisper.load_error engine model_size = None ->
  faster_whisper.run engine model_size (pathlib.str path) language
    = faster_whisper.Segments info segments None ->
  exists output_path : pathlib.PurePath,
    pathlib.with_suffix path ".txt" = Some output_path
    /\ pathlib.str output_path = pathlib.str path +:+ ".txt"
    /\ transcribe engine audio_path model_size language w
       = (Returned tt, world_after w model_size path output_path info segments).
Proof.
  intros path Hname Hsuf Hex Hload Hrun.
  pose proof (with_suffix_txt path Hname) as Hout.
  pose proof (name_stem_suffix path) as Hstem.
  rewrite Hsuf, append_nil_r in Hstem. rewrite Hsuf, <- Hstem in Hout.
  eexists. split; [exact Hout|]. split.
  - rewrite str_snoc.
    + rewrite (str_name path Hname), !append_assoc. reflexivity.
    + intros E. apply append_nil_inv in E as [_ E]. discriminate E.
  - apply transcribe_run; assumption.
Qed.

End OutputPath.

(** The replacement at [/d/audio.m4a], with the engine stub. *)
Lemma output_path_replaces_suffix_witness :
  exists (base : string) (output_path : pathlib.PurePath),
    pathlib.str (pathlib.Path "/d/audio.m4a")
      = base +:+ pathlib.suffix (pathlib.Path "/d/audio.m4a")
    /\ pathlib.with_suffix (pathlib.Path "/d/audio.m4a") ".txt" = Some output_path
    /\ pathlib.str output_path = base +:+ ".txt"
    /\ pathlib.str output_path <> pathlib.str (pathlib.Path "/d/audio.m4a") +:+ ".txt"
    /\ transcribe (stub_engine stub_info stub_segments) "/d/audio.m4a" "large-v3" "nl"
         (world_of {[ "/d/audio.m4a" := "RIFF" ]})
       = (Returned tt,
          world_after (world_of {[ "/d/audio.m4a" := "RIFF" ]}) "large-v3"
            (pathlib.Path "/d/audio.m4a") output_path stub_info stub_segments).
Proof.
  apply (output_path_replaces_suffix (stub_engine stub_info stub_segments)
           (world_of {[ "/d/audio.m4a" := "RIFF" ]}) "/d/audio.m4a" "large-v3" "nl"
           stub_info stub_segments).
  - vm_compute. discriminate.
  - vm_compute. eexists. reflexivity.
  - reflexivity.
  - reflexivity.
Defined.

(** The addition at [/d/interview], with the engine stub. *)
Lemma output_path_appends_without_suffix_witness :
  exists output_path : pathlib.PurePath,
    pathlib.with_suffix (pathlib.Path "/d/interview") ".txt" = Some output_path
    /\ pathlib.str output_path = pathlib.str (pathlib.Path "/d/interview") +:+ ".txt"
    /\ transcribe (stub_engine stub_info stub_segments) "/d/interview" "large-v3" "nl"
         (world_of {[ "/d/interview" := "RIFF" ]})
       = (Returned tt,
          world_after (world_of {[ "/d/interview" := "RIFF" ]}) "large-v3"
            (pathlib.Path "/d/interview") output_path stub_info stub_segments).
Proof.
  apply (output_path_appends_without_suffix (stub_engine stub_info stub_segments)
           (world_of {[ "/d/interview" := "RIFF" ]}) "/d/interview" "large-v3" "nl"
           stub_info stub_segments).
  - vm_compute. discriminate.
  - vm_compute. reflexivity.
  - vm_compute. eexists. reflexivity.
  - reflexivity.
  - reflexivity.
Defined.

(** ** [strip] *)

Section Strip.

Implicit Types (s : string) (c : ascii).

Lemma lstrip_spec s :
  exists l : string,
    s = l +:+ Py.lstrip s /\ all_space l = true
    /\ forall c, first_char (Py.lstrip s) = Some c -> Py.isspace c = false.
Proof.
  induction s as [|a s (l & Heq & Hl & Hfirst)].
  - exists "". repeat split. intros c H. discriminate H.
  - cbn [Py.lstrip]. destruct (Py.isspace a) eqn:Ha.
    + exists (String a l). rewrite append_cons, <- Heq. repeat split.
      * cbn [all_space]. now rewrite Ha, Hl.
      * exact Hfirst.
    + exists "". repeat split. intros c H. injection H as <-. exact Ha.
Qed.

Lemma rstrip_spec s :
  exists r : string,
    s = Py.rstrip s +:+ r /\ all_space r = true
    /\ forall c, last_char (Py.rstrip s) = Some c -> Py.isspace c = false.
Proof.
  induction s as [|a s (r & Heq & Hr & Hlast)].
  - exists "". repeat split. intros c H. discriminate H.
  - cbn [Py.rstrip]. destruct (Py.rstrip s) as [|b t] eqn:E.
    + destruct (Py.isspace a) eqn:Ha.
      * exists (String a s). split; [reflexivity|]. split.
        -- cbn [all_space]. rewrite Ha. cbn [andb]. now rewrite Heq.
        -- intros c H. discriminate H.
      * exists s. split; [reflexivity|]. split.
        -- rewrite Heq. exact Hr.
        -- intros c H. injection H as <-. exact Ha.
    + exists r. rewrite append_cons, <- Heq. repeat split; [exact Hr|].
      intros c H. apply Hlast. exact H.
Qed.

Lemma rstrip_first_inv s c :
  first_char (Py.rstrip s) = Some c -> first_char s = Some c.
Proof.
  destruct s as [|a s]; [discriminate|]. cbn [Py.rstrip].
  destruct (Py.rstrip s); [destruct (Py.isspace a)|]; intros H;
    (discriminate H || exact H).
Qed.

(** [strip] takes whitespace, and nothing else, from both ends, and
    leaves none at either end. *)
Lemma strip_spec s :
  exists l r : string,
    s = l +:+ Py.strip s +:+ r
    /\ all_space l = true /\ all_space r = true
    /\ (forall c, first_char (Py.strip s) = Some c -> Py.isspace c = false)
    /\ (forall c, last_char (Py.strip s) = Some c -> Py.isspace c = false).
Proof.
  destruct (lstrip_spec s) as (l & Hl & Hls & Hfirst).
  destruct (rstrip_spec (Py.lstrip s)) as (r & Hr & Hrs & Hlast).
  exists l, r. unfold Py.strip. repeat split; try assumption.
  - now rewrite <- Hr.
  - intros c H. apply Hfirst, rstrip_first_inv, H.
Qed.

End Strip.

(** ** The transcript file *)

Section Transcript.

Variable engine : faster_whisper.Engine.

Implicit Types (w : World) (audio_path model_size language : string).
Implicit Types (info : faster_whisper.TranscriptionInfo).
Implicit Types (segments : list faster_whisper.Segment).


(** C10.  When the engine yields no segment for an existing input file,
    [transcribe] returns, the output file holds the header block and
    nothing after it, and the progress bar is closed at position 0. *)
Theorem transcribe_no_segments w audio_path model_size language info :
  let path := pathlib.Path audio_path in
  is_Some (fs w !! pathlib.str path) ->
  pathlib.name path <> "" ->
  faster_whisper.load_error engine model_size = None ->
  faster_whisper.run engine model_size (pathlib.str path) language
    = faster_whisper.Segments info [] None ->
  exists (output_path : pathlib.PurePath) (w' : World),
    transcribe engine audio_path model_size language w = (Returned tt, w')
    /\ pathlib.with_suffix path ".txt" = Some output_path
    /\ fs w' =
         <[pathlib.str output_path :=
             "Transcriptie: " +:+ pathlib.name path +:+ Py.nl
             +:+ "Taal: " +:+ faster_whisper.language info +:+ Py.nl
             +:+ "Duur: " +:+ timestamp (faster_whisper.duration info)
             +:+ Py.nl
             +:+ "============================================================"
             +:+ Py.nl +:+ Py.nl]> (fs w)
    /\ bars w' =
         bars w ++ [ {| tqdm.n := Py.Finite (Py.of_Z 0);
                        tqdm.total := Py.to_float (faster_whisper.duration info);
                        tqdm.closed := true |} ]
    /\ format_timestamp (Py.to_float (faster_whisper.duration info))
       = Py.Ok (timestamp (faster_whisper.duration info)).
Proof.
  intros path Hex Hname Hload Hrun.
  pose proof (with_suffix_txt path Hname) as Hout.
  eexists _, _. split; [apply (transcribe_run engine); eassumption|].
  split; [exact Hout|].
  split; [|split; [reflexivity|apply format_timestamp_finite]].
  unfold world_after, transcript, header, body. cbn [fs].
  rewrite !append_assoc. reflexivity.
Qed.

(** C7.  Two runs on the same input, with the same answers of the engine,
    leave the output file with the content of one run: whatever the file
    held before a run, after it the file holds the transcript and nothing
    else, and the second run changes no file. *)
Theorem transcribe_twice_overwrites w audio_path model_size language
    info segments :
  let path := pathlib.Path audio_path in
  is_Some (fs w !! pathlib.str path) ->
  pathlib.name path <> "" ->
  faster_whisper.load_error engine model_size = None ->
  faster_whisper.run engine model_size (pathlib.str path) language
    = faster_whisper.Segments info segments None ->
  exists (output_path : pathlib.PurePath) (w1 w2 : World),
    pathlib.with_suffix path ".txt" = Some output_path
    /\ transcribe engine audio_path model_size language w = (Returned tt, w1)
    /\ transcribe engine audio_path model_size language w1 = (Returned tt, w2)
    /\ fs w1 !! pathlib.str output_path
         = Some (transcript (pathlib.name path) info segments)
    /\ fs w2 !! pathlib.str output_path
         = Some (transcript (pathlib.name path) info segments)
    /\ fs w2 = fs w1.
Proof.
  intros path Hex Hname Hload Hrun.
  pose proof (with_suffix_txt path Hname) as Hout.
  set (out := {| pathlib.root := _; pathlib.tail := _ |}) in Hout.
  set (w1 := world_after w model_size path out info segments).
  assert (Hex1 : is_Some (fs w1 !! pathlib.str path)).
  { unfold w1, world_after. cbn [fs]. apply lookup_insert_is_Some'. now right. }
  exists out, w1, (world_after w1 model_size path out info segments).
  split; [exact Hout|].
  split; [apply (transcribe_run engine); assumption|].
  split; [apply (transcribe_run engine); assumption|].
  unfold w1, world_after. cbn [fs].
  rewrite insert_insert_eq, lookup_insert_eq. repeat split.
Qed.

End Transcript.


(** The run on [/d/silence.wav] with an engine that yields no segment. *)
Lemma transcribe_no_segments_witness :
  exists (output_path : pathlib.PurePath) (w' : World),
    transcribe (stub_engine stub_info []) "/d/silence.wav" "large-v3" "nl"
      (world_of {[ "/d/silence.wav" := "RIFF" ]}) = (Returned tt, w')
    /\ pathlib.with_suffix (pathlib.Path "/d/silence.wav") ".txt" = Some output_path
    /\ fs w' =
         <[pathlib.str output_path :=
             "Transcriptie: " +:+ pathlib.name (pathlib.Path "/d/silence.wav") +:+ Py.nl
             +:+ "Taal: " +:+ faster_whisper.language stub_info +:+ Py.nl
             +:+ "Duur: " +:+ timestamp (faster_whisper.duration stub_info)
             +:+ Py.nl
             +:+ "============================================================"
             +:+ Py.nl +:+ Py.nl]>
           (fs (world_of {[ "/d/silence.wav" := "RIFF" ]}))
    /\ bars w' =
         bars (world_of {[ "/d/silence.wav" := "RIFF" ]})
           ++ [ {| tqdm.n := Py.Finite (Py.of_Z 0);
                   tqdm.total := Py.to_float (faster_whisper.duration stub_info);
                   tqdm.closed := true |} ]
    /\ format_timestamp (Py.to_float (faster_whisper.duration stub_info))
       = Py.Ok (timestamp (faster_whisper.duration stub_info)).
Proof.
  apply (transcribe_no_segments (stub_engine stub_info [])
           (world_of {[ "/d/silence.wav" := "RIFF" ]}) "/d/silence.wav" "large-v3" "nl"
           stub_info).
  - vm_compute. eexists. reflexivity.
  - vm_compute. discriminate.
  - reflexivity.
  - reflexivity.
Defined.

(** Two runs of the stub on [/d/audio.m4a], the output file holding an
    older transcript before the first. *)
Lemma transcribe_twice_overwrites_witness :
  exists (output_path : pathlib.PurePath) (w1 w2 : World),
    pathlib.with_suffix (pathlib.Path "/d/audio.m4a") ".txt" = Some output_path
    /\ transcribe (stub_engine stub_info stub_segments) "/d/audio.m4a" "large-v3" "nl"
         (world_of (<[ "/d/audio.txt" := "old" ]> {[ "/d/audio.m4a" := "RIFF" ]}))
       = (Returned tt, w1)
    /\ transcribe (stub_engine stub_info stub_segments) "/d/audio.m4a" "large-v3" "nl" w1
       = (Returned tt, w2)
    /\ fs w1 !! pathlib.str output_path
         = Some (transcript (pathlib.name (pathlib.Path "/d/audio.m4a"))
                   stub_info stub_segments)
    /\ fs w2 !! pathlib.str output_path
         = Some (transcript (pathlib.name (pathlib.Path "/d/audio.m4a"))
                   stub_info stub_segments)
    /\ fs w2 = fs w1.
Proof.
  apply (transcribe_twice_overwrites (stub_engine stub_info stub_segments)
           (world_of (<[ "/d/audio.txt" := "old" ]> {[ "/d/audio.m4a" := "RIFF" ]}))
           "/d/audio.m4a" "large-v3" "nl" stub_info stub_segments).
  - vm_compute. eexists. reflexivity.
  - vm_compute. discriminate.
  - reflexivity.
  - reflexivity.
Defined.

(** ** The progress indicator *)

Section Steps.

Local Open Scope Q_scope.

Lemma this_Qcminus (a b : Qc) : this (a - b)%Qc == a - b.
Proof.
  unfold Qcminus, Qcplus, Qcopp. rewrite this_Q2Qc.
  cbn [this]. rewrite this_Q2Qc. reflexivity.
Qed.

(** An update by [end - n] that needs no rounding puts the bar at
    [end]. *)
Lemma step_exact (n e : Qc) :
  Py.is_binary64 e = true -> Py.is_binary64 (e - n)%Qc = true ->
  Py.add (Py.Finite n) (Py.sub (Py.Finite e) (Py.Finite n)) = Py.Finite e.
Proof.
  intros He Hd. cbn [Py.sub].
  rewrite (rnd_comp (e - n) (e - n)%Qc) by (symmetry; apply this_Qcminus).
  rewrite (is_binary64_rnd _ Hd). cbn [Py.add].
  rewrite (rnd_comp _ e) by (rewrite this_Qcminus; ring).
  apply is_binary64_rnd, He.
Qed.

(** The first update, from position 0, needs no rounding. *)
Lemma step_first (e : Qc) :
  Py.is_binary64 e = true ->
  Py.add (Py.Finite (Py.of_Z 0))
    (Py.sub (Py.Finite e) (Py.Finite (Py.of_Z 0))) = Py.Finite e.
Proof.
  intros He. cbn [Py.sub].
  rewrite (rnd_comp _ e) by (rewrite this_of_Z; change (inject_Z 0) with 0; ring).
  rewrite (is_binary64_rnd _ He). cbn [Py.add].
  rewrite (rnd_comp _ e) by (rewrite this_of_Z; change (inject_Z 0) with 0; ring).
  apply is_binary64_rnd, He.
Qed.

(** An update towards an end that is not below the position does not
    move the bar down. *)
Lemma step_up (n e : Qc) :
  Py.is_binary64 n = true -> n <= e ->
  Py.le (Py.Finite n)
    (Py.add (Py.Finite n) (Py.sub (Py.Finite e) (Py.Finite n))) = true.
Proof.
  intros Hn Hle. cbn [Py.sub].
  pose proof (rnd_mono 0 (e - n) ltac:(lra)) as H0.
  rewrite (rnd_zero 0) in H0 by reflexivity.
  destruct (Py.rnd (e - n)) as [d|[|]|] eqn:E; try discriminate H0.
  - cbn [Py.le] in H0. apply bool_decide_eq_true_1 in H0.
    unfold Qcle in H0. rewrite this_Q2Qc_0 in H0.
    cbn [Py.add]. pose proof (rnd_mono n (n + d) ltac:(lra)) as H1.
    now rewrite (is_binary64_rnd _ Hn) in H1.
  - reflexivity.
Qed.

(** A sum that is finite is a binary64 number. *)
Lemma add_binary64 (x y : Py.float) (n : Qc) :
  Py.add x y = Py.Finite n -> Py.is_binary64 n = true.
Proof.
  destruct x as [a|a|], y as [b|b|]; cbn [Py.add]; try discriminate.
  - apply rnd_is_binary64.
  - destruct (Bool.eqb a b); discriminate.
Qed.

End Steps.

Section Progress.

Variable engine : faster_whisper.Engine.

Implicit Types (w : World) (audio_path model_size language : string).
Implicit Types (info : faster_whisper.TranscriptionInfo).
Implicit Types (segments : list faster_whisper.Segment).

(** The position of the bar, when it is finite, is a binary64 number. *)
Lemma position_binary64 (total : Py.float) segments (k : nat) (n : Qc) :
  position_after total segments k = Py.Finite n -> Py.is_binary64 n = true.
Proof.
  revert n. induction k as [|k IH]; intros n H.
  - rewrite position_after_0 in H. injection H as <-. reflexivity.
  - destruct (segments !! k) as [segment|] eqn:Hk.
    + rewrite (position_after_S total segments k segment Hk) in H.
      eapply add_binary64, H.
    + apply IH. rewrite <- H. unfold position_after.
      apply lookup_ge_None_1 in Hk.
      rewrite !take_ge by lia. reflexivity.
Qed.

(** The bar a run leaves behind when the engine transcribes to the end,
    whether or not the output path can be formed afterwards. *)
Lemma transcribe_bar w audio_path model_size language info segments :
  let path := pathlib.Path audio_path in
  is_Some (fs w !! pathlib.str path) ->
  faster_whisper.load_error engine model_size = None ->
  faster_whisper.run engine model_size (pathlib.str path) language
    = faster_whisper.Segments info segments None ->
  exists (o : Outcome unit) (w' : World),
    transcribe engine audio_path model_size language w = (o, w')
    /\ bars w' =
         bars w ++
         [ tqdm.close
             (bar_after (Py.to_float (faster_whisper.duration info)) segments) ].
Proof.
  intros path Hex Hload Hrun.
  destruct (pathlib.with_suffix path ".txt") as [output_path|] eqn:Hout.
  - eexists _, _. split; [apply (transcribe_run engine); eassumption|].
    reflexivity.
  - unfold transcribe. fold path.
    unfold mbind, io_bind, exists_.
    rewrite (bool_decide_eq_true_2 _ Hex). cbn [negb].
    unfold WhisperModel, model_transcribe. rewrite Hload, Hrun.
    cbn [print mret io_ret fs stdout models bars].
    rewrite format_timestamp_finite. cbn [eval].
    rewrite consume_eq, Hout.
    cbn [print show raise fs stdout models bars].
    eexists _, _. split; [reflexivity|]. cbn [bars].
    now rewrite bar_after_eq.
Qed.

(** C3, as the code has it.  When all segments are consumed, the bar is
    closed where the last update left it: at 0 when there is no
    segment, and else at the binary64 value of [n + (end - n)] for the
    last segment.  That is the end time of the last segment whenever
    [end - n] is a binary64 number, as it always is for a single
    segment; the final position is then the total duration exactly
    when the last segment ends at the total duration. *)
Theorem final_position_is_last_update w audio_path model_size language
    info segments :
  let path := pathlib.Path audio_path in
  let total := Py.to_float (faster_whisper.duration info) in
  is_Some (fs w !! pathlib.str path) ->
  faster_whisper.load_error engine model_size = None ->
  faster_whisper.run engine model_size (pathlib.str path) language
    = faster_whisper.Segments info segments None ->
  exists (o : Outcome unit) (w' : World) (bar : tqdm.t),
    transcribe engine audio_path model_size language w = (o, w')
    /\ bars w' = bars w ++ [bar]
    /\ tqdm.closed bar = true
    /\ tqdm.total bar = total
    /\ tqdm.n bar = position_after total segments (length segments)
    /\ (segments = [] -> tqdm.n bar = Py.Finite (Py.of_Z 0))
    /\ (forall init last,
          segments = init ++ [last] ->
          tqdm.n bar =
            Py.add (position_after total segments (length init))
              (Py.sub (Py.to_float (faster_whisper.end_ last))
                      (position_after total segments (length init))))
    /\ (forall only,
          segments = [only] ->
          tqdm.n bar = Py.to_float (faster_whisper.end_ only))
    /\ (forall init last (p : Qc),
          segments = init ++ [last] ->
          position_after total segments (length init) = Py.Finite p ->
          Py.is_binary64 (end_time last - p)%Qc = true ->
          tqdm.n bar = Py.to_float (faster_whisper.end_ last)
          /\ (tqdm.n bar = tqdm.total bar
              <-> end_time last = Py.value (faster_whisper.duration info))).
Proof.
  intros path total Hex Hload Hrun.
  destruct (transcribe_bar w audio_path model_size language info segments
              Hex Hload Hrun) as (o & w' & Hrun' & Hbars).
  fold total in Hbars.
  assert (Hlast : forall init last,
            segments = init ++ [last] ->
            tqdm.n (bar_after total segments) =
              Py.add (position_after total segments (length init))
                (Py.sub (Py.to_float (faster_whisper.end_ last))
                        (position_after total segments (length init)))).
  { intros init last ->. rewrite <- position_after_all.
    rewrite length_app. cbn [length]. rewrite Nat.add_1_r.
    apply position_after_S. rewrite lookup_app_r by lia.
    now rewrite Nat.sub_diag. }
  assert (Htotal : tqdm.total (bar_after total segments) = total).
  { rewrite bar_after_eq.
    now destruct (advance_total_closed segments (tqdm.new total)) as [-> _]. }
  exists o, w', (tqdm.close (bar_after total segments)).
  split; [exact Hrun'|]. split; [exact Hbars|].
  cbn [tqdm.close tqdm.n tqdm.total tqdm.closed]. rewrite Htotal.
  split; [reflexivity|]. split; [reflexivity|].
  split; [symmetry; apply position_after_all|].
  split; [intros ->; reflexivity|]. split; [exact Hlast|]. split.
  - intros only ->. rewrite (Hlast [] only eq_refl).
    cbn [length]. rewrite position_after_0.
    apply step_first, Py.value_ok.
  - intros init last p Hseg Hp Hexact. rewrite (Hlast init last Hseg), Hp.
    unfold end_time in Hexact. unfold Py.to_float.
    rewrite (step_exact p _ (Py.value_ok _) Hexact).
    split; [reflexivity|]. unfold total, Py.to_float, end_time. split.
    + intros H. now injection H.
    + intros ->. reflexivity.
Qed.

(** C5, as the code has it.  Each segment moves the bar by the
    binary64 difference of its end time and the position, to the
    binary64 value of [n + (end - n)].  A step does not move the bar
    down when the segment does not end before the position; it puts
    the bar at the end time when [end - n] is a binary64 number, as at
    the first step. *)
Theorem position_step (total : Py.float) segments (k : nat)
    (segment : faster_whisper.Segment) :
  segments !! k = Some segment ->
  position_after total segments (S k)
    = Py.add (position_after total segments k)
        (Py.sub (Py.to_float (faster_whisper.end_ segment))
                (position_after total segments k))
  /\ (forall n : Qc,
        position_after total segments k = Py.Finite n ->
        (n <= end_time segment)%Qc ->
        Py.le (position_after total segments k)
              (position_after total segments (S k)) = true)
  /\ (forall n : Qc,
        position_after total segments k = Py.Finite n ->
        Py.is_binary64 (end_time segment - n)%Qc = true ->
        position_after total segments (S k)
          = Py.to_float (faster_whisper.end_ segment))
  /\ (k = 0%nat ->
      position_after total segments (S k)
        = Py.to_float (faster_whisper.end_ segment)).
Proof.
  intros Hk. rewrite (position_after_S total segments k segment Hk).
  split; [reflexivity|]. split; [|split].
  - intros n Hn Hle. rewrite Hn.
    apply step_up; [eapply position_binary64, Hn|exact Hle].
  - intros n Hn Hexact. rewrite Hn.
    apply step_exact; [apply Py.value_ok|exact Hexact].
  - intros ->. rewrite position_after_0. apply step_first, Py.value_ok.
Qed.

End Progress.

(** Times that never go down, in a given list of at most three
    segments. *)
Ltac ordered :=
  let i := fresh "i" in
  let j := fresh "j" in
  let Hi := fresh "Hi" in
  let Hj := fresh "Hj" in
  intros i j ? ? ? Hi Hj; apply Qle_bool_iff;
  destruct i as [|[|[|i]]]; destruct j as [|[|[|j]]];
  cbn in Hi, Hj; try discriminate Hi; try discriminate Hj; try lia;
  injection Hi as <-; injection Hj as <-; vm_compute; reflexivity.

(** C3 as stated fails.  The engine reports ten seconds of audio and
    yields one segment that ends at 2.5 seconds (the rest is silence):
    the sequence is time-ordered, and the bar is closed at 2.5, not at
    10.  And when the last segment does end at the total duration, the
    bar can still be closed beyond it: with ends 0.03 and 0.29 in 0.29
    seconds of audio it is closed at 0.29000000000000004. *)
Lemma final_position_counterexample :
  non_decreasing start_time first_segment_only
  /\ non_decreasing end_time first_segment_only
  /\ (exists (w' : World) (bar : tqdm.t),
        transcribe (stub_engine stub_info first_segment_only) "/d/audio.m4a"
          "large-v3" "nl" audio_world = (Returned tt, w')
        /\ bars w' = [bar]
        /\ tqdm.closed bar = true
        /\ exact_value (tqdm.total bar) = Some (10 # 1)%Q
        /\ exact_value (tqdm.n bar) = Some (5 # 2)%Q)
  /\ non_decreasing start_time (take 2 short_segments)
  /\ non_decreasing end_time (take 2 short_segments)
  /\ (exists (w' : World) (bar : tqdm.t),
        transcribe (stub_engine short_info (take 2 short_segments))
          "/d/audio.m4a" "large-v3" "nl" audio_world = (Returned tt, w')
        /\ bars w' = [bar]
        /\ tqdm.closed bar = true
        /\ exact_value (tqdm.total bar)
           = Some (5224175567749775 # 18014398509481984)%Q
        /\ exact_value (tqdm.n bar)
           = Some (326510972984361 # 1125899906842624)%Q
        /\ Py.lt (tqdm.total bar) (tqdm.n bar) = true).
Proof.
  split; [ordered|]. split; [ordered|]. split.
  { eexists _, _. split.
    - apply (transcribe_run (stub_engine stub_info first_segment_only)
               audio_world "/d/audio.m4a" "large-v3" "nl" stub_info
               first_segment_only).
      + vm_compute. eexists. reflexivity.
      + reflexivity.
      + reflexivity.
      + reflexivity.
    - unfold audio_world. cbn [world_after bars world_of app].
      repeat split; vm_compute; reflexivity. }
  split; [ordered|]. split; [ordered|].
  eexists _, _. split.
  - apply (transcribe_run (stub_engine short_info (take 2 short_segments))
             audio_world "/d/audio.m4a" "large-v3" "nl" short_info
             (take 2 short_segments)).
    + vm_compute. eexists. reflexivity.
    + reflexivity.
    + reflexivity.
    + reflexivity.
  - unfold audio_world. cbn [world_after bars world_of app].
    repeat split; vm_compute; reflexivity.
Qed.

(** The final position with the stub of the specification, whose last
    segment ends at the total duration, ten seconds, and whose last
    step needs no rounding. *)
Lemma final_position_is_last_update_witness :
  exists (o : Outcome unit) (w' : World) (bar : tqdm.t),
    transcribe (stub_engine stub_info stub_segments) "/d/audio.m4a" "large-v3" "nl"
      audio_world = (o, w')
    /\ bars w' = bars audio_world ++ [bar]
    /\ tqdm.closed bar = true
    /\ tqdm.total bar = Py.to_float f_10_0
    /\ tqdm.n bar
       = position_after (Py.to_float f_10_0) stub_segments (length stub_segments).
Proof.
  destruct (final_position_is_last_update (stub_engine stub_info stub_segments)
              audio_world "/d/audio.m4a" "large-v3" "nl" stub_info stub_segments)
    as (o & w' & bar & H1 & H2 & H3 & H4 & H5 & _).
  - vm_compute. eexists. reflexivity.
  - reflexivity.
  - reflexivity.
  - exists o, w', bar. repeat split; assumption.
Defined.

(** C5 as stated fails.  The end times 0.03, 0.29 and 0.29 are not
    negative and never go down, and the position goes down at the third
    step: the second step leaves the bar at 0.29000000000000004, one
    unit in the last place above 0.29, and the third brings it back to
    0.29. *)
Lemma position_step_counterexample :
  non_decreasing end_time short_segments
  /\ offsets short_segments
  /\ exact_value (position_after (Py.to_float f_0_29) short_segments 1)
     = Some (1080863910568919 # 36028797018963968)%Q
  /\ exact_value (position_after (Py.to_float f_0_29) short_segments 2)
     = Some (326510972984361 # 1125899906842624)%Q
  /\ exact_value (position_after (Py.to_float f_0_29) short_segments 3)
     = Some (5224175567749775 # 18014398509481984)%Q
  /\ Py.lt (position_after (Py.to_float f_0_29) short_segments 3)
           (position_after (Py.to_float f_0_29) short_segments 2) = true
  /\ Py.le (position_after (Py.to_float f_0_29) short_segments 2)
           (position_after (Py.to_float f_0_29) short_segments 3) = false.
Proof.
  split; [ordered|]. split.
  { repeat constructor; apply Qle_bool_iff; vm_compute; reflexivity. }
  vm_compute. repeat split.
Qed.

(** The second step of the stub's sequence, from 2.5 to 10. *)
Lemma position_step_witness :
  position_after (Py.to_float f_10_0) stub_segments 2
    = Py.add (position_after (Py.to_float f_10_0) stub_segments 1)
        (Py.sub (Py.to_float f_10_0)
                (position_after (Py.to_float f_10_0) stub_segments 1))
  /\ (forall n : Qc,
        position_after (Py.to_float f_10_0) stub_segments 1 = Py.Finite n ->
        (n <= Py.value f_10_0)%Qc ->
        Py.le (position_after (Py.to_float f_10_0) stub_segments 1)
              (position_after (Py.to_float f_10_0) stub_segments 2) = true).
Proof.
  destruct (position_step (Py.to_float f_10_0) stub_segments 1
              {| faster_whisper.start := f_2_5; faster_whisper.end_ := f_10_0;
                 faster_whisper.text := "wereld" |} eq_refl)
    as (Hstep & Hup & _).
  split; [exact Hstep|exact Hup].
Defined.

(** ** Failures *)

(** The run of [transcribe] up to the test [path.exists()], when the
    lookup [Hnone] of the path finds nothing. *)
Ltac missing_file Hnone :=
  unfold transcribe, mbind, io_bind, exists_;
  rewrite bool_decide_eq_false_2 by (rewrite Hnone; apply is_Some_None);
  cbn [negb print sys_exit fs stdout models bars].

Section Failures.

Variable engine : faster_whisper.Engine.

Implicit Types (w : World) (audio_path model_size language : string).

(** C4.  On a path that does not exist, [transcribe] prints its message
    and the process exits with code 1; no model is instantiated, no bar
    is shown and no file is touched, whatever the engine would do. *)
Theorem transcribe_missing_file w audio_path model_size language :
  fs w !! pathlib.str (pathlib.Path audio_path) = None ->
  transcribe engine audio_path model_size language w =
    (Exited 1,
     {| fs := fs w;
        stdout := stdout w ++ ["Bestand niet gevonden: " +:+ audio_path];
        models := models w;
        bars := bars w |}).
Proof.
  intros Hnone.
  assert (Hfound : bool_decide (is_Some (fs w !! pathlib.str (pathlib.Path audio_path)))
                   = false).
  { apply bool_decide_eq_false_2. rewrite Hnone. apply is_Some_None. }
  unfold transcribe, mbind, io_bind, exists_.
  rewrite Hfound. cbn [negb].
  unfold print, sys_exit. reflexivity.
Qed.

(** A run instantiates at most one model, and exactly one when it
    returns. *)
Lemma transcribe_models w audio_path model_size language
    (o : Outcome unit) (w' : World) :
  transcribe engine audio_path model_size language w = (o, w') ->
  (o = Returned tt -> models w' = models w ++ [model_size])
  /\ (models w' = models w \/ models w' = models w ++ [model_size]).
Proof.
  unfold transcribe, mbind, io_bind, exists_, WhisperModel, model_transcribe.
  destruct (bool_decide _); cbn [negb print sys_exit fs stdout models bars].
  - destruct (faster_whisper.load_error engine model_size) as [exc|].
    { intros H. injection H as <- <-. split; [discriminate|now left]. }
    destruct (faster_whisper.run engine model_size _ language)
      as [exc|info segments stop].
    { intros H. injection H as <- <-. split; [discriminate|now right]. }
    cbn [mret io_ret print fs stdout models bars].
    rewrite format_timestamp_finite. cbn [eval].
    destruct (consume segments _) as [[output_lines progress] failure].
    destruct failure as [exc|]; [|destruct stop as [exc|]];
      try (cbn [show raise fs stdout models bars];
           intros H; injection H as <- <-; split; [discriminate|now right]).
    destruct (pathlib.with_suffix _ _) as [output_path|];
      intros H; injection H as <- <-; split; auto.
  - intros H. injection H as <- <-. split; [discriminate|now left].
Qed.

Variable home : string.

(** The loop of the entry point, one step at a time. *)
Lemma batch_cons (audio_file : string) (rest : list string) w :
  batch engine (audio_file :: rest) w =
    match transcribe engine audio_file "large-v3" "nl" w with
    | (Returned _, w1) =>
        batch engine rest
          {| fs := fs w1;
             stdout := stdout w1 ++ [Py.nl +:+ Py.repeat "=" 60 +:+ Py.nl];
             models := models w1;
             bars := bars w1 |}
    | (Exited code, w1) => (Exited code, w1)
    | (Raised exc, w1) => (Raised exc, w1)
    end.
Proof.
  cbn [batch]. unfold mbind, io_bind.
  destruct (transcribe engine audio_file "large-v3" "nl" w) as [[[]|code|exc] w1];
    reflexivity.
Qed.

Lemma batch_app (done later : list string) w w1 :
  batch engine done w = (Returned tt, w1) ->
  batch engine (done ++ later) w = batch engine later w1.
Proof.
  revert w. induction done as [|audio_file done IH]; intros w Hdone.
  - injection Hdone as ->. reflexivity.
  - cbn [app]. rewrite batch_cons in *.
    destruct (transcribe engine audio_file "large-v3" "nl" w) as [[[]|code|exc] w2];
      [|discriminate Hdone|discriminate Hdone].
    apply IH, Hdone.
Qed.

(** A batch that returns has instantiated one model per file. *)
Lemma batch_models (files : list string) w w' :
  batch engine files w = (Returned tt, w') ->
  models w' = models w ++ replicate (length files) "large-v3".
Proof.
  revert w. induction files as [|audio_file files IH]; intros w Hrun.
  - injection Hrun as ->. cbn [length replicate]. now rewrite app_nil_r.
  - rewrite batch_cons in Hrun.
    destruct (transcribe engine audio_file "large-v3" "nl" w)
      as [[[]|code|exc] w1] eqn:Hone; [|discriminate Hrun|discriminate Hrun].
    apply transcribe_models in Hone as [Hone _].
    rewrite (IH _ Hrun). cbn [models length replicate].
    rewrite (Hone eq_refl), <- app_assoc. reflexivity.
Qed.

(** C8.  The entry point runs [transcribe] on its two paths in order,
    each with the default model size and language, and prints a separator
    after each run that returns; a batch that returns has instantiated
    one model per path.  When the run of one file does not return (the
    process exits, as for a missing file, or an exception propagates),
    the batch ends there with that outcome and in the world that run
    left: nothing is done for any later file. *)
Theorem batch_stops_at_failure :
  main engine home =
    batch engine [ expanduser home "~/Downloads/Helene en AnneMarie.m4a";
                   expanduser home "~/Downloads/Joke Swiebel.m4a" ]
  /\ (forall w, batch engine [] w = (Returned tt, w))
  /\ (forall (audio_file : string) (rest : list string) w w1,
        transcribe engine audio_file "large-v3" "nl" w = (Returned tt, w1) ->
        batch engine (audio_file :: rest) w =
          batch engine rest
            {| fs := fs w1;
               stdout := stdout w1 ++
                 [Py.nl +:+ "============================================================"
                  +:+ Py.nl];
               models := models w1;
               bars := bars w1 |})
  /\ (forall (files : list string) w w',
        batch engine files w = (Returned tt, w') ->
        models w' = models w ++ replicate (length files) "large-v3")
  /\ (forall (done later : list string) (audio_file : string) w w1 w2
             (o : Outcome unit),
        batch engine done w = (Returned tt, w1) ->
        transcribe engine audio_file "large-v3" "nl" w1 = (o, w2) ->
        o <> Returned tt ->
        batch engine (done ++ audio_file :: later) w = (o, w2))
  /\ (forall (done later : list string) (audio_file : string) w w1,
        batch engine done w = (Returned tt, w1) ->
        fs w1 !! pathlib.str (pathlib.Path audio_file) = None ->
        batch engine (done ++ audio_file :: later) w =
          (Exited 1,
           {| fs := fs w1;
              stdout := stdout w1 ++ ["Bestand niet gevonden: " +:+ audio_file];
              models := models w1;
              bars := bars w1 |})).
Proof.
  split; [reflexivity|]. split; [reflexivity|].
  assert (Hstop : forall (done later : list string) (audio_file : string)
                         w w1 w2 (o : Outcome unit),
            batch engine done w = (Returned tt, w1) ->
            transcribe engine audio_file "large-v3" "nl" w1 = (o, w2) ->
            o <> Returned tt ->
            batch engine (done ++ audio_file :: later) w = (o, w2)).
  { intros done later audio_file w w1 w2 o Hdone Hrun Hfail.
    rewrite (batch_app done _ w w1 Hdone), batch_cons, Hrun.
    destruct o as [[]|code|exc]; [contradiction|reflexivity|reflexivity]. }
  split; [|split; [exact batch_models|split; [exact Hstop|]]].
  - intros audio_file rest w w1 Hrun. rewrite batch_cons, Hrun. reflexivity.
  - intros done later audio_file w w1 Hdone Hnone.
    apply (Hstop done later audio_file w w1 _ _ Hdone); [|discriminate].
    now missing_file Hnone.
Qed.

End Failures.

(** The run on a path that is not there, in a world without files. *)
Lemma transcribe_missing_file_witness :
  transcribe (stub_engine stub_info stub_segments) "/d/missing.m4a" "large-v3" "nl"
    (world_of ∅)
  = (Exited 1,
     {| fs := fs (world_of ∅);
        stdout := stdout (world_of ∅) ++ ["Bestand niet gevonden: " +:+ "/d/missing.m4a"];
        models := models (world_of ∅);
        bars := bars (world_of ∅) |}).
Proof.
  apply (transcribe_missing_file (stub_engine stub_info stub_segments)
           (world_of ∅) "/d/missing.m4a" "large-v3" "nl").
  vm_compute. reflexivity.
Defined.

(** The batch when the first file is there and the second is not: one
    model was instantiated, for the first file, and the process exits
    with code 1 at the second. *)
Lemma batch_stops_at_failure_witness :
  exists w1 : World,
    batch (stub_engine stub_info stub_segments)
      [ "/home/u/Downloads/Helene en AnneMarie.m4a" ] downloads_world
    = (Returned tt, w1)
    /\ models w1 = ["large-v3"]
    /\ main (stub_engine stub_info stub_segments) "/home/u" downloads_world =
         (Exited 1,
          {| fs := fs w1;
             stdout := stdout w1 ++
               ["Bestand niet gevonden: /home/u/Downloads/Joke Swiebel.m4a"];
             models := models w1;
             bars := bars w1 |}).
Proof.
  destruct (batch_stops_at_failure (stub_engine stub_info stub_segments) "/home/u")
    as (Hmain & _ & _ & _ & _ & Hmissing).
  eexists. split; [vm_compute; reflexivity|]. split; [reflexivity|].
  rewrite Hmain.
  apply (Hmissing [ "/home/u/Downloads/Helene en AnneMarie.m4a" ] []
           "/home/u/Downloads/Joke Swiebel.m4a" downloads_world).
  - vm_compute. reflexivity.
  - vm_compute. reflexivity.
Defined.

(** * Further properties of the code *)

Section Appending.

Lemma append_inj_tail (a1 a2 b1 b2 : string) :
  a1 +:+ b1 = a2 +:+ b2 -> String.length b1 = String.length b2 ->
  a1 = a2 /\ b1 = b2.
Proof.
  revert a2. induction a1 as [|c a1 IH]; intros a2 Heq Hlen.
  - destruct a2 as [|c2 a2]; [split; [reflexivity|exact Heq]|].
    apply (f_equal String.length) in Heq.
    rewrite !length_append in Heq. cbn [String.length] in Heq. lia.
  - destruct a2 as [|c2 a2].
    + apply (f_equal String.length) in Heq.
      rewrite !length_append in Heq. cbn [String.length] in Heq. lia.
    + rewrite !append_cons in Heq. injection Heq as -> Heq.
      destruct (IH a2 Heq Hlen) as [-> ->]. split; reflexivity.
Qed.

Lemma append_nil_l (s : string) : "" +:+ s = s.
Proof. reflexivity. Qed.

End Appending.

(** ** [format_timestamp] below zero *)

Section TimestampNegative.

Local Open Scope Q_scope.

Lemma Qfloor_unique (x : Q) (k : Z) :
  inject_Z k <= x -> x < inject_Z (k + 1) -> Qfloor x = k.
Proof.
  intros H1 H2. pose proof (Qfloor_le x) as H3. pose proof (Qlt_floor x) as H4.
  assert (H5 : inject_Z k < inject_Z (Qfloor x + 1)) by lra.
  assert (H6 : inject_Z (Qfloor x) < inject_Z (k + 1)) by lra.
  rewrite <- Zlt_Qlt in H5, H6. lia.
Qed.

(** The floored quotient, from the truncated one, below zero. *)
Lemma floor_of_trunc (q : Q) (P : Z) :
  (0 < P)%Z -> q <= 0 ->
  let t := Py.trunc (q / inject_Z P) in
  let r := q - inject_Z (P * t) in
  (r < 0 -> (Qfloor q / P)%Z = (t - 1)%Z) /\ (r == 0 -> (Qfloor q / P)%Z = t).
Proof.
  intros HP Hq t r.
  destruct (floor_div_mod q P HP) as (<- & _).
  destruct (fmod_bounds q P HP) as [_ Hneg].
  destruct (Hneg Hq) as (Hr1 & Hr2 & _). fold t r in Hr1, Hr2.
  pose proof (inject_Z_pos P HP) as HP'.
  assert (E : q == r + inject_Z P * inject_Z t)
    by (unfold r; rewrite inject_Z_mult; ring).
  clearbody r t. split; intros Hr; apply Qfloor_unique.
  - apply Qle_shift_div_l; [exact HP'|].
    unfold Z.sub. rewrite inject_Z_plus, inject_Z_opp. rewrite E.
    change (inject_Z 1) with 1.
    revert HP' Hr1. generalize (inject_Z P) (inject_Z t). intros; nra.
  - apply Qlt_shift_div_r; [exact HP'|].
    replace (t - 1 + 1)%Z with t by lia. rewrite E.
    revert HP' Hr. generalize (inject_Z P) (inject_Z t). intros; nra.
  - apply Qle_shift_div_l; [exact HP'|]. rewrite E, Hr. 
    revert HP'. generalize (inject_Z P) (inject_Z t). intros; nra.
  - apply Qlt_shift_div_r; [exact HP'|]. rewrite inject_Z_plus, E, Hr.
    change (inject_Z 1) with 1.
    revert HP'. generalize (inject_Z P) (inject_Z t). intros; nra.
Qed.

(** [//] by a whole number at a number that is not positive, above
    [- 2 ** 53]: the floor of the quotient, with no rounding. *)
Lemma floordiv_nonpos (q : Qc) (P : Z) :
  q <= 0 -> - inject_Z (2 ^ 53) < q -> (0 < P <= 2 ^ 53)%Z ->
  Py.floordiv (Py.Finite q) (Py.float_of_Z P)
    = Py.Ok (Py.Finite (Py.of_Z (Qfloor q / P))).
Proof.
  intros H0 H1 HP.
  destruct (fmod_bounds q P ltac:(lia)) as [_ Hneg].
  destruct (Hneg H0) as (Hr1 & Hr2 & Hs1 & Hs2).
  destruct (floor_of_trunc q P ltac:(lia) H0) as [Hlt Heq].
  cbv zeta in Hlt, Heq.
  set (t := Py.trunc (q / inject_Z P)) in *.
  assert (Hsub : q - (q - inject_Z (P * t)) == inject_Z (P * t)) by ring.
  rewrite Hsub in Hs1, Hs2.
  assert (Hb : (- 2 ^ 53 < P * t <= 0)%Z).
  { split.
    - rewrite Zlt_Qlt, inject_Z_opp. lra.
    - rewrite Zle_Qle. exact Hs2. }
  assert (Hb1 : (Z.abs (P * t) <= 2 ^ 53)%Z) by lia.
  assert (Hb2 : (Z.abs t < 2 ^ 53)%Z) by nia.
  rewrite (floordiv_steps q P t HP Hb1 Hb2 eq_refl).
  destruct (Py.negative _) eqn:Hn.
  - unfold Py.negative in Hn. apply bool_decide_eq_true_1 in Hn.
    unfold Qclt in Hn. rewrite this_Q2Qc_0, this_Q2Qc in Hn.
    now rewrite (Hlt Hn).
  - unfold Py.negative in Hn. apply bool_decide_eq_false_1 in Hn.
    unfold Qclt in Hn. rewrite this_Q2Qc_0, this_Q2Qc in Hn.
    rewrite Heq; [reflexivity|]. lra.
Qed.

Lemma trunc_of_Z_div (z P : Z) :
  (0 < P)%Z -> Py.trunc (Py.of_Z z / inject_Z P) = Z.quot z P.
Proof.
  intros HP.
  assert (E : Py.of_Z z / inject_Z P == inject_Z z / inject_Z P)
    by now rewrite this_of_Z.
  rewrite (trunc_comp _ _ E). destruct P as [|p|p]; try lia.
  unfold Py.trunc, Qdiv, Qmult, Qinv, inject_Z. simpl.
  now rewrite Z.mul_1_r.
Qed.

(** The remainder of the floored division, from that of the truncated
    one. *)
Lemma mod_of_rem (z P : Z) :
  (0 < P)%Z ->
  (z mod P = if Z.rem z P <? 0 then Z.rem z P + P else Z.rem z P)%Z.
Proof.
  intros HP. pose proof (Z.quot_rem' z P) as E.
  pose proof (Z.rem_bound_abs z P ltac:(lia)) as Hb.
  destruct (Z.ltb_spec (Z.rem z P) 0) as [Hn|Hn]; symmetry.
  - apply (Z.mod_unique z P (z ÷ P - 1)); lia.
  - apply (Z.mod_unique z P (z ÷ P)); lia.
Qed.

(** [%] on whole numbers is the remainder of the floored division. *)
Lemma mod_of_Z (z P : Z) :
  (Z.abs z < 2 ^ 53)%Z -> (0 < P <= 2 ^ 53)%Z ->
  Py.mod_ (Py.Finite (Py.of_Z z)) (Py.float_of_Z P)
    = Py.Ok (Py.Finite (Py.of_Z (z mod P))).
Proof.
  intros Hz HP. rewrite (mod_steps (Py.of_Z z) P HP).
  rewrite trunc_of_Z_div by lia.
  assert (E : Q2Qc (Py.of_Z z - inject_Z (P * (z ÷ P))) == inject_Z (Z.rem z P)).
  { rewrite this_Q2Qc, this_of_Z. rewrite (Z.rem_eq z P) by lia.
    unfold Z.sub. rewrite inject_Z_plus, inject_Z_opp. reflexivity. }
  f_equal. destruct (Py.negative _) eqn:Hn.
  - unfold Py.negative in Hn. apply bool_decide_eq_true_1 in Hn.
    unfold Qclt in Hn. rewrite this_Q2Qc_0, E in Hn.
    change 0 with (inject_Z 0) in Hn. rewrite <- Zlt_Qlt in Hn.
    rewrite (rnd_comp _ (inject_Z (Z.rem z P + P)))
      by (rewrite E, inject_Z_plus; reflexivity).
    pose proof (Z.rem_bound_abs z P ltac:(lia)) as Hb.
    rewrite rnd_inject_Z by lia.
    rewrite (mod_of_rem z P) by lia.
    destruct (Z.ltb_spec (Z.rem z P) 0) as [_|?]; [reflexivity|lia].
  - unfold Py.negative in Hn. apply bool_decide_eq_false_1 in Hn.
    unfold Qclt in Hn. rewrite this_Q2Qc_0, E in Hn.
    change 0 with (inject_Z 0) in Hn. rewrite <- Zlt_Qlt in Hn.
    apply Finite_eq. rewrite E, this_of_Z.
    rewrite (mod_of_rem z P) by lia.
    destruct (Z.ltb_spec (Z.rem z P) 0) as [?|_]; [lia|reflexivity].
Qed.

Lemma digits_nonempty (k : N) : (1 <= String.length (Py.digits k))%nat.
Proof.
  unfold Py.digits, NilZero.string_of_uint.
  destruct (N.to_uint k); simpl; lia.
Qed.

(** A negative number is printed with its sign and without padding. *)
Lemma format_02d_neg (k : Z) :
  (k < 0)%Z -> Py.format_02d k = "-" +:+ Py.digits (Z.to_N (- k)).
Proof.
  intros Hk. unfold Py.format_02d. destruct (Z.ltb_spec k 0) as [_|?]; [|lia].
  unfold Py.zfill. pose proof (digits_nonempty (Z.abs_N k)).
  replace (1 - String.length (Py.digits (Z.abs_N k)))%nat with 0%nat by lia.
  replace (Z.abs_N k) with (Z.to_N (- k)) by lia. reflexivity.
Qed.

(** X1.  At a negative number of seconds above [- 2 ** 53]
    [format_timestamp] does not fail.  The hours are the floor of the
    seconds over 3600, so they are negative and printed with a minus
    sign and without padding.  The minutes and the seconds are two
    digits between 00 and 60: at a whole number of seconds they are the
    floored remainders, between 00 and 59, that count up from the hour
    below ([-1:59:59] one second before zero); between whole seconds
    the remainder [seconds % 60] is rounded and can reach the divisor,
    so that just below zero the text is [-1:60:60]. *)
Theorem format_timestamp_negative (seconds : Qc) :
  seconds < 0 -> - Py.pow2 53 < seconds ->
  let h := (Qfloor seconds / 3600)%Z in
  (exists m s : Z,
     format_timestamp (Py.Finite seconds)
       = Py.Ok ("-" +:+ Py.digits (Z.to_N (- h)) +:+ ":" +:+ two_digits m
                +:+ ":" +:+ two_digits s)
     /\ (h < 0)%Z /\ (0 <= m <= 60)%Z /\ (0 <= s <= 60)%Z
     /\ (forall z : Z,
           seconds == inject_Z z ->
           m = (z mod 3600 / 60)%Z /\ s = (z mod 60)%Z
           /\ z = (3600 * h + 60 * m + s)%Z))
  /\ format_timestamp (Py.float_of_Z (-1)) = Py.Ok "-1:59:59"
  /\ format_timestamp (Py.rnd (-3661.5)) = Py.Ok "-2:58:58"
  /\ format_timestamp (Py.rnd (-1e-20)) = Py.Ok "-1:60:60".
Proof.
  intros Hneg Hlow h. split; [|vm_compute; repeat split].
  rewrite (pow2_inject 53) in Hlow by lia.
  assert (Hh : (h < 0)%Z).
  { apply Z.div_lt_upper_bound; [lia|].
    enough (Qfloor seconds < 0)%Z by lia.
    apply (Qfloor_lt seconds 0). exact Hneg. }
  destruct (mod_finite seconds 3600 ltac:(lia)) as (r & Hr & Hr0 & Hr1).
  destruct (mod_finite seconds 60 ltac:(lia)) as (r' & Hr' & Hr0' & Hr1').
  pose proof (Qfloor_nonneg r Hr0) as Hf0.
  pose proof (Qfloor_resp_le _ _ Hr1) as Hf1. rewrite Qfloor_Z in Hf1.
  pose proof (Qfloor_nonneg r' Hr0') as Hf0'.
  pose proof (Qfloor_resp_le _ _ Hr1') as Hf1'. rewrite Qfloor_Z in Hf1'.
  exists (Qfloor r / 60)%Z, (Qfloor r').
  assert (Hm : (0 <= Qfloor r / 60 <= 60)%Z).
  { split; [apply Z.div_pos; lia|].
    apply Z.div_le_upper_bound; lia. }
  split; [|split; [exact Hh|split; [exact Hm|split; [lia|]]]].
  - unfold format_timestamp.
    rewrite (floordiv_nonpos seconds 3600 (Qlt_le_weak _ _ Hneg) Hlow) by lia.
    unfold mbind at 1. unfold Py.result_bind at 1.
    rewrite int_of_Z. unfold mbind at 1. unfold Py.result_bind at 1.
    rewrite Hr. unfold mbind at 1. unfold Py.result_bind at 1.
    rewrite (floordiv_nonneg r 60 Hr0); [| |lia].
    2: { apply Qle_lt_trans with (inject_Z 3600); [exact Hr1|reflexivity]. }
    unfold mbind at 1. unfold Py.result_bind at 1.
    rewrite int_of_Z. unfold mbind at 1. unfold Py.result_bind at 1.
    rewrite Hr'. unfold mbind at 1. unfold Py.result_bind at 1.
    rewrite (int_nonneg _ Hr0'). unfold mbind at 1. unfold Py.result_bind at 1.
    fold h. rewrite (format_02d_neg h Hh).
    rewrite (format_02d_two_digits (Qfloor r / 60)),
      (format_02d_two_digits (Qfloor r')) by lia.
    unfold mret, Py.result_ret. now rewrite !append_assoc.
  - intros z Hz.
    assert (Hz1 : (- 2 ^ 53 < z < 0)%Z).
    { split.
      - rewrite Zlt_Qlt, inject_Z_opp, <- Hz. exact Hlow.
      - rewrite Zlt_Qlt, <- Hz. exact Hneg. }
    assert (E : Py.Finite seconds = Py.Finite (Py.of_Z z))
      by (apply Finite_eq; now rewrite this_of_Z).
    rewrite E, mod_of_Z in Hr, Hr' by lia.
    injection Hr as <-. injection Hr' as <-.
    rewrite !Qfloor_of_Z.
    assert (Ht : Qfloor seconds = z) by (rewrite (Qfloor_comp _ _ Hz); apply Qfloor_Z).
    unfold h. rewrite Ht.
    split; [reflexivity|]. split; [reflexivity|].
    Z.div_mod_to_equations. lia.
Qed.

(** The property half a second before zero. *)
Lemma format_timestamp_negative_witness :
  exists m s : Z,
    format_timestamp (Py.Finite (Q2Qc (-0.5)))
      = Py.Ok ("-" +:+ Py.digits 1 +:+ ":" +:+ two_digits m +:+ ":" +:+ two_digits s)
    /\ (0 <= m <= 60)%Z /\ (0 <= s <= 60)%Z.
Proof.
  assert (Hneg : Q2Qc (-0.5) < 0) by (vm_compute; reflexivity).
  assert (Hlow : - Py.pow2 53 < Q2Qc (-0.5)) by (vm_compute; reflexivity).
  destruct (proj1 (format_timestamp_negative (Q2Qc (-0.5)) Hneg Hlow))
    as (m & s & Hrun & _ & Hm & Hs & _).
  exists m, s. split; [exact Hrun|]. split; assumption.
Defined.

End TimestampNegative.

(** ** [format_timestamp] as a code of the whole seconds *)

Section TimestampCode.

Local Open Scope Z_scope.

Lemma digit_inj (d e : Z) :
  0 <= d < 10 -> 0 <= e < 10 -> digit d = digit e -> d = e.
Proof.
  intros Hd He H. unfold digit in H.
  apply (f_equal N_of_ascii) in H.
  rewrite !N_ascii_embedding in H by lia. lia.
Qed.

Lemma two_digits_inj (a b : Z) :
  0 <= a < 100 -> 0 <= b < 100 -> two_digits a = two_digits b -> a = b.
Proof.
  intros Ha Hb H. unfold two_digits in H. injection H as H1 H2.
  apply digit_inj in H1; [|Z.div_mod_to_equations; lia..].
  apply digit_inj in H2; [|Z.div_mod_to_equations; lia..].
  Z.div_mod_to_equations; lia.
Qed.

Lemma decimal_value_minus (s : string) : decimal_value ("-" +:+ s) = None.
Proof.
  unfold decimal_value. rewrite append_cons. cbn [NilEmpty.uint_of_string].
  destruct (NilEmpty.uint_of_string ("" +:+ s)); reflexivity.
Qed.

Lemma decimal_value_format_02d (k : Z) :
  decimal_value (Py.format_02d k) = if k <? 0 then None else Some (Z.to_N k).
Proof.
  unfold Py.format_02d. destruct (Z.ltb_spec k 0) as [Hk|Hk].
  - apply decimal_value_minus.
  - rewrite decimal_value_zfill. f_equal. lia.
Qed.

(** The hours field determines the hours. *)
Lemma format_02d_inj (a b : Z) : Py.format_02d a = Py.format_02d b -> a = b.
Proof.
  intros H. pose proof (f_equal decimal_value H) as Hv.
  rewrite !decimal_value_format_02d in Hv.
  destruct (Z.ltb_spec a 0) as [Ha|Ha]; destruct (Z.ltb_spec b 0) as [Hb|Hb];
    try discriminate Hv.
  - unfold Py.format_02d in H.
    destruct (Z.ltb_spec a 0) as [_|?]; [|lia].
    destruct (Z.ltb_spec b 0) as [_|?]; [|lia].
    rewrite !append_cons, !append_nil_l in H. injection H as H.
    apply (f_equal decimal_value) in H. rewrite !decimal_value_zfill in H.
    injection H as H. lia.
  - injection Hv as Hv. lia.
Qed.

Lemma length_two_digits (k : Z) : String.length (two_digits k) = 2%nat.
Proof. reflexivity. Qed.

(** The text of a time that is not negative, with two digits for the
    minutes and for the seconds. *)
Lemma format_timestamp_two_digits (seconds : Qc) :
  (0 <= seconds)%Q -> (seconds < Py.pow2 53)%Q ->
  let t := Qfloor seconds in
  format_timestamp (Py.Finite seconds) =
    Py.Ok (Py.format_02d (t / 3600) +:+ ":" +:+ two_digits (t mod 3600 / 60)
           +:+ ":" +:+ two_digits (t mod 60)).
Proof.
  intros Hnn Hlt t. rewrite (pow2_inject 53) in Hlt by lia.
  rewrite (format_timestamp_fields seconds Hnn Hlt). fold t.
  assert (0 <= t mod 3600 / 60 < 60).
  { pose proof (Z.mod_pos_bound t 3600 ltac:(lia)).
    split; [apply Z.div_pos; lia|apply Z.div_lt_upper_bound; lia]. }
  pose proof (Z.mod_pos_bound t 60 ltac:(lia)).
  rewrite (format_02d_two_digits (t mod 3600 / 60)),
    (format_02d_two_digits (t mod 60)) by lia.
  reflexivity.
Qed.

(** X2.  Below [2 ** 53] seconds, [format_timestamp] reads nothing but
    the whole seconds of a time that is not negative, and loses none of
    them: two such times are printed alike exactly when they lie in the
    same whole second. *)
Theorem format_timestamp_same_second (x y : Qc) :
  (0 <= x)%Q -> (x < Py.pow2 53)%Q -> (0 <= y)%Q -> (y < Py.pow2 53)%Q ->
  format_timestamp (Py.Finite x) = format_timestamp (Py.Finite y)
  <-> Qfloor x = Qfloor y.
Proof.
  intros Hx0 Hx1 Hy0 Hy1.
  rewrite (format_timestamp_two_digits x Hx0 Hx1),
    (format_timestamp_two_digits y Hy0 Hy1).
  split; [|intros ->; reflexivity].
  set (t := Qfloor x). set (u := Qfloor y). intros H. injection H as H.
  apply append_inj_tail in H as [Hh H]; [|reflexivity].
  unfold two_digits in H.
  repeat (rewrite append_cons in H || rewrite append_nil_l in H).
  injection H as Hm1 Hm2 Hs1 Hs2.
  assert (Hm : two_digits (t mod 3600 / 60) = two_digits (u mod 3600 / 60))
    by (unfold two_digits; congruence).
  assert (Hs : two_digits (t mod 60) = two_digits (u mod 60))
    by (unfold two_digits; congruence).
  apply format_02d_inj in Hh.
  apply two_digits_inj in Hm; [|Z.div_mod_to_equations; lia..].
  apply two_digits_inj in Hs; [|Z.div_mod_to_equations; lia..].
  Z.div_mod_to_equations; lia.
Qed.

(** 59.9 and 59.5 seconds are printed alike. *)
Lemma format_timestamp_same_second_witness :
  format_timestamp (Py.Finite (Q2Qc 59.9)) = format_timestamp (Py.Finite (Q2Qc 59.5)).
Proof.
  apply (format_timestamp_same_second (Q2Qc 59.9) (Q2Qc 59.5)).
  - vm_compute. discriminate.
  - vm_compute. reflexivity.
  - vm_compute. discriminate.
  - vm_compute. reflexivity.
  - vm_compute. reflexivity.
Defined.

(** X3.  Below one hundred hours a time that is not negative is printed
    in exactly eight characters; from one hundred hours on the hours
    take more room and the eight are exceeded (nine at 360000 seconds),
    so the lines of a transcript stay aligned only for audio shorter
    than that. *)
Theorem format_timestamp_width (seconds : Qc) :
  (0 <= seconds)%Q -> (seconds < Py.pow2 53)%Q ->
  (exists text : string,
     format_timestamp (Py.Finite seconds) = Py.Ok text
     /\ (8 <= String.length text)%nat
     /\ ((seconds < 360000)%Q -> String.length text = 8%nat))
  /\ format_timestamp (Py.float_of_Z 360000) = Py.Ok "100:00:00".
Proof.
  intros Hnn Hlt. split; [|vm_compute; reflexivity].
  pose proof (Qfloor_nonneg _ Hnn) as Ht.
  rewrite (format_timestamp_two_digits seconds Hnn Hlt).
  set (t := Qfloor seconds) in *.
  eexists. split; [reflexivity|].
  rewrite !length_append, !length_two_digits. cbn [String.length].
  assert (Hh : 0 <= t / 3600) by (apply Z.div_pos; lia).
  split.
  - rewrite (format_02d_nonneg _ Hh).
    pose proof (length_zfill 2 (Py.digits (Z.to_N (t / 3600)))). lia.
  - intros Hlt'. apply (Qfloor_lt seconds 360000) in Hlt'. fold t in Hlt'.
    rewrite (format_02d_two_digits (t / 3600)), length_two_digits;
      [reflexivity|].
    split; [exact Hh|apply Z.div_lt_upper_bound; lia].
Qed.

(** The width at 59.9 seconds. *)
Lemma format_timestamp_width_witness :
  exists text : string,
    format_timestamp (Py.Finite (Q2Qc 59.9)) = Py.Ok text
    /\ String.length text = 8%nat.
Proof.
  assert (Hnn : (0 <= Q2Qc 59.9)%Q) by (vm_compute; discriminate).
  assert (Hlt : (Q2Qc 59.9 < Py.pow2 53)%Q) by (vm_compute; reflexivity).
  destruct (proj1 (format_timestamp_width (Q2Qc 59.9) Hnn Hlt))
    as (text & Hrun & _ & Heq).
  exists text. split; [exact Hrun|]. apply Heq. vm_compute. reflexivity.
Defined.

End TimestampCode.

(** ** The output path as a path *)

Section OutputPathShape.

Implicit Types (p : pathlib.PurePath) (s : string).

Lemma length_take s (i : nat) :
  String.length (Py.take i s) = Nat.min i (String.length s).
Proof.
  revert s. induction i as [|i IH]; intros s; [reflexivity|].
  destruct s as [|c s]; [reflexivity|]. cbn [Py.take String.length].
  now rewrite IH.
Qed.

Lemma take_app_length (a b : string) : Py.take (String.length a) (a +:+ b) = a.
Proof.
  induction a as [|c a IH]; [now destruct b|].
  rewrite append_cons. cbn [String.length Py.take]. now rewrite IH.
Qed.

Lemma drop_app_length (a b : string) : Py.drop (String.length a) (a +:+ b) = b.
Proof.
  induction a as [|c a IH]; [reflexivity|].
  rewrite append_cons. cbn [String.length Py.drop]. exact IH.
Qed.

(** The last occurrence of a character that occurs in the second part
    of a string lies in the second part. *)
Lemma rfind_app (c : ascii) (a b : string) :
  0 <= Py.rfind c b ->
  Py.rfind c (a +:+ b) = Z.of_nat (String.length a) + Py.rfind c b.
Proof.
  intros Hb. induction a as [|x a IH]; [reflexivity|].
  rewrite append_cons. cbn [Py.rfind String.length]. rewrite IH.
  destruct (Z.leb_spec 0 (Z.of_nat (String.length a) + Py.rfind c b)); lia.
Qed.

Lemma suffix_shorter p :
  pathlib.name p <> "" ->
  (String.length (pathlib.suffix p) < String.length (pathlib.name p))%nat.
Proof.
  intros Hname. unfold pathlib.suffix.
  destruct ((0 <? Py.rfind "." (pathlib.name p))
            && (Py.rfind "." (pathlib.name p)
                <? Z.of_nat (String.length (pathlib.name p)) - 1)) eqn:E.
  - apply andb_true_iff in E as [Hi1 Hi2]. apply Z.ltb_lt in Hi1, Hi2.
    rewrite length_drop. lia.
  - destruct (pathlib.name p); [contradiction|]. cbn [String.length]. lia.
Qed.

Lemma with_suffix_name p (out : pathlib.PurePath) :
  pathlib.with_suffix p ".txt" = Some out -> pathlib.name p <> "".
Proof.
  unfold pathlib.with_suffix.
  cbn [Py.contains Ascii.eqb Bool.eqb orb String.eqb String.prefix negb andb].
  destruct (String.eqb_spec (pathlib.name p) "") as [E|E]; [discriminate|].
  intros _. exact E.
Qed.

(** A path with a name and its output path, as strings: what stands in
    front of the suffix is shared. *)
Lemma output_path_str p (out : pathlib.PurePath) :
  pathlib.with_suffix p ".txt" = Some out ->
  exists base : string,
    base <> ""
    /\ pathlib.str p = base +:+ pathlib.suffix p
    /\ pathlib.str out = base +:+ ".txt".
Proof.
  intros Hout. pose proof (with_suffix_name p out Hout) as Hname.
  rewrite (with_suffix_txt p Hname) in Hout. injection Hout as <-.
  set (stem := Py.take (String.length (pathlib.name p)
                        - String.length (pathlib.suffix p)) (pathlib.name p)).
  set (dir := pathlib.root p +:+ dirs (List.removelast (pathlib.tail p))).
  assert (Hstem : stem <> "").
  { intros E. apply (f_equal String.length) in E. unfold stem in E.
    rewrite length_take in E. pose proof (suffix_shorter p Hname).
    cbn [String.length] in E. lia. }
  exists (dir +:+ stem). split; [|split].
  - intros E. apply append_nil_inv in E as [_ E]. contradiction.
  - rewrite (str_name p Hname). fold dir.
    rewrite (name_stem_suffix p) at 1. fold stem. now rewrite append_assoc.
  - rewrite str_snoc.
    + fold dir. now rewrite append_assoc.
    + intros E. apply append_nil_inv in E as [_ E]. discriminate E.
Qed.

(** X4.  The output path lies beside the input (same root, same
    directories), its name ends in the suffix [.txt], and it is its own
    output path: a run on a file that is itself a transcript would write
    onto that file. *)
Theorem output_path_is_fixed_point p (out : pathlib.PurePath) :
  pathlib.with_suffix p ".txt" = Some out ->
  pathlib.root out = pathlib.root p
  /\ List.removelast (pathlib.tail out) = List.removelast (pathlib.tail p)
  /\ pathlib.suffix out = ".txt"
  /\ pathlib.with_suffix out ".txt" = Some out.
Proof.
  intros Hout. pose proof (with_suffix_name p out Hout) as Hname.
  rewrite (with_suffix_txt p Hname) in Hout. injection Hout as <-.
  set (stem := Py.take (String.length (pathlib.name p)
                        - String.length (pathlib.suffix p)) (pathlib.name p)).
  set (out := {| pathlib.root := _; pathlib.tail := _ |}).
  assert (Hlen : (0 < String.length stem)%nat).
  { unfold stem. rewrite length_take. pose proof (suffix_shorter p Hname). lia. }
  assert (Hnm : pathlib.name out = stem +:+ ".txt").
  { unfold pathlib.name, out. cbn [pathlib.tail]. apply last_last. }
  assert (Hinit : List.removelast (pathlib.tail out)
                  = List.removelast (pathlib.tail p)).
  { unfold out. cbn [pathlib.tail]. apply removelast_last. }
  assert (Hsuf : pathlib.suffix out = ".txt").
  { unfold pathlib.suffix. rewrite Hnm.
    rewrite (rfind_app "." stem ".txt") by (vm_compute; discriminate).
    rewrite length_append.
    change (Py.rfind "." ".txt") with 0. change (String.length ".txt") with 4%nat.
    rewrite Z.add_0_r.
    destruct (Z.ltb_spec 0 (Z.of_nat (String.length stem))) as [_|?]; [|lia].
    destruct (Z.ltb_spec (Z.of_nat (String.length stem))
                (Z.of_nat (String.length stem + 4) - 1)) as [_|?]; [|lia].
    cbn [andb]. rewrite Nat2Z.id. apply drop_app_length. }
  split; [reflexivity|]. split; [exact Hinit|]. split; [exact Hsuf|].
  rewrite with_suffix_txt by (rewrite Hnm; intros E;
    apply append_nil_inv in E as [_ E]; discriminate E).
  rewrite Hsuf, Hnm, Hinit, length_append.
  change (String.length ".txt") with 4%nat.
  replace (String.length stem + 4 - 4)%nat with (String.length stem) by lia.
  rewrite take_app_length. reflexivity.
Qed.

(** The output path of [/d/audio.m4a]. *)
Lemma output_path_is_fixed_point_witness :
  pathlib.suffix {| pathlib.root := "/"; pathlib.tail := ["d"; "audio.txt"] |}
    = ".txt"
  /\ pathlib.with_suffix
       {| pathlib.root := "/"; pathlib.tail := ["d"; "audio.txt"] |} ".txt"
     = Some {| pathlib.root := "/"; pathlib.tail := ["d"; "audio.txt"] |}.
Proof.
  apply (output_path_is_fixed_point (pathlib.Path "/d/audio.m4a")
           {| pathlib.root := "/"; pathlib.tail := ["d"; "audio.txt"] |}).
  vm_compute. reflexivity.
Defined.

End OutputPathShape.

(** ** What a run does to the files *)

Section Files.

Variable engine : faster_whisper.Engine.

Implicit Types (w : World) (audio_path model_size language : string).
Implicit Types (info : faster_whisper.TranscriptionInfo).
Implicit Types (segments : list faster_whisper.Segment).

(** The run of [transcribe] when the generator raises after some
    segments: the bar is left as the loop left it, and open. *)
Lemma transcribe_interrupted_run w audio_path model_size language
    info segments (exc : string) :
  let path := pathlib.Path audio_path in
  is_Some (fs w !! pathlib.str path) ->
  faster_whisper.load_error engine model_size = None ->
  faster_whisper.run engine model_size (pathlib.str path) language
    = faster_whisper.Segments info segments (Some exc) ->
  transcribe engine audio_path model_size language w =
    (Raised exc,
     {| fs := fs w;
        stdout := stdout w ++ printed_before_loop model_size path info;
        models := models w ++ [model_size];
        bars := bars w ++
          [ bar_after (Py.to_float (faster_whisper.duration info)) segments ] |}).
Proof.
  intros path Hex Hload Hrun.
  unfold transcribe. fold path.
  unfold mbind, io_bind, exists_.
  rewrite (bool_decide_eq_true_2 _ Hex). cbn [negb].
  unfold WhisperModel, model_transcribe. rewrite Hload, Hrun.
  cbn [print mret io_ret fs stdout models bars].
  rewrite format_timestamp_finite. cbn [eval].
  rewrite consume_eq.
  cbn [print show raise fs stdout models bars].
  rewrite bar_after_eq. unfold printed_before_loop.
  f_equal. f_equal. rewrite <- !app_assoc. reflexivity.
Qed.

(** Every run either fails and leaves the files as they were, or returns
    and leaves the world of a successful run. *)
Lemma transcribe_inv w audio_path model_size language
    (o : Outcome unit) (w' : World) :
  transcribe engine audio_path model_size language w = (o, w') ->
  (o <> Returned tt /\ fs w' = fs w)
  \/ (exists info segments (output_path : pathlib.PurePath),
        pathlib.with_suffix (pathlib.Path audio_path) ".txt" = Some output_path
        /\ o = Returned tt
        /\ w' = world_after w model_size (pathlib.Path audio_path) output_path
                  info segments).
Proof.
  intros H.
  destruct (fs w !! pathlib.str (pathlib.Path audio_path)) as [content|] eqn:Hfile.
  2: { left. revert H. missing_file Hfile.
       intros H. injection H as <- <-. split; [discriminate|reflexivity]. }
  assert (Hex : is_Some (fs w !! pathlib.str (pathlib.Path audio_path))) by (rewrite Hfile; eauto).
  destruct (faster_whisper.load_error engine model_size) as [exc|] eqn:Hload.
  { left. revert H. unfold transcribe.
    unfold mbind, io_bind, exists_, WhisperModel.
    rewrite (bool_decide_eq_true_2 _ Hex), Hload.
    cbn [negb print fs stdout models bars].
    intros H. injection H as <- <-. split; [discriminate|reflexivity]. }
  destruct (faster_whisper.run engine model_size (pathlib.str (pathlib.Path audio_path)) language)
    as [exc|info segments [exc|]] eqn:Hrun.
  - left. revert H. unfold transcribe.
    unfold mbind, io_bind, exists_, WhisperModel, model_transcribe.
    rewrite (bool_decide_eq_true_2 _ Hex), Hload, Hrun.
    cbn [negb print raise fs stdout models bars].
    intros H. injection H as <- <-. split; [discriminate|reflexivity].
  - left.
    rewrite (transcribe_interrupted_run w audio_path model_size language
               info segments exc Hex Hload Hrun) in H.
    injection H as <- <-. split; [discriminate|reflexivity].
  - destruct (pathlib.with_suffix (pathlib.Path audio_path) ".txt") as [output_path|] eqn:Hout.
    + right. exists info, segments, output_path.
      rewrite (transcribe_run engine w audio_path model_size language
                 info segments output_path Hex Hload Hrun Hout) in H.
      injection H as <- <-. repeat split.
    + left. revert H. unfold transcribe.
      unfold mbind, io_bind, exists_, WhisperModel, model_transcribe.
      rewrite (bool_decide_eq_true_2 _ Hex), Hload, Hrun.
      cbn [negb print mret io_ret fs stdout models bars].
      rewrite format_timestamp_finite. cbn [eval].
      rewrite consume_eq, Hout.
      cbn [print show raise fs stdout models bars].
      intros H. injection H as <- <-. split; [discriminate|reflexivity].
Qed.

(** X5.  A run that does not return, because the file is missing, the
    engine raises at any of its three points or the output path cannot
    be formed, leaves every file as it was: the output file is written
    only after the last segment, so no partial transcript is left and an
    older transcript is not truncated. *)
Theorem failed_run_leaves_files w audio_path model_size language
    (o : Outcome unit) (w' : World) :
  transcribe engine audio_path model_size language w = (o, w') ->
  o <> Returned tt ->
  fs w' = fs w.
Proof.
  intros H Hfail.
  destruct (transcribe_inv w audio_path model_size language o w' H)
    as [[_ Hfs]|(info & segments & output_path & _ & Ho & _)].
  - exact Hfs.
  - contradiction.
Qed.

(** X6.  Whatever its outcome, a run changes no file other than the
    output path and removes none: every other path keeps its content,
    and every file that was there before is there after. *)
Theorem run_touches_output_only w audio_path model_size language
    (o : Outcome unit) (w' : World) :
  transcribe engine audio_path model_size language w = (o, w') ->
  (forall q : string,
     pathlib.str <$> pathlib.with_suffix (pathlib.Path audio_path) ".txt"
       <> Some q ->
     fs w' !! q = fs w !! q)
  /\ (forall q : string, is_Some (fs w !! q) -> is_Some (fs w' !! q)).
Proof.
  intros H.
  destruct (transcribe_inv w audio_path model_size language o w' H)
    as [[_ Hfs]|(info & segments & output_path & Hout & _ & ->)].
  - rewrite Hfs. split; auto.
  - unfold world_after. cbn [fs]. split.
    + intros q Hq. apply lookup_insert_ne. intros E. apply Hq.
      rewrite Hout. cbn. now rewrite E.
    + intros q Hq. apply lookup_insert_is_Some'. now right.
Qed.

(** X7.  The input file is never changed by a run unless its own suffix
    is [.txt]: for every other input the output path differs from the
    input path, so the audio is still there, unchanged, after the run. *)
Theorem input_file_is_kept w audio_path model_size language
    (o : Outcome unit) (w' : World) :
  let path := pathlib.Path audio_path in
  transcribe engine audio_path model_size language w = (o, w') ->
  pathlib.suffix path <> ".txt" ->
  fs w' !! pathlib.str path = fs w !! pathlib.str path.
Proof.
  intros path H Hsuf.
  destruct (transcribe_inv w audio_path model_size language o w' H)
    as [[_ Hfs]|(info & segments & output_path & Hout & _ & ->)].
  - now rewrite Hfs.
  - unfold world_after. cbn [fs]. apply lookup_insert_ne.
    destruct (output_path_str _ _ Hout) as (base & _ & Hp & Ho).
    fold path in Hp. rewrite Hp, Ho. intros E.
    apply String.app_inj in E. apply Hsuf. now rewrite <- E.
Qed.

(** X8.  An input whose suffix is already [.txt] is its own output path:
    a successful run replaces the input file by its transcript. *)
Theorem txt_input_is_overwritten w audio_path model_size language
    info segments :
  let path := pathlib.Path audio_path in
  pathlib.suffix path = ".txt" ->
  is_Some (fs w !! pathlib.str path) ->
  faster_whisper.load_error engine model_size = None ->
  faster_whisper.run engine model_size (pathlib.str path) language
    = faster_whisper.Segments info segments None ->
  exists w' : World,
    transcribe engine audio_path model_size language w = (Returned tt, w')
    /\ pathlib.with_suffix path ".txt" = Some path
    /\ fs w' !! pathlib.str path
         = Some (transcript (pathlib.name path) info segments).
Proof.
  intros path Hsuf Hex Hload Hrun.
  assert (Hname : pathlib.name path <> "").
  { apply suffix_name. rewrite Hsuf. discriminate. }
  assert (Hout : pathlib.with_suffix path ".txt" = Some path).
  { rewrite (with_suffix_txt path Hname), Hsuf.
    pose proof (name_stem_suffix path) as Hn. rewrite Hsuf in Hn.
    rewrite <- Hn, <- (tail_snoc path Hname). now destruct path. }
  eexists. split; [apply (transcribe_run engine); eassumption|].
  split; [exact Hout|].
  unfold world_after. cbn [fs]. apply lookup_insert_eq.
Qed.

(** X9.  When the generator of segments raises after it has yielded
    some of them, that exception leaves [transcribe]: the model was
    instantiated and the summary printed, the progress bar stays open
    where the last update of the loop left it (at the end of the segment
    when one segment was yielded), no file is written and the lines
    formatted so far are lost. *)
Theorem interrupted_run_loses_transcript w audio_path model_size language
    info segments (exc : string) :
  let path := pathlib.Path audio_path in
  let total := Py.to_float (faster_whisper.duration info) in
  is_Some (fs w !! pathlib.str path) ->
  faster_whisper.load_error engine model_size = None ->
  faster_whisper.run engine model_size (pathlib.str path) language
    = faster_whisper.Segments info segments (Some exc) ->
  exists (w' : World) (bar : tqdm.t),
    transcribe engine audio_path model_size language w = (Raised exc, w')
    /\ fs w' = fs w
    /\ models w' = models w ++ [model_size]
    /\ bars w' = bars w ++ [bar]
    /\ tqdm.closed bar = false
    /\ tqdm.total bar = total
    /\ tqdm.n bar = position_after total segments (length segments)
    /\ (forall only,
          segments = [only] ->
          tqdm.n bar = Py.to_float (faster_whisper.end_ only))
    /\ stdout w' = stdout w ++
         [ "Model laden (" +:+ model_size +:+ ")...";
           "Transcriberen: " +:+ pathlib.name path;
           "Taal gedetecteerd: " +:+ faster_whisper.language info
             +:+ " (waarschijnlijkheid: "
             +:+ Py.format_2f (Py.value (faster_whisper.language_probability info))
             +:+ ")";
           "Duur: " +:+ timestamp (faster_whisper.duration info);
           "------------------------------------------------------------" ]
    /\ format_timestamp total = Py.Ok (timestamp (faster_whisper.duration info)).
Proof.
  intros path total Hex Hload Hrun.
  eexists _, (bar_after total segments). split.
  - apply transcribe_interrupted_run; eassumption.
  - cbn [fs models bars stdout]. fold total.
    split; [reflexivity|]. split; [reflexivity|]. split; [reflexivity|].
    rewrite bar_after_eq.
    destruct (advance_total_closed segments (tqdm.new total)) as [-> ->].
    split; [reflexivity|]. split; [reflexivity|].
    rewrite <- bar_after_eq. split; [symmetry; apply position_after_all|].
    split; [|split; [reflexivity|apply format_timestamp_finite]].
    intros only ->. unfold bar_after. cbn [consume].
    rewrite loop_body_eq. cbn [consume fst snd advance tqdm.update tqdm.n tqdm.new].
    apply step_first, Py.value_ok.
Qed.

End Files.

(** The stub interrupted over an older transcript: the files stay. *)
Lemma failed_run_leaves_files_witness :
  fst (transcribe (interrupted_engine stub_info first_segment_only "RuntimeError")
         "/d/audio.m4a" "large-v3" "nl" transcribed_world)
    = Raised "RuntimeError"
  /\ fs (snd (transcribe
                (interrupted_engine stub_info first_segment_only "RuntimeError")
                "/d/audio.m4a" "large-v3" "nl" transcribed_world))
     = fs transcribed_world.
Proof.
  split; [vm_compute; reflexivity|].
  apply (failed_run_leaves_files
           (interrupted_engine stub_info first_segment_only "RuntimeError")
           transcribed_world "/d/audio.m4a" "large-v3" "nl"
           (fst (transcribe
                   (interrupted_engine stub_info first_segment_only "RuntimeError")
                   "/d/audio.m4a" "large-v3" "nl" transcribed_world))).
  - apply surjective_pairing.
  - vm_compute. discriminate.
Defined.

(** The audio file after a run of the stub over an older transcript. *)
Lemma run_touches_output_only_witness :
  fs (snd (transcribe (stub_engine stub_info stub_segments) "/d/audio.m4a"
             "large-v3" "nl" transcribed_world)) !! "/d/audio.m4a"
    = fs transcribed_world !! "/d/audio.m4a".
Proof.
  apply (proj1 (run_touches_output_only (stub_engine stub_info stub_segments)
                  transcribed_world "/d/audio.m4a" "large-v3" "nl" _ _
                  (surjective_pairing _))).
  vm_compute. discriminate.
Defined.

(** The same, by the suffix of the input. *)
Lemma input_file_is_kept_witness :
  fs (snd (transcribe (stub_engine stub_info stub_segments) "/d/audio.m4a"
             "large-v3" "nl" transcribed_world))
    !! pathlib.str (pathlib.Path "/d/audio.m4a")
    = fs transcribed_world !! pathlib.str (pathlib.Path "/d/audio.m4a").
Proof.
  apply (input_file_is_kept (stub_engine stub_info stub_segments)
           transcribed_world "/d/audio.m4a" "large-v3" "nl"
           (fst (transcribe (stub_engine stub_info stub_segments) "/d/audio.m4a"
                   "large-v3" "nl" transcribed_world))).
  - apply surjective_pairing.
  - vm_compute. discriminate.
Defined.

(** A run on the older transcript itself. *)
Lemma txt_input_is_overwritten_witness :
  exists w' : World,
    transcribe (stub_engine stub_info stub_segments) "/d/audio.txt" "large-v3" "nl"
      transcribed_world = (Returned tt, w')
    /\ pathlib.with_suffix (pathlib.Path "/d/audio.txt") ".txt"
       = Some (pathlib.Path "/d/audio.txt")
    /\ fs w' !! pathlib.str (pathlib.Path "/d/audio.txt")
       = Some (transcript (pathlib.name (pathlib.Path "/d/audio.txt"))
                 stub_info stub_segments).
Proof.
  apply (txt_input_is_overwritten (stub_engine stub_info stub_segments)
           transcribed_world "/d/audio.txt" "large-v3" "nl"
           stub_info stub_segments).
  - vm_compute. reflexivity.
  - vm_compute. eexists. reflexivity.
  - reflexivity.
  - reflexivity.
Defined.

(** The stub interrupted after its first segment. *)
Lemma interrupted_run_loses_transcript_witness :
  exists (w' : World) (bar : tqdm.t),
    transcribe (interrupted_engine stub_info first_segment_only "RuntimeError")
      "/d/audio.m4a" "large-v3" "nl" audio_world = (Raised "RuntimeError", w')
    /\ fs w' = fs audio_world
    /\ models w' = models audio_world ++ ["large-v3"]
    /\ bars w' = bars audio_world ++ [bar]
    /\ tqdm.closed bar = false
    /\ tqdm.total bar = Py.to_float f_10_0
    /\ tqdm.n bar = Py.to_float f_2_5.
Proof.
  destruct (interrupted_run_loses_transcript
              (interrupted_engine stub_info first_segment_only "RuntimeError")
              audio_world "/d/audio.m4a" "large-v3" "nl" stub_info
              first_segment_only "RuntimeError")
    as (w' & bar & H1 & H2 & H3 & H4 & H5 & H6 & _ & H8 & _).
  - vm_compute. eexists. reflexivity.
  - reflexivity.
  - reflexivity.
  - exists w', bar. repeat (split; [assumption|]).
    apply (H8 _ eq_refl).
Defined.

(** ** Two files in one batch *)

Section BatchOfTwo.

Variable engine : faster_whisper.Engine.

(** X10.  A batch of two files that both transcribe returns, with the
    model instantiated once per file and the separator as the last line
    printed.  The transcript of the second file is in its output file;
    that of the first is in its own only when the two output paths
    differ: two inputs that are alike in front of their suffixes share
    the output path, and the second transcript replaces the first. *)
Theorem batch_of_two (a b : string) (w : World)
    (info_a info_b : faster_whisper.TranscriptionInfo)
    (segments_a segments_b : list faster_whisper.Segment) :
  let path_a := pathlib.Path a in
  let path_b := pathlib.Path b in
  is_Some (fs w !! pathlib.str path_a) ->
  is_Some (fs w !! pathlib.str path_b) ->
  pathlib.name path_a <> "" ->
  pathlib.name path_b <> "" ->
  faster_whisper.load_error engine "large-v3" = None ->
  faster_whisper.run engine "large-v3" (pathlib.str path_a) "nl"
    = faster_whisper.Segments info_a segments_a None ->
  faster_whisper.run engine "large-v3" (pathlib.str path_b) "nl"
    = faster_whisper.Segments info_b segments_b None ->
  exists (out_a out_b : pathlib.PurePath) (w' : World),
    pathlib.with_suffix path_a ".txt" = Some out_a
    /\ pathlib.with_suffix path_b ".txt" = Some out_b
    /\ batch engine [a; b] w = (Returned tt, w')
    /\ models w' = models w ++ ["large-v3"; "large-v3"]
    /\ List.last (stdout w') "" =
         Py.nl +:+ "============================================================"
         +:+ Py.nl
    /\ fs w' !! pathlib.str out_b
       = Some (transcript (pathlib.name path_b) info_b segments_b)
    /\ (pathlib.str out_a <> pathlib.str out_b ->
        fs w' !! pathlib.str out_a
        = Some (transcript (pathlib.name path_a) info_a segments_a))
    /\ (forall base : string,
          pathlib.str path_a = base +:+ pathlib.suffix path_a ->
          pathlib.str path_b = base +:+ pathlib.suffix path_b ->
          pathlib.str out_a = pathlib.str out_b).
Proof.
  intros path_a path_b Hex_a Hex_b Hname_a Hname_b Hload Hrun_a Hrun_b.
  pose proof (with_suffix_txt path_a Hname_a) as Hout_a.
  pose proof (with_suffix_txt path_b Hname_b) as Hout_b.
  set (out_a := {| pathlib.root := pathlib.root path_a; pathlib.tail := _ |})
    in Hout_a.
  set (out_b := {| pathlib.root := pathlib.root path_b; pathlib.tail := _ |})
    in Hout_b.
  exists out_a, out_b.
  rewrite batch_cons.
  rewrite (transcribe_run engine w a "large-v3" "nl" info_a segments_a out_a
             Hex_a Hload Hrun_a Hout_a).
  rewrite batch_cons.
  match goal with
  | |- context [transcribe engine b "large-v3" "nl" ?w1] => set (w1' := w1)
  end.
  assert (Hex_b1 : is_Some (fs w1' !! pathlib.str path_b)).
  { unfold w1', world_after. cbn [fs].
    apply lookup_insert_is_Some'. now right. }
  rewrite (transcribe_run engine w1' b "large-v3" "nl" info_b segments_b out_b
             Hex_b1 Hload Hrun_b Hout_b).
  eexists. split; [exact Hout_a|]. split; [exact Hout_b|].
  split; [reflexivity|].
  unfold w1', world_after. cbn [fs stdout models bars].
  split; [now rewrite <- app_assoc|].
  split; [apply last_last|].
  split; [apply lookup_insert_eq|]. split.
  - intros Hne. rewrite lookup_insert_ne by congruence. apply lookup_insert_eq.
  - intros base Ha Hb.
    destruct (output_path_str _ _ Hout_a) as (base_a & _ & Hpa & Hoa).
    destruct (output_path_str _ _ Hout_b) as (base_b & _ & Hpb & Hob).
    rewrite Hoa, Hob. f_equal.
    rewrite Ha in Hpa. rewrite Hb in Hpb.
    assert (Hla : String.length base = String.length base_a).
    { apply (f_equal String.length) in Hpa. rewrite !length_append in Hpa. lia. }
    assert (Hlb : String.length base = String.length base_b).
    { apply (f_equal String.length) in Hpb. rewrite !length_append in Hpb. lia. }
    apply append_inj_tail in Hpa as [<- _]; [|reflexivity].
    apply append_inj_tail in Hpb as [<- _]; [|reflexivity].
    reflexivity.
Qed.

End BatchOfTwo.

(** The batch over [/d/a.m4a] and [/d/a.wav]: one output file, holding
    the transcript of the second. *)
Lemma batch_of_two_witness :
  exists (out_a out_b : pathlib.PurePath) (w' : World),
    pathlib.with_suffix (pathlib.Path "/d/a.m4a") ".txt" = Some out_a
    /\ pathlib.with_suffix (pathlib.Path "/d/a.wav") ".txt" = Some out_b
    /\ batch (stub_engine stub_info stub_segments) ["/d/a.m4a"; "/d/a.wav"]
         same_stem_world = (Returned tt, w')
    /\ models w' = models same_stem_world ++ ["large-v3"; "large-v3"]
    /\ List.last (stdout w') "" =
         Py.nl +:+ "============================================================"
         +:+ Py.nl
    /\ fs w' !! pathlib.str out_b
       = Some (transcript (pathlib.name (pathlib.Path "/d/a.wav"))
                 stub_info stub_segments)
    /\ pathlib.str out_a = pathlib.str out_b.
Proof.
  destruct (batch_of_two (stub_engine stub_info stub_segments)
              "/d/a.m4a" "/d/a.wav" same_stem_world
              stub_info stub_info stub_segments stub_segments)
    as (out_a & out_b & w' & Ha & Hb & Hrun & Hmodels & Hlast & Hfb & _ & Hsame).
  - vm_compute. eexists. reflexivity.
  - vm_compute. eexists. reflexivity.
  - vm_compute. discriminate.
  - vm_compute. discriminate.
  - reflexivity.
  - reflexivity.
  - reflexivity.
  - exists out_a, out_b, w'. repeat (split; [assumption|]).
    apply (Hsame "/d/a"); vm_compute; reflexivity.
Defined.

(** ** Blank segments *)

Section Blank.

Lemma lstrip_all_space (s : string) : all_space s = true -> Py.lstrip s = "".
Proof.
  induction s as [|c s IH]; [reflexivity|].
  cbn [all_space Py.lstrip]. intros H. apply andb_true_iff in H as [Hc Hs].
  rewrite Hc. apply IH, Hs.
Qed.

Lemma all_space_app (a b : string) :
  all_space (a +:+ b) = all_space a && all_space b.
Proof.
  induction a as [|c a IH]; [reflexivity|].
  rewrite append_cons. cbn [all_space]. now rewrite IH, andb_assoc.
Qed.

(** The texts that [strip] empties are the blank ones. *)
Lemma strip_empty (s : string) : Py.strip s = "" <-> all_space s = true.
Proof.
  split.
  - intros E. destruct (strip_spec s) as (l & r & Hs & Hl & Hr & _).
    rewrite E in Hs. rewrite Hs, !all_space_app, Hl, Hr. reflexivity.
  - intros H. unfold Py.strip. now rewrite (lstrip_all_space _ H).
Qed.

(** X11.  A segment whose text is empty or all whitespace is not left
    out: the body of the loop does not raise, it still adds the line of
    the segment, which is the two timestamps in brackets followed by two
    spaces and nothing else, and it still updates the bar by the end of
    the segment minus the position. *)
Theorem blank_segment_line (output_lines : list string) (progress : tqdm.t)
    (segment : faster_whisper.Segment) :
  all_space (faster_whisper.text segment) = true ->
  loop_body (output_lines, progress) segment =
    Py.Ok
      (output_lines ++
         [ "[" +:+ timestamp (faster_whisper.start segment) +:+ " -> "
               +:+ timestamp (faster_whisper.end_ segment) +:+ "]  " ],
       tqdm.update progress
         (Py.sub (Py.to_float (faster_whisper.end_ segment)) (tqdm.n progress)))
  /\ format_timestamp (Py.to_float (faster_whisper.start segment))
     = Py.Ok (timestamp (faster_whisper.start segment))
  /\ format_timestamp (Py.to_float (faster_whisper.end_ segment))
     = Py.Ok (timestamp (faster_whisper.end_ segment)).
Proof.
  intros Hblank. rewrite loop_body_eq. unfold segment_line, Py.strip, advance.
  rewrite (lstrip_all_space _ Hblank). cbn [Py.rstrip].
  rewrite append_nil_r, !format_timestamp_finite. repeat split.
Qed.

(** The line of a segment of three spaces between 2.5 and 4 seconds. *)
Lemma blank_segment_line_witness :
  loop_body (["[00:00:00 -> 00:00:02]  hallo"], tqdm.new (Py.to_float f_10_0))
    blank_segment =
    Py.Ok
      (["[00:00:00 -> 00:00:02]  hallo"] ++
         [ "[" +:+ timestamp (faster_whisper.start blank_segment) +:+ " -> "
               +:+ timestamp (faster_whisper.end_ blank_segment) +:+ "]  " ],
       tqdm.update (tqdm.new (Py.to_float f_10_0))
         (Py.sub (Py.to_float (faster_whisper.end_ blank_segment))
                 (tqdm.n (tqdm.new (Py.to_float f_10_0))))).
Proof.
  apply (proj1 (blank_segment_line ["[00:00:00 -> 00:00:02]  hallo"]
                  (tqdm.new (Py.to_float f_10_0)) blank_segment eq_refl)).
Defined.

End Blank.

(** ** The end of the transcript *)

Section FinalCharacter.

Implicit Types (s : string) (c : ascii).

Lemma last_char_cons c s : s <> "" -> last_char (String c s) = last_char s.
Proof. destruct s; [contradiction|reflexivity]. Qed.

Lemma last_char_app (a b : string) :
  b <> "" -> last_char (a +:+ b) = last_char b.
Proof.
  intros Hb. induction a as [|c a IH]; [reflexivity|].
  rewrite append_cons, last_char_cons; [exact IH|].
  intros E. apply append_nil_inv in E as [_ E]. contradiction.
Qed.

Lemma last_char_is_Some s : s <> "" -> exists c, last_char s = Some c.
Proof.
  induction s as [|a s IH]; [contradiction|]. intros _.
  destruct s as [|b s]; [exists a; reflexivity|].
  rewrite last_char_cons by discriminate. apply IH. discriminate.
Qed.

(** The joined lines end as the last line ends. *)
Lemma join_last (sep : string) (init : list string) (x : string) :
  x <> "" ->
  Py.join sep (init ++ [x]) <> ""
  /\ last_char (Py.join sep (init ++ [x])) = last_char x.
Proof.
  intros Hx. unfold Py.join.
  induction init as [|y init [IHne IH]]; [split; [exact Hx|reflexivity]|].
  assert (E : String.concat sep ((y :: init) ++ [x])
              = y +:+ sep +:+ String.concat sep (init ++ [x]))
    by (destruct init; reflexivity).
  rewrite E. split.
  - intros H. apply append_nil_inv in H as [_ H].
    apply append_nil_inv in H as [_ H]. contradiction.
  - rewrite <- append_assoc, last_char_app by exact IHne. exact IH.
Qed.

(** A line ends in the last character of its stripped text, or in the
    second of the two spaces when that text is empty. *)
Lemma segment_line_last (segment : faster_whisper.Segment) :
  let t := Py.strip (faster_whisper.text segment) in
  segment_line segment <> ""
  /\ (t <> "" -> last_char (segment_line segment) = last_char t)
  /\ (t = "" -> last_char (segment_line segment) = Some " "%char).
Proof.
  intros t. unfold segment_line. fold t. split; [discriminate|].
  set (a := timestamp (faster_whisper.start segment)).
  set (b := timestamp (faster_whisper.end_ segment)).
  assert (E : "[" +:+ a +:+ " -> " +:+ b +:+ "]  " +:+ t
              = (("[" +:+ a +:+ " -> " +:+ b) +:+ "]  ") +:+ t)
    by (rewrite !append_assoc; reflexivity).
  rewrite E. split.
  - intros Ht. now apply last_char_app.
  - intros ->. rewrite append_nil_r. apply last_char_app. discriminate.
Qed.

(** X12.  The file that a run writes has no newline at its end once
    there is a segment: its last character is the last character of the
    last segment's stripped text, which is no whitespace, and it is a
    space exactly when that text is blank.  With no segment the file
    ends in the newline of the blank line of the header. *)
Theorem transcript_final_character (engine : faster_whisper.Engine)
    (w : World) (audio_path model_size language : string)
    (info : faster_whisper.TranscriptionInfo)
    (segments : list faster_whisper.Segment)
    (output_path : pathlib.PurePath) :
  let path := pathlib.Path audio_path in
  is_Some (fs w !! pathlib.str path) ->
  faster_whisper.load_error engine model_size = None ->
  faster_whisper.run engine model_size (pathlib.str path) language
    = faster_whisper.Segments info segments None ->
  pathlib.with_suffix path ".txt" = Some output_path ->
  exists (w' : World) (content : string),
    transcribe engine audio_path model_size language w = (Returned tt, w')
    /\ fs w' !! pathlib.str output_path = Some content
    /\ (segments = [] -> last_char content = Some "010"%char)
    /\ (forall init last,
          segments = init ++ [last] ->
          let t := Py.strip (faster_whisper.text last) in
          (t <> "" ->
           last_char content = last_char t
           /\ exists c : ascii, last_char t = Some c /\ Py.isspace c = false)
          /\ (last_char content = Some " "%char
              <-> all_space (faster_whisper.text last) = true)
          /\ last_char content <> Some "010"%char).
Proof.
  intros path Hex Hload Hrun Hout.
  exists (world_after w model_size path output_path info segments),
    (transcript (pathlib.name path) info segments).
  split; [apply (transcribe_run engine); assumption|].
  split; [unfold world_after; cbn [fs]; apply lookup_insert_eq|].
  unfold transcript, body. split.
  - intros ->. cbn [fmap list_fmap Py.join String.concat].
    rewrite append_nil_r. unfold header.
    rewrite <- !append_assoc. apply last_char_app. discriminate.
  - intros init last Hseg. cbv zeta. subst segments.
    set (t := Py.strip (faster_whisper.text last)).
    rewrite fmap_app. cbn [fmap list_fmap].
    destruct (segment_line_last last) as (Hline & Hfull & Hempty).
    fold t in Hfull, Hempty.
    destruct (join_last Py.nl (segment_line <$> init) (segment_line last) Hline)
      as [Hjoin Hlast].
    rewrite last_char_app by exact Hjoin. rewrite Hlast.
    assert (Hns : forall c, last_char t = Some c -> Py.isspace c = false).
    { destruct (strip_spec (faster_whisper.text last))
        as (l & r & _ & _ & _ & _ & H). exact H. }
    destruct (string_dec t "") as [Ht|Ht].
    + rewrite (Hempty Ht). split; [contradiction|]. split; [|discriminate].
      split; [intros _; apply strip_empty, Ht|reflexivity].
    + rewrite (Hfull Ht). destruct (last_char_is_Some t Ht) as [c Hc].
      pose proof (Hns c Hc) as Hcs. split; [|split].
      * intros _. split; [reflexivity|]. exists c. split; assumption.
      * split.
        -- intros E. rewrite Hc in E. injection E as ->. discriminate Hcs.
        -- intros Hb. apply strip_empty in Hb. contradiction.
      * rewrite Hc. intros E. injection E as ->. discriminate Hcs.
Qed.

(** The end of the file that the run of the stub writes: the last
    letter of [wereld]. *)
Lemma transcript_final_character_witness :
  exists (w' : World) (content : string),
    transcribe (stub_engine stub_info stub_segments) "/d/audio.m4a" "large-v3"
      "nl" audio_world = (Returned tt, w')
    /\ fs w' !! "/d/audio.txt" = Some content
    /\ last_char content = Some "d"%char.
Proof.
  destruct (transcript_final_character (stub_engine stub_info stub_segments)
              audio_world "/d/audio.m4a" "large-v3" "nl" stub_info stub_segments
              {| pathlib.root := "/"; pathlib.tail := ["d"; "audio.txt"] |})
    as (w' & content & Hrun & Hfile & _ & Hlast).
  - vm_compute. eexists. reflexivity.
  - reflexivity.
  - reflexivity.
  - vm_compute. reflexivity.
  - exists w', content. split; [exact Hrun|]. split; [exact Hfile|].
    destruct (Hlast [ {| faster_whisper.start := f_0_0;
                         faster_whisper.end_ := f_2_5;
                         faster_whisper.text := " hallo " |} ]
                {| faster_whisper.start := f_2_5; faster_whisper.end_ := f_10_0;
                   faster_whisper.text := "wereld" |} eq_refl)
      as (Hfull & _).
    destruct Hfull as [-> _]; [discriminate|reflexivity].
Defined.

End FinalCharacter.
